(** * Job Scraping API (api.py): a shallow embedding and its verified properties

    The development follows the layout of [api.py]:
    - [PyStr]   : the Python string operations the scraper relies on;
    - [Html]    : parsed documents and the BeautifulSoup queries used on them;
    - [Runtime] : the outside world (HTTP, browser, randomness, log) as oracles,
                  and the state-and-exception monad the scraping code runs in;
    - [LinkedIn], [Indeed] : the two scrapers, function by function;
    - the theorems, one block per property of the specification. *)

From stdpp Require Import base option list strings gmap pretty.
From Stdlib Require Import ZArith Lia Ascii String.

Set Warnings "-register-all,-clear-no-such-hyp".

Open Scope Z_scope.
Open Scope string_scope.
Open Scope list_scope.

(* ===================================================================== *)
(** ** Python strings *)
(* ===================================================================== *)

(** A Python [str] is modelled by its UTF-8 encoding, one [ascii] per byte. *)

Module PyStr.

(** [sep.join(l)] *)
Fixpoint join (sep : string) (l : list string) : string :=
  match l with
  | [] => ""
  | [x] => x
  | x :: l' => x +:+ sep +:+ join sep l'
  end.

(** *** White space

    The white-space characters of [str.strip()] and [str.isspace()] are
    U+0009..U+000D, U+001C..U+0020, U+0085, U+00A0, U+1680, U+2000..U+200A,
    U+2028, U+2029, U+202F, U+205F and U+3000: one, two or three bytes. *)

Definition space1 (a : nat) : bool :=
  ((9 <=? a) && (a <=? 13) || (28 <=? a) && (a <=? 32))%nat.

Definition space2 (a b : nat) : bool :=
  ((a =? 194) && ((b =? 133) || (b =? 160)))%nat.

Definition space3 (a b c : nat) : bool :=
  ((a =? 225) && (b =? 154) && (c =? 128) ||
   (a =? 226) && (b =? 128) &&
     ((128 <=? c) && (c <=? 138) || (c =? 168) || (c =? 169) || (c =? 175)) ||
   (a =? 226) && (b =? 129) && (c =? 159) ||
   (a =? 227) && (b =? 128) && (c =? 128))%nat.

(** The number of bytes of the white-space character [s] starts with, or
    [0] when it starts with none. *)
Definition space_width (s : string) : nat :=
  match s with
  | String a (String b (String c _)) =>
      if space1 (nat_of_ascii a) then 1
      else if space2 (nat_of_ascii a) (nat_of_ascii b) then 2
      else if space3 (nat_of_ascii a) (nat_of_ascii b) (nat_of_ascii c) then 3
      else 0
  | String a (String b "") =>
      if space1 (nat_of_ascii a) then 1
      else if space2 (nat_of_ascii a) (nat_of_ascii b) then 2
      else 0
  | String a "" => if space1 (nat_of_ascii a) then 1 else 0
  | "" => 0
  end%nat.

(** The same for the white-space character [s] ends with, read on the
    reversed string: its bytes come last byte first. *)
Definition space_width_rev (r : string) : nat :=
  match r with
  | String c (String b (String a _)) =>
      if space1 (nat_of_ascii c) then 1
      else if space2 (nat_of_ascii b) (nat_of_ascii c) then 2
      else if space3 (nat_of_ascii a) (nat_of_ascii b) (nat_of_ascii c) then 3
      else 0
  | String c (String b "") =>
      if space1 (nat_of_ascii c) then 1
      else if space2 (nat_of_ascii b) (nat_of_ascii c) then 2
      else 0
  | String c "" => if space1 (nat_of_ascii c) then 1 else 0
  | "" => 0
  end%nat.

(** Drop the white-space characters [s] starts with; [skip] counts the bytes
    of the current one still to be passed. *)
Fixpoint drop_spaces (width : string -> nat) (skip : nat) (s : string) : string :=
  match s with
  | "" => ""
  | String _ s' =>
      match skip with
      | S k => drop_spaces width k s'
      | O =>
          match width s with
          | O => s
          | S k => drop_spaces width k s'
          end
      end
  end.

(** [s.lstrip()] *)
Definition lstrip (s : string) : string := drop_spaces space_width 0 s.

(** [s.strip()] *)
Definition strip (s : string) : string :=
  String.rev (drop_spaces space_width_rev 0 (String.rev (lstrip s))).

(** [sub in s] *)
Fixpoint contains (sub s : string) : bool :=
  String.prefix sub s ||
  match s with
  | "" => false
  | String _ s' => contains sub s'
  end.

(** [s.split(sep)] for a non-empty separator: left-to-right, non-overlapping.
    [skip] counts the characters of a matched separator still to be passed,
    [cur] is the current piece, reversed. *)
Fixpoint split_go (sep : string) (skip : nat) (cur s : string) : list string :=
  match s with
  | "" => [String.rev cur]
  | String c s' =>
      match skip with
      | S k => split_go sep k cur s'
      | O =>
          if String.prefix sep s
          then String.rev cur :: split_go sep (String.length sep - 1) "" s'
          else split_go sep 0 (String c cur) s'
      end
  end.

Definition split (sep s : string) : list string := split_go sep 0 "" s.

Definition map_chars (f : ascii -> ascii) : string -> string :=
  fix go s := match s with "" => "" | String c s' => String (f c) (go s') end.

(** [s.replace(' ', '_')] *)
Definition replace_space_underscore : string -> string :=
  map_chars (fun c => if Ascii.eqb c " " then "_"%char else c).

(** *** Code points

    [str.lower()] works on the characters of the string, so the bytes are
    decoded first. A byte that starts no well-formed UTF-8 sequence (there is
    none in a Python [str]) stands for itself, above the code points. *)

Definition continuation (b : N) : bool := ((128 <=? b) && (b <=? 191))%N.

Definition invalid_byte (a : N) : N := (1114112 + a)%N.

(** A well-formed sequence of two, three or four bytes with first byte [a]:
    its code point, when it is not an over-long form, a surrogate or
    beyond U+10FFFF. *)
Definition two_bytes (a : N) (s1 : string) : option (N * nat) :=
  match s1 with
  | String b _ =>
      let b := N_of_ascii b in
      let v := ((a - 192) * 64 + (b - 128))%N in
      if ((192 <=? a) && (a <=? 223) && continuation b && (128 <=? v))%N
      then Some (v, 2%nat) else None
  | "" => None
  end.

Definition three_bytes (a : N) (s1 : string) : option (N * nat) :=
  match s1 with
  | String b (String c _) =>
      let b := N_of_ascii b in
      let c := N_of_ascii c in
      let v := ((a - 224) * 4096 + (b - 128) * 64 + (c - 128))%N in
      if ((224 <=? a) && (a <=? 239) && continuation b && continuation c &&
          (2048 <=? v) && negb ((55296 <=? v) && (v <=? 57343)))%N
      then Some (v, 3%nat) else None
  | _ => None
  end.

Definition four_bytes (a : N) (s1 : string) : option (N * nat) :=
  match s1 with
  | String b (String c (String d _)) =>
      let b := N_of_ascii b in
      let c := N_of_ascii c in
      let d := N_of_ascii d in
      let v := ((a - 240) * 262144 + (b - 128) * 4096 + (c - 128) * 64 + (d - 128))%N in
      if ((240 <=? a) && (a <=? 247) && continuation b && continuation c &&
          continuation d && (65536 <=? v) && (v <=? 1114111))%N
      then Some (v, 4%nat) else None
  | _ => None
  end.

(** The code point [s] starts with and the number of bytes it takes. *)
Definition head_point (s : string) : option (N * nat) :=
  match s with
  | "" => None
  | String a s1 =>
      let a := N_of_ascii a in
      if (a <? 128)%N then Some (a, 1%nat)
      else
        match two_bytes a s1, three_bytes a s1, four_bytes a s1 with
        | Some r, _, _ => Some r
        | None, Some r, _ => Some r
        | None, None, Some r => Some r
        | None, None, None => Some (invalid_byte a, 1%nat)
        end
  end.

(** [skip] counts the bytes of the current character still to be passed. *)
Fixpoint decode_go (skip : nat) (s : string) : list N :=
  match s with
  | "" => []
  | String _ s' =>
      match skip with
      | S k => decode_go k s'
      | O =>
          match head_point s with
          | Some (p, n) => p :: decode_go (Nat.pred n) s'
          | None => []
          end
      end
  end.

Definition decode (s : string) : list N := decode_go 0 s.

Definition byte (n : N) : ascii := ascii_of_N n.

Definition encode_point (p : N) : string :=
  if (p <? 128)%N then String (byte p) ""
  else if (p <? 2048)%N then
    String (byte (192 + p / 64)) (String (byte (128 + p mod 64)) "")
  else if (p <? 65536)%N then
    String (byte (224 + p / 4096))
      (String (byte (128 + (p / 64) mod 64)) (String (byte (128 + p mod 64)) ""))
  else if (p <? 1114112)%N then
    String (byte (240 + p / 262144))
      (String (byte (128 + (p / 4096) mod 64))
         (String (byte (128 + (p / 64) mod 64)) (String (byte (128 + p mod 64)) "")))
  else String (byte (p - 1114112)) "".

Fixpoint encode (l : list N) : string :=
  match l with
  | [] => ""
  | p :: l' => encode_point p +:+ encode l'
  end.

(** *** Lower case

    The case mapping of Python 3.11 (Unicode 14.0). A range of the table is
    either shifted as a whole, its first code point going to [to], or holds
    upper-case and lower-case letters in turn, each upper-case letter going
    to the code point after it. *)

Inductive CaseRange : Type :=
| Shift (lo hi to : N)
| Pairs (lo hi : N).

Definition in_range (lo hi c : N) : bool := ((lo <=? c) && (c <=? hi))%N.

Fixpoint lookup_lower (t : list CaseRange) (c : N) : option N :=
  match t with
  | [] => None
  | Shift lo hi to :: t' =>
      if in_range lo hi c then Some (to + (c - lo))%N else lookup_lower t' c
  | Pairs lo hi :: t' =>
      if in_range lo hi c
      then (if N.even (c - lo) then Some (c + 1)%N else None)
      else lookup_lower t' c
  end.

Definition in_ranges (t : list (N * N)) (c : N) : bool :=
  existsb (fun r => in_range r.1 r.2 c) t.

Definition lower_table_above_ascii : list CaseRange :=
  [Shift 192 214 224; Shift 216 222 248; Pairs 256 302; Pairs 306 310;
   Pairs 313 327; Pairs 330 374; Shift 376 376 255; Pairs 377 381;
   Shift 385 385 595; Pairs 386 388; Shift 390 390 596; Shift 391 391 392;
   Shift 393 394 598; Shift 395 395 396; Shift 398 398 477;
   Shift 399 399 601; Shift 400 400 603; Shift 401 401 402;
   Shift 403 403 608; Shift 404 404 611; Shift 406 406 617;
   Shift 407 407 616; Shift 408 408 409; Shift 412 412 623;
   Shift 413 413 626; Shift 415 415 629; Pairs 416 420; Shift 422 422 640;
   Shift 423 423 424; Shift 425 425 643; Shift 428 428 429;
   Shift 430 430 648; Shift 431 431 432; Shift 433 434 650; Pairs 435 437;
   Shift 439 439 658; Shift 440 440 441; Shift 444 444 445;
   Shift 452 452 454; Shift 453 453 454; Shift 455 455 457;
   Shift 456 456 457; Shift 458 458 460; Pairs 459 475; Pairs 478 494;
   Shift 497 497 499; Pairs 498 500; Shift 502 502 405; Shift 503 503 447;
   Pairs 504 542; Shift 544 544 414; Pairs 546 562; Shift 570 570 11365;
   Shift 571 571 572; Shift 573 573 410; Shift 574 574 11366;
   Shift 577 577 578; Shift 579 579 384; Shift 580 580 649;
   Shift 581 581 652; Pairs 582 590; Pairs 880 882; Shift 886 886 887;
   Shift 895 895 1011; Shift 902 902 940; Shift 904 906 941;
   Shift 908 908 972; Shift 910 911 973; Shift 913 929 945;
   Shift 931 939 963; Shift 975 975 983; Pairs 984 1006; Shift 1012 1012 952;
   Shift 1015 1015 1016; Shift 1017 1017 1010; Shift 1018 1018 1019;
   Shift 1021 1023 891; Shift 1024 1039 1104; Shift 1040 1071 1072;
   Pairs 1120 1152; Pairs 1162 1214; Shift 1216 1216 1231; Pairs 1217 1229;
   Pairs 1232 1326; Shift 1329 1366 1377; Shift 4256 4293 11520;
   Shift 4295 4295 11559; Shift 4301 4301 11565; Shift 5024 5103 43888;
   Shift 5104 5109 5112; Shift 7312 7354 4304; Shift 7357 7359 4349;
   Pairs 7680 7828; Shift 7838 7838 223; Pairs 7840 7934;
   Shift 7944 7951 7936; Shift 7960 7965 7952; Shift 7976 7983 7968;
   Shift 7992 7999 7984; Shift 8008 8013 8000; Shift 8025 8025 8017;
   Shift 8027 8027 8019; Shift 8029 8029 8021; Shift 8031 8031 8023;
   Shift 8040 8047 8032; Shift 8072 8079 8064; Shift 8088 8095 8080;
   Shift 8104 8111 8096; Shift 8120 8121 8112; Shift 8122 8123 8048;
   Shift 8124 8124 8115; Shift 8136 8139 8050; Shift 8140 8140 8131;
   Shift 8152 8153 8144; Shift 8154 8155 8054; Shift 8168 8169 8160;
   Shift 8170 8171 8058; Shift 8172 8172 8165; Shift 8184 8185 8056;
   Shift 8186 8187 8060; Shift 8188 8188 8179; Shift 8486 8486 969;
   Shift 8490 8490 107; Shift 8491 8491 229; Shift 8498 8498 8526;
   Shift 8544 8559 8560; Shift 8579 8579 8580; Shift 9398 9423 9424;
   Shift 11264 11311 11312; Shift 11360 11360 11361; Shift 11362 11362 619;
   Shift 11363 11363 7549; Shift 11364 11364 637; Pairs 11367 11371;
   Shift 11373 11373 593; Shift 11374 11374 625; Shift 11375 11375 592;
   Shift 11376 11376 594; Shift 11378 11378 11379; Shift 11381 11381 11382;
   Shift 11390 11391 575; Pairs 11392 11490; Pairs 11499 11501;
   Shift 11506 11506 11507; Pairs 42560 42604; Pairs 42624 42650;
   Pairs 42786 42798; Pairs 42802 42862; Pairs 42873 42875;
   Shift 42877 42877 7545; Pairs 42878 42886; Shift 42891 42891 42892;
   Shift 42893 42893 613; Pairs 42896 42898; Pairs 42902 42920;
   Shift 42922 42922 614; Shift 42923 42923 604; Shift 42924 42924 609;
   Shift 42925 42925 620; Shift 42926 42926 618; Shift 42928 42928 670;
   Shift 42929 42929 647; Shift 42930 42930 669; Shift 42931 42931 43859;
   Pairs 42932 42946; Shift 42948 42948 42900; Shift 42949 42949 642;
   Shift 42950 42950 7566; Pairs 42951 42953; Shift 42960 42960 42961;
   Pairs 42966 42968; Shift 42997 42997 42998; Shift 65313 65338 65345;
   Shift 66560 66599 66600; Shift 66736 66771 66776; Shift 66928 66938 66967;
   Shift 66940 66954 66979; Shift 66956 66962 66995; Shift 66964 66965 67003;
   Shift 68736 68786 68800; Shift 71840 71871 71872; Shift 93760 93791 93792;
   Shift 125184 125217 125218].

Definition case_ignorable_table : list (N * N) :=
  [(39, 39); (46, 46); (58, 58); (94, 94); (96, 96); (168, 168); (173, 173);
   (175, 175); (180, 180); (183, 184); (688, 879); (884, 885); (890, 890);
   (900, 901); (903, 903); (1155, 1161); (1369, 1369); (1375, 1375);
   (1425, 1469); (1471, 1471); (1473, 1474); (1476, 1477); (1479, 1479);
   (1524, 1524); (1536, 1541); (1552, 1562); (1564, 1564); (1600, 1600);
   (1611, 1631); (1648, 1648); (1750, 1757); (1759, 1768); (1770, 1773);
   (1807, 1807); (1809, 1809); (1840, 1866); (1958, 1968); (2027, 2037);
   (2042, 2042); (2045, 2045); (2070, 2093); (2137, 2139); (2184, 2184);
   (2192, 2193); (2200, 2207); (2249, 2306); (2362, 2362); (2364, 2364);
   (2369, 2376); (2381, 2381); (2385, 2391); (2402, 2403); (2417, 2417);
   (2433, 2433); (2492, 2492); (2497, 2500); (2509, 2509); (2530, 2531);
   (2558, 2558); (2561, 2562); (2620, 2620); (2625, 2626); (2631, 2632);
   (2635, 2637); (2641, 2641); (2672, 2673); (2677, 2677); (2689, 2690);
   (2748, 2748); (2753, 2757); (2759, 2760); (2765, 2765); (2786, 2787);
   (2810, 2815); (2817, 2817); (2876, 2876); (2879, 2879); (2881, 2884);
   (2893, 2893); (2901, 2902); (2914, 2915); (2946, 2946); (3008, 3008);
   (3021, 3021); (3072, 3072); (3076, 3076); (3132, 3132); (3134, 3136);
   (3142, 3144); (3146, 3149); (3157, 3158); (3170, 3171); (3201, 3201);
   (3260, 3260); (3263, 3263); (3270, 3270); (3276, 3277); (3298, 3299);
   (3328, 3329); (3387, 3388); (3393, 3396); (3405, 3405); (3426, 3427);
   (3457, 3457); (3530, 3530); (3538, 3540); (3542, 3542); (3633, 3633);
   (3636, 3642); (3654, 3662); (3761, 3761); (3764, 3772); (3782, 3782);
   (3784, 3789); (3864, 3865); (3893, 3893); (3895, 3895); (3897, 3897);
   (3953, 3966); (3968, 3972); (3974, 3975); (3981, 3991); (3993, 4028);
   (4038, 4038); (4141, 4144); (4146, 4151); (4153, 4154); (4157, 4158);
   (4184, 4185); (4190, 4192); (4209, 4212); (4226, 4226); (4229, 4230);
   (4237, 4237); (4253, 4253); (4348, 4348); (4957, 4959); (5906, 5908);
   (5938, 5939); (5970, 5971); (6002, 6003); (6068, 6069); (6071, 6077);
   (6086, 6086); (6089, 6099); (6103, 6103); (6109, 6109); (6155, 6159);
   (6211, 6211); (6277, 6278); (6313, 6313); (6432, 6434); (6439, 6440);
   (6450, 6450); (6457, 6459); (6679, 6680); (6683, 6683); (6742, 6742);
   (6744, 6750); (6752, 6752); (6754, 6754); (6757, 6764); (6771, 6780);
   (6783, 6783); (6823, 6823); (6832, 6862); (6912, 6915); (6964, 6964);
   (6966, 6970); (6972, 6972); (6978, 6978); (7019, 7027); (7040, 7041);
   (7074, 7077); (7080, 7081); (7083, 7085); (7142, 7142); (7144, 7145);
   (7149, 7149); (7151, 7153); (7212, 7219); (7222, 7223); (7288, 7293);
   (7376, 7378); (7380, 7392); (7394, 7400); (7405, 7405); (7412, 7412);
   (7416, 7417); (7468, 7530); (7544, 7544); (7579, 7679); (8125, 8125);
   (8127, 8129); (8141, 8143); (8157, 8159); (8173, 8175); (8189, 8190);
   (8203, 8207); (8216, 8217); (8228, 8228); (8231, 8231); (8234, 8238);
   (8288, 8292); (8294, 8303); (8305, 8305); (8319, 8319); (8336, 8348);
   (8400, 8432); (11388, 11389); (11503, 11505); (11631, 11631);
   (11647, 11647); (11744, 11775); (11823, 11823); (12293, 12293);
   (12330, 12333); (12337, 12341); (12347, 12347); (12441, 12446);
   (12540, 12542); (40981, 40981); (42232, 42237); (42508, 42508);
   (42607, 42610); (42612, 42621); (42623, 42623); (42652, 42655);
   (42736, 42737); (42752, 42785); (42864, 42864); (42888, 42890);
   (42994, 42996); (43000, 43001); (43010, 43010); (43014, 43014);
   (43019, 43019); (43045, 43046); (43052, 43052); (43204, 43205);
   (43232, 43249); (43263, 43263); (43302, 43309); (43335, 43345);
   (43392, 43394); (43443, 43443); (43446, 43449); (43452, 43453);
   (43471, 43471); (43493, 43494); (43561, 43566); (43569, 43570);
   (43573, 43574); (43587, 43587); (43596, 43596); (43632, 43632);
   (43644, 43644); (43696, 43696); (43698, 43700); (43703, 43704);
   (43710, 43711); (43713, 43713); (43741, 43741); (43756, 43757);
   (43763, 43764); (43766, 43766); (43867, 43871); (43881, 43883);
   (44005, 44005); (44008, 44008); (44013, 44013); (64286, 64286);
   (64434, 64450); (65024, 65039); (65043, 65043); (65056, 65071);
   (65106, 65106); (65109, 65109); (65279, 65279); (65287, 65287);
   (65294, 65294); (65306, 65306); (65342, 65342); (65344, 65344);
   (65392, 65392); (65438, 65439); (65507, 65507); (65529, 65531);
   (66045, 66045); (66272, 66272); (66422, 66426); (67456, 67461);
   (67463, 67504); (67506, 67514); (68097, 68099); (68101, 68102);
   (68108, 68111); (68152, 68154); (68159, 68159); (68325, 68326);
   (68900, 68903); (69291, 69292); (69446, 69456); (69506, 69509);
   (69633, 69633); (69688, 69702); (69744, 69744); (69747, 69748);
   (69759, 69761); (69811, 69814); (69817, 69818); (69821, 69821);
   (69826, 69826); (69837, 69837); (69888, 69890); (69927, 69931);
   (69933, 69940); (70003, 70003); (70016, 70017); (70070, 70078);
   (70089, 70092); (70095, 70095); (70191, 70193); (70196, 70196);
   (70198, 70199); (70206, 70206); (70367, 70367); (70371, 70378);
   (70400, 70401); (70459, 70460); (70464, 70464); (70502, 70508);
   (70512, 70516); (70712, 70719); (70722, 70724); (70726, 70726);
   (70750, 70750); (70835, 70840); (70842, 70842); (70847, 70848);
   (70850, 70851); (71090, 71093); (71100, 71101); (71103, 71104);
   (71132, 71133); (71219, 71226); (71229, 71229); (71231, 71232);
   (71339, 71339); (71341, 71341); (71344, 71349); (71351, 71351);
   (71453, 71455); (71458, 71461); (71463, 71467); (71727, 71735);
   (71737, 71738); (71995, 71996); (71998, 71998); (72003, 72003);
   (72148, 72151); (72154, 72155); (72160, 72160); (72193, 72202);
   (72243, 72248); (72251, 72254); (72263, 72263); (72273, 72278);
   (72281, 72283); (72330, 72342); (72344, 72345); (72752, 72758);
   (72760, 72765); (72767, 72767); (72850, 72871); (72874, 72880);
   (72882, 72883); (72885, 72886); (73009, 73014); (73018, 73018);
   (73020, 73021); (73023, 73029); (73031, 73031); (73104, 73105);
   (73109, 73109); (73111, 73111); (73459, 73460); (78896, 78904);
   (92912, 92916); (92976, 92982); (92992, 92995); (94031, 94031);
   (94095, 94111); (94176, 94177); (94179, 94180); (110576, 110579);
   (110581, 110587); (110589, 110590); (113821, 113822); (113824, 113827);
   (118528, 118573); (118576, 118598); (119143, 119145); (119155, 119170);
   (119173, 119179); (119210, 119213); (119362, 119364); (121344, 121398);
   (121403, 121452); (121461, 121461); (121476, 121476); (121499, 121503);
   (121505, 121519); (122880, 122886); (122888, 122904); (122907, 122913);
   (122915, 122916); (122918, 122922); (123184, 123197); (123566, 123566);
   (123628, 123631); (125136, 125142); (125252, 125259); (127995, 127999);
   (917505, 917505); (917536, 917631); (917760, 917999)
  ]%N.

Definition cased_table : list (N * N) :=
  [(65, 90); (97, 122); (170, 170); (181, 181); (186, 186); (192, 214);
   (216, 246); (248, 442); (444, 447); (452, 659); (661, 687); (880, 883);
   (886, 887); (891, 893); (895, 895); (902, 902); (904, 906); (908, 908);
   (910, 929); (931, 1013); (1015, 1153); (1162, 1327); (1329, 1366);
   (1376, 1416); (4256, 4293); (4295, 4295); (4301, 4301); (4304, 4346);
   (4349, 4351); (5024, 5109); (5112, 5117); (7296, 7304); (7312, 7354);
   (7357, 7359); (7424, 7467); (7531, 7543); (7545, 7578); (7680, 7957);
   (7960, 7965); (7968, 8005); (8008, 8013); (8016, 8023); (8025, 8025);
   (8027, 8027); (8029, 8029); (8031, 8061); (8064, 8116); (8118, 8124);
   (8126, 8126); (8130, 8132); (8134, 8140); (8144, 8147); (8150, 8155);
   (8160, 8172); (8178, 8180); (8182, 8188); (8450, 8450); (8455, 8455);
   (8458, 8467); (8469, 8469); (8473, 8477); (8484, 8484); (8486, 8486);
   (8488, 8488); (8490, 8493); (8495, 8500); (8505, 8505); (8508, 8511);
   (8517, 8521); (8526, 8526); (8544, 8575); (8579, 8580); (9398, 9449);
   (11264, 11387); (11390, 11492); (11499, 11502); (11506, 11507);
   (11520, 11557); (11559, 11559); (11565, 11565); (42560, 42605);
   (42624, 42651); (42786, 42863); (42865, 42887); (42891, 42894);
   (42896, 42954); (42960, 42961); (42963, 42963); (42965, 42969);
   (42997, 42998); (43002, 43002); (43824, 43866); (43872, 43880);
   (43888, 43967); (64256, 64262); (64275, 64279); (65313, 65338);
   (65345, 65370); (66560, 66639); (66736, 66771); (66776, 66811);
   (66928, 66938); (66940, 66954); (66956, 66962); (66964, 66965);
   (66967, 66977); (66979, 66993); (66995, 67001); (67003, 67004);
   (68736, 68786); (68800, 68850); (71840, 71903); (93760, 93823);
   (119808, 119892); (119894, 119964); (119966, 119967); (119970, 119970);
   (119973, 119974); (119977, 119980); (119982, 119993); (119995, 119995);
   (119997, 120003); (120005, 120069); (120071, 120074); (120077, 120084);
   (120086, 120092); (120094, 120121); (120123, 120126); (120128, 120132);
   (120134, 120134); (120138, 120144); (120146, 120485); (120488, 120512);
   (120514, 120538); (120540, 120570); (120572, 120596); (120598, 120628);
   (120630, 120654); (120656, 120686); (120688, 120712); (120714, 120744);
   (120746, 120770); (120772, 120779); (122624, 122633); (122635, 122654);
   (125184, 125251); (127280, 127305); (127312, 127337); (127344, 127369)
  ]%N.

Definition lower_table : list CaseRange := Shift 65 90 97 :: lower_table_above_ascii.

(** The lower case of one character; U+0130 is the only one with two. *)
Definition to_lower_full (c : N) : list N :=
  if (c =? 304)%N then [105; 775]%N
  else match lookup_lower lower_table c with
       | Some l => [l]
       | None => [c]
       end.

Definition case_ignorable (c : N) : bool := in_ranges case_ignorable_table c.

(** Cased, for a character that is not case-ignorable. *)
Definition cased (c : N) : bool := in_ranges cased_table c.

(** Whether the first character of [l] that is not case-ignorable is cased. *)
Fixpoint meets_cased (l : list N) : bool :=
  match l with
  | [] => false
  | c :: l' => if case_ignorable c then meets_cased l' else cased c
  end.

(** The capital sigma becomes a final sigma when a cased letter stands
    before it and none after it, case-ignorable characters apart. [before]
    holds the characters already passed, the last one first. *)
Fixpoint lower_points (before l : list N) : list N :=
  match l with
  | [] => []
  | c :: l' =>
      (if (c =? 931)%N
       then [if meets_cased before && negb (meets_cased l') then 962 else 963]%N
       else to_lower_full c)
      ++ lower_points (c :: before) l'
  end.

(** [s.lower()] *)
Definition lower (s : string) : string := encode (lower_points [] (decode s)).


(** Truthiness of a string: non-empty. *)
Definition truthy (s : string) : bool :=
  match s with "" => false | _ => true end.

(** *** [urllib.parse.quote_plus] *)

Definition hex_digit (n : nat) : ascii :=
  match n with
  | 0 => "0" | 1 => "1" | 2 => "2" | 3 => "3" | 4 => "4" | 5 => "5"
  | 6 => "6" | 7 => "7" | 8 => "8" | 9 => "9" | 10 => "A" | 11 => "B"
  | 12 => "C" | 13 => "D" | 14 => "E" | _ => "F"
  end%nat%char.

Definition unreserved (c : ascii) : bool :=
  let n := nat_of_ascii c in
  (((48 <=? n) && (n <=? 57)) || ((65 <=? n) && (n <=? 90)) ||
   ((97 <=? n) && (n <=? 122)) ||
   (n =? 95) || (n =? 46) || (n =? 45) || (n =? 126))%nat.

Fixpoint quote_plus (s : string) : string :=
  match s with
  | "" => ""
  | String c s' =>
      if unreserved c then String c (quote_plus s')
      else if Ascii.eqb c " " then String "+" (quote_plus s')
      else
        let n := nat_of_ascii c in
        String "%" (String (hex_digit (n / 16)) (String (hex_digit (n mod 16)) (quote_plus s')))
  end.

(** [urlencode(pairs)] on already stringified pairs. *)
Definition urlencode (q : list (string * string)) : string :=
  join "&" (map (fun kv => quote_plus kv.1 +:+ "=" +:+ quote_plus kv.2) q).

End PyStr.

(* ===================================================================== *)
(** ** Python values and dictionaries *)
(* ===================================================================== *)

Inductive PyVal : Type :=
| VNone
| VBool (b : bool)
| VInt (n : Z)
| VStr (s : string).

Global Instance PyVal_eq_dec : EqDecision PyVal.
Proof. solve_decision. Defined.

(** [v is None] *)
Definition is_none (v : PyVal) : bool :=
  match v with VNone => true | _ => false end.

(** [str(v)] as used when a value is put into a query string. *)
Definition py_str (v : PyVal) : string :=
  match v with
  | VNone => "None"
  | VBool true => "True"
  | VBool false => "False"
  | VInt n => pretty n
  | VStr s => s
  end.

(** A job record is a Python [dict] from field names to values. *)
Abbreviation Dict := (gmap string PyVal).

(** Query parameters are an insertion-ordered [dict]: an association list
    without repeated keys; assignment replaces in place or appends. *)
Fixpoint assoc_set (k : string) (v : PyVal) (d : list (string * PyVal)) : list (string * PyVal) :=
  match d with
  | [] => [(k, v)]
  | (k', v') :: d' => if String.eqb k' k then (k, v) :: d' else (k', v') :: assoc_set k v d'
  end.

(* ===================================================================== *)
(** ** Parsed documents and the BeautifulSoup queries *)
(* ===================================================================== *)

Module Html.

(** A parsed node: a string of the document, or a tag with its
    multi-valued [class] attribute, its other attributes and its children.
    [Text] is a plain [NavigableString]. [Special] is a string of one of its
    subclasses: a comment, a declaration, or the content of a [script],
    [style] or [template] tag; [find(string=...)] sees it like any string,
    [get_text()] and [.text] leave it out. *)
Inductive Node : Type :=
| Text (s : string)
| Special (s : string)
| Elem (tag : string) (classes : list string) (attrs : list (string * string))
       (children : list Node).

(** The [BeautifulSoup] object: the top-level nodes of the document. *)
Definition Soup := list Node.

(** Everything below a node, in document order. *)
Fixpoint descendants (n : Node) : list Node :=
  match n with
  | Text _ | Special _ => []
  | Elem _ _ _ cs =>
      (fix go (l : list Node) : list Node :=
         match l with
         | [] => []
         | c :: l' => c :: descendants c ++ go l'
         end) cs
  end.

Definition nodes (soup : Soup) : list Node :=
  flat_map (fun n => n :: descendants n) soup.

Definition attr (k : string) (attrs : list (string * string)) : option string :=
  snd <$> List.find (fun kv => String.eqb kv.1 k) attrs.

Definition is_elem (name : string) (n : Node) : bool :=
  match n with
  | Elem t _ _ _ => String.eqb t name
  | Text _ | Special _ => false
  end.

(** Matches [find(name, class_=cls)]. *)
Definition has_class (name cls : string) (n : Node) : bool :=
  match n with
  | Elem t cl _ _ => String.eqb t name && existsb (String.eqb cls) cl
  | Text _ | Special _ => false
  end.

(** Matches [find(name, {"k": v})]. *)
Definition has_attr (name k v : string) (n : Node) : bool :=
  match n with
  | Elem t _ at_ _ =>
      String.eqb t name &&
      match attr k at_ with Some v' => String.eqb v' v | None => false end
  | Text _ | Special _ => false
  end.

(** Matches [find(string=p)]. *)
Definition is_string (p : string -> bool) (n : Node) : bool :=
  match n with
  | Text s | Special s => p s
  | Elem _ _ _ _ => false
  end.

(** [soup.find(...)] and [soup.find_all(...)] *)
Definition find (p : Node -> bool) (soup : Soup) : option Node :=
  List.find p (nodes soup).
Definition find_all (p : Node -> bool) (soup : Soup) : list Node :=
  List.filter p (nodes soup).

(** [bool(soup.find(...))] *)
Definition found (p : Node -> bool) (soup : Soup) : bool :=
  match find p soup with
  | Some _ => true
  | None => false
  end.

(** [tag.find(...)] and [tag.find_all(...)] search below the tag. *)
Definition tag_find (p : Node -> bool) (n : Node) : option Node :=
  List.find p (descendants n).
Definition tag_find_all (p : Node -> bool) (n : Node) : list Node :=
  List.filter p (descendants n).

(** The strings [get_text] joins: the plain strings below a tag. *)
Definition strings (n : Node) : list string :=
  match n with
  | Text s | Special s => [s]
  | Elem _ _ _ _ =>
      omap (fun d => match d with Text s => Some s | _ => None end) (descendants n)
  end.

(** [tag.text], i.e. [tag.get_text()] *)
Definition text (n : Node) : string := PyStr.join "" (strings n).

(** [tag.get_text(strip=True)]: every string stripped, empty ones dropped. *)
Definition get_text_strip (n : Node) : string :=
  PyStr.join "" (List.filter PyStr.truthy (map PyStr.strip (strings n))).

(** [tag.get(k, '')] and [tag[k]] *)
Definition node_attrs (n : Node) : list (string * string) :=
  match n with
  | Elem _ _ a _ => a
  | Text _ | Special _ => []
  end.

(** Position of the first node satisfying [p], in document order. *)
Fixpoint index_of (p : Node -> bool) (l : list Node) : option nat :=
  match l with
  | [] => None
  | n :: l' => if p n then Some O else S <$> index_of p l'
  end.

(** [x.find_next(name)] for the node [x] at position [i] of the document. *)
Definition find_next (name : string) (soup : Soup) (i : nat) : option Node :=
  List.find (is_elem name) (drop (S i) (nodes soup)).

End Html.

(* ===================================================================== *)
(** ** The outside world and the monad of the scraping code *)
(* ===================================================================== *)

Module Runtime.
Import Html.

(** Python exceptions: an ordinary exception with its class and message,
    or FastAPI's [HTTPException]. *)
Inductive Exn : Type :=
| PyExc (cls msg : string)
| HTTPException (status : Z) (detail : string).

(** [str(e)]; for [HTTPException] it is ["{status_code}: {detail}"]. *)
Definition str_exn (e : Exn) : string :=
  match e with
  | PyExc _ msg => msg
  | HTTPException st d => pretty st +:+ ": " +:+ d
  end.

Definition exn_class (e : Exn) : string :=
  match e with
  | PyExc cls _ => cls
  | HTTPException _ _ => "HTTPException"
  end.

Inductive Outcome (A : Type) : Type :=
| Ok (a : A)
| Raised (e : Exn).
Global Arguments Ok {A} a.
Global Arguments Raised {A} e.

(** *** Expressions that may raise but touch nothing *)

Global Instance Outcome_ret : MRet Outcome := fun A a => Ok a.
Global Instance Outcome_bind : MBind Outcome := fun A B f m =>
  match m with
  | Ok a => f a
  | Raised e => Raised e
  end.
Global Instance Outcome_fmap : FMap Outcome := fun A B f m =>
  match m with
  | Ok a => Ok (f a)
  | Raised e => Raised e
  end.

(** [x.attribute] where [x] may be [None]. *)
Definition deref {A} (attribute : string) (o : option A) : Outcome A :=
  match o with
  | Some a => Ok a
  | None =>
      Raised (PyExc "AttributeError"
                ("'NoneType' object has no attribute '" +:+ attribute +:+ "'"))
  end.

(** [tag[k]] *)
Definition getitem (k : string) (n : Node) : Outcome string :=
  match attr k (node_attrs n) with
  | Some v => Ok v
  | None => Raised (PyExc "KeyError" ("'" +:+ k +:+ "'"))
  end.

(** [tag.get(k, default)] *)
Definition get_default (k dflt : string) (n : Node) : string :=
  default dflt (attr k (node_attrs n)).

(** [l[i]] on a list of strings. *)
Definition index (l : list string) (i : nat) : Outcome string :=
  match l !! i with
  | Some x => Ok x
  | None => Raised (PyExc "IndexError" "list index out of range")
  end.

(** *** The world *)

Record Response := { status_code : Z; body : Soup }.

(** A [requests.get] call: the URL and the [params] dictionary. *)
Record Request := { req_url : string; req_params : list (string * PyVal) }.

(** What [requests] puts on the wire: keys whose value is [None] are left
    out, the others are stringified and URL-encoded. *)
Definition wire_params (q : list (string * PyVal)) : list (string * string) :=
  omap (fun kv => match kv.2 with VNone => None | v => Some (kv.1, py_str v) end) q.

Definition wire_url (r : Request) : string :=
  match wire_params (req_params r) with
  | [] => req_url r
  | q => req_url r +:+ "?" +:+ PyStr.urlencode q
  end.

Inductive Gesture : Type :=
| MoveByOffset (x y : Z)
| FindBody.

Inductive Level := INFO | WARNING | ERROR | PRINT.

(** The two calls of [get_driver] that can fail, in the order of the source:
    [uc.Chrome(...)] does not start, or it starts and the
    [driver.execute_script(...)] call that follows raises. *)
Inductive StartFailure : Type :=
| NotStarted (e : Exn)
| ScriptFailed (e : Exn).

Definition start_error (f : StartFailure) : Exn :=
  match f with
  | NotStarted e => e
  | ScriptFailed e => e
  end.

(** The environment answers the n-th call of each kind. *)
Record Env := {
  http : nat -> Request -> Outcome Response;   (* requests.get *)
  chrome : option StartFailure;                (* uc.Chrome(...), then execute_script:
                                                  the first call that raises, if any *)
  browse : nat -> string -> Outcome Soup;      (* driver.get, then page_source *)
  gesture : nat -> Gesture -> option Exn;      (* perform / find_element *)
  entropy : nat -> nat                         (* the random module *)
}.

Record State := {
  sent : list Request;          (* requests.get calls, oldest first *)
  visited : list string;        (* driver.get calls, oldest first *)
  page_source : Soup;           (* driver.page_source *)
  gestures : list Gesture;      (* browser gestures, oldest first *)
  draws : nat;                  (* random draws so far *)
  log : list (Level * string);  (* logger and print output, oldest first *)
  driver_quit : bool;
  details : Dict;               (* the dict get_job_details fills in *)
  job_listings : list Dict      (* the list scrape_indeed appends to *)
}.

Definition initial : State :=
  {| sent := []; visited := []; page_source := []; gestures := []; draws := 0%nat;
     log := []; driver_quit := false; details := ∅; job_listings := [] |}.

(** *** The monad: environment, state, exceptions *)

Definition M (A : Type) : Type := Env -> State -> Outcome A * State.

Global Instance M_ret : MRet M := fun A a _ s => (Ok a, s).
Global Instance M_bind : MBind M := fun A B f m env s =>
  match m env s with
  | (Ok a, s') => f a env s'
  | (Raised e, s') => (Raised e, s')
  end.

Definition raise {A} (e : Exn) : M A := fun _ s => (Raised e, s).

Definition lift {A} (o : Outcome A) : M A := fun _ s => (o, s).

(** [try: body  except Exception as e: handler e] *)
Definition try_except {A} (body : M A) (handler : Exn -> M A) : M A :=
  fun env s =>
    match body env s with
    | (Raised e, s') => handler e env s'
    | r => r
    end.

(** [try: body  finally: cleanup] *)
Definition try_finally {A} (body : M A) (cleanup : M unit) : M A :=
  fun env s =>
    match body env s with
    | (r, s') =>
        match cleanup env s' with
        | (Ok _, s'') => (r, s'')
        | (Raised e, s'') => (Raised e, s'')
        end
    end.

Definition get_state : M State := fun _ s => (Ok s, s).
Definition modify (f : State -> State) : M unit := fun _ s => (Ok tt, f s).

(** *** Primitive actions *)

Definition emit (lv : Level) (msg : string) : M unit :=
  modify (fun s =>
    {| sent := sent s; visited := visited s; page_source := page_source s;
       gestures := gestures s; draws := draws s; log := log s ++ [(lv, msg)];
       driver_quit := driver_quit s; details := details s;
       job_listings := job_listings s |}).

Definition requests_get (r : Request) : M Response :=
  fun env s =>
    (http env (List.length (sent s)) r,
     {| sent := sent s ++ [r]; visited := visited s; page_source := page_source s;
        gestures := gestures s; draws := draws s; log := log s;
        driver_quit := driver_quit s; details := details s;
        job_listings := job_listings s |}).

(** [driver.get(url)]: on success the page becomes the current one. *)
Definition driver_get (url : string) : M unit :=
  fun env s =>
    let r := browse env (List.length (visited s)) url in
    (match r with Ok _ => Ok tt | Raised e => Raised e end,
     {| sent := sent s; visited := visited s ++ [url];
        page_source := match r with Ok doc => doc | Raised _ => page_source s end;
        gestures := gestures s; draws := draws s; log := log s;
        driver_quit := driver_quit s; details := details s;
        job_listings := job_listings s |}).

Definition get_page_source : M Soup := fun _ s => (Ok (page_source s), s).

Definition driver_quit_ : M unit :=
  modify (fun s =>
    {| sent := sent s; visited := visited s; page_source := page_source s;
       gestures := gestures s; draws := draws s; log := log s;
       driver_quit := true; details := details s;
       job_listings := job_listings s |}).

Definition do_gesture (g : Gesture) : M unit :=
  fun env s =>
    (match gesture env (List.length (gestures s)) g with
     | None => Ok tt
     | Some e => Raised e
     end,
     {| sent := sent s; visited := visited s; page_source := page_source s;
        gestures := gestures s ++ [g]; draws := draws s; log := log s;
        driver_quit := driver_quit s; details := details s;
        job_listings := job_listings s |}).

Definition draw : M nat :=
  fun env s =>
    (Ok (entropy env (draws s)),
     {| sent := sent s; visited := visited s; page_source := page_source s;
        gestures := gestures s; draws := S (draws s); log := log s;
        driver_quit := driver_quit s; details := details s;
        job_listings := job_listings s |}).

(** [random.randint(lo, hi)]: any integer of [lo..hi]. *)
Definition randint (lo hi : Z) : M Z :=
  r ← draw; mret (lo + Z.of_nat r `mod` (hi - lo + 1)).

(** [random.choice([True, False])] *)
Definition choice_bool : M bool := r ← draw; mret (Nat.even r).

(** [time.sleep(random.uniform(a, b))] and [actions.pause(random.uniform(a, b))]:
    one draw; the pause itself changes nothing the code can observe. *)
Definition sleep_uniform : M unit := _ ← draw; mret tt.

Definition set_details (d : Dict) : M unit :=
  modify (fun s =>
    {| sent := sent s; visited := visited s; page_source := page_source s;
       gestures := gestures s; draws := draws s; log := log s;
       driver_quit := driver_quit s; details := d;
       job_listings := job_listings s |}).

(** [details[k] = v] *)
Definition setitem (k : string) (v : PyVal) : M unit :=
  s ← get_state; set_details (<[k := v]> (details s)).

Definition set_job_listings (l : list Dict) : M unit :=
  modify (fun s =>
    {| sent := sent s; visited := visited s; page_source := page_source s;
       gestures := gestures s; draws := draws s; log := log s;
       driver_quit := driver_quit s; details := details s;
       job_listings := l |}).

(** [for x in xs: body x] *)
Fixpoint for_each {A} (xs : list A) (body : A -> M unit) : M unit :=
  match xs with
  | [] => mret tt
  | x :: xs' => _ ← body x; for_each xs' body
  end.

(** [range(n)] for a Python integer [n]. *)
Definition range (n : Z) : list nat := seq 0 (Z.to_nat n).

End Runtime.

(* ===================================================================== *)
(** ** Response model *)
(* ===================================================================== *)

Record StandardResponse := {
  success : bool;
  message : option string;
  count : nat;
  data : list Dict
}.

(** [{"platform": name, **job}]: the entries of [job] come last and win. *)
Definition with_platform (name : string) (job : Dict) : Dict :=
  job ∪ {["platform" := VStr name]}.

Definition opt_str (o : option string) : PyVal :=
  match o with Some s => VStr s | None => VNone end.

Definition opt_int (o : option Z) : PyVal :=
  match o with Some n => VInt n | None => VNone end.

(* ===================================================================== *)
(** ** LinkedIn *)
(* ===================================================================== *)

Module LinkedIn.
Import Html Runtime.

Record LinkedInSearchParams := {
  keywords : string;
  location : option string;
  remote : option string;
  experience_level : option string;
  job_type : option string;
  time_posted : option string;
  pages : Z
}.

(** [params.dict()] *)
Definition params_dict (p : LinkedInSearchParams) : list (string * PyVal) :=
  [ ("keywords", VStr (keywords p));
    ("location", opt_str (location p));
    ("remote", opt_str (remote p));
    ("experience_level", opt_str (experience_level p));
    ("job_type", opt_str (job_type p));
    ("time_posted", opt_str (time_posted p));
    ("pages", VInt (pages p)) ].

(** [settings["max_retries"]] *)
Definition max_retries : nat := 3.

Definition search_url : string :=
  "https://www.linkedin.com/jobs-guest/jobs/api/seeMoreJobPostings/search".

(** *** get_job_criteria *)

Definition criteria_entry (item : Node) : Outcome (string * string) :=
  h3 ← deref "get_text" (tag_find (is_elem "h3") item);
  let key := PyStr.lower (PyStr.replace_space_underscore (get_text_strip h3)) in
  span ← deref "get_text" (tag_find (is_elem "span") item);
  mret (key, get_text_strip span).

Fixpoint criteria_loop (items : list Node) (criteria : Dict) : Outcome Dict :=
  match items with
  | [] => Ok criteria
  | item :: rest =>
      match criteria_entry item with
      | Ok (key, value) => criteria_loop rest (<[key := VStr value]> criteria)
      | Raised e =>
          if String.eqb (exn_class e) "AttributeError"
          then criteria_loop rest criteria          (* continue *)
          else Raised e
      end
  end.

Definition get_job_criteria (job_soup : Soup) : Outcome Dict :=
  criteria_loop (find_all (has_class "li" "description__job-criteria-item") job_soup) ∅.

(** *** scrape_job_page *)

(** [soup.find(..).get_text(strip=True) if soup.find(..) else None] *)
Definition text_or_none (p : Node -> bool) (soup : Soup) : PyVal :=
  match find p soup with
  | Some n => VStr (get_text_strip n)
  | None => VNone
  end.

(** [soup.find('a', ..)['href'] if soup.find('a', ..) else None] *)
Definition company_url_of (soup : Soup) : Outcome PyVal :=
  match find (has_class "a" "topcard__org-name-link") soup with
  | Some a => VStr <$> getitem "href" a
  | None => Ok VNone
  end.

(** The dictionary display [job_data = {...}], its values evaluated in order. *)
Definition job_fields (job_id : string) (soup : Soup) : Outcome Dict :=
  let title := text_or_none (has_class "h2" "top-card-layout__title") soup in
  let company := text_or_none (has_class "a" "topcard__org-name-link") soup in
  let location := text_or_none (has_class "span" "topcard__flavor--bullet") soup in
  let posted := text_or_none (has_class "span" "posted-time-ago__text") soup in
  let applicants := text_or_none (has_class "span" "num-applicants__caption") soup in
  let url := VStr ("https://www.linkedin.com/jobs/view/" +:+ job_id) in
  company_url ← company_url_of soup;
  mret (<["company_url" := company_url]> (<["url" := url]>
        (<["applicants" := applicants]> (<["posted" := posted]>
        (<["location" := location]> (<["company" := company]>
        (<["title" := title]> (<["job_id" := VStr job_id]> ∅)))))))).

Definition newline : string := String "010" "".

Definition description_of (soup : Soup) : option PyVal :=
  match find (has_class "div" "show-more-less-html__markup") soup with
  | Some description_div =>
      Some (VStr (PyStr.join newline
                    (map get_text_strip (tag_find_all (is_elem "p") description_div))))
  | None => None
  end.

(** Everything [scrape_job_page] does with a fetched document. *)
Definition job_record (job_id : string) (soup : Soup) : Outcome Dict :=
  job_data ← job_fields job_id soup;
  let job_data :=
    match description_of soup with
    | Some d => <["description" := d]> job_data
    | None => job_data
    end in
  criteria ← get_job_criteria soup;
  mret (criteria ∪ job_data).                       (* job_data.update(criteria) *)

Definition job_page_request (job_id : string) : Request :=
  {| req_url := "https://www.linkedin.com/jobs-guest/jobs/api/jobPosting/" +:+ job_id;
     req_params := [] |}.

Definition scrape_job_page (job_id : string) : M (option Dict) :=
  try_except
    (response ← requests_get (job_page_request job_id);
     if bool_decide (status_code response ≠ 200) then
       _ ← emit ERROR ("Failed to fetch job " +:+ job_id +:+ ": Status "
                        +:+ pretty (status_code response));
       mret None
     else
       job_data ← lift (job_record job_id (body response));
       mret (Some job_data))
    (fun e =>
       _ ← emit ERROR ("Error scraping job " +:+ job_id +:+ ": " +:+ str_exn e);
       mret None).

(** *** scrape_jobs_linkedin *)

(** [l[-1]] *)
Definition last_item (l : list string) : Outcome string :=
  match l with
  | [] => Raised (PyExc "IndexError" "list index out of range")
  | _ => index l (List.length l - 1)
  end.

(** [job.find('div', {'class': 'base-card'}).get('data-entity-urn', '').split(':')[-1]] *)
Definition card_id (job : Node) : Outcome string :=
  card ← deref "get" (tag_find (has_class "div" "base-card") job);
  last_item (PyStr.split ":" (get_default "data-entity-urn" "" card)).

Fixpoint collect_ids (jobs : list Node) (job_ids : list string) : Outcome (list string) :=
  match jobs with
  | [] => Ok job_ids
  | job :: rest =>
      job_id ← card_id job;
      collect_ids rest (if PyStr.truthy job_id then job_ids ++ [job_id] else job_ids)
  end.

Definition listing_request (params : LinkedInSearchParams) (page : nat) : Request :=
  {| req_url := search_url;
     req_params := assoc_set "start" (VInt (Z.of_nat page * 25)) (params_dict params) |}.

(** One turn of the pagination loop. *)
Definition listing_page (params : LinkedInSearchParams) (page : nat)
    (job_ids : list string) : M (list string) :=
  try_except
    (response ← requests_get (listing_request params page);
     if bool_decide (status_code response = 200) then
       job_ids' ← lift (collect_ids (find_all (is_elem "li") (body response)) job_ids);
       _ ← sleep_uniform;
       mret job_ids'
     else
       _ ← emit ERROR ("Failed to fetch jobs: Status " +:+ pretty (status_code response));
       raise (HTTPException (status_code response) "Failed to fetch jobs"))
    (fun e =>
       _ ← emit ERROR ("Error during job scraping: " +:+ str_exn e);
       raise (HTTPException 500 (str_exn e))).

Fixpoint listing_loop (params : LinkedInSearchParams) (todo : list nat)
    (job_ids : list string) : M (list string) :=
  match todo with
  | [] => mret job_ids
  | page :: rest =>
      job_ids' ← listing_page params page job_ids;
      listing_loop params rest job_ids'
  end.

(** The [for attempt in range(max_retries): ... else: ...] loop for one id. *)
Fixpoint retry_loop (todo : list nat) (retries : nat) (job_id : string)
    (jobs_data : list Dict) : M (list Dict) :=
  match todo with
  | [] =>
      _ ← emit WARNING ("Failed to scrape job " +:+ job_id +:+ " after "
                         +:+ pretty retries +:+ " attempts");
      mret jobs_data
  | attempt :: rest =>
      job_info ← scrape_job_page job_id;
      match job_info with
      | Some d =>
          if bool_decide (d = ∅) then
            _ ← sleep_uniform; retry_loop rest retries job_id jobs_data
          else
            _ ← emit INFO ("Successfully scraped job " +:+ job_id);
            mret (jobs_data ++ [d])                  (* break *)
      | None =>
          _ ← sleep_uniform; retry_loop rest retries job_id jobs_data
      end
  end.

Fixpoint resolve_loop (retries : nat) (job_ids : list string)
    (jobs_data : list Dict) : M (list Dict) :=
  match job_ids with
  | [] => mret jobs_data
  | job_id :: rest =>
      jobs_data' ← retry_loop (seq 0 retries) retries job_id jobs_data;
      resolve_loop retries rest jobs_data'
  end.

Definition scrape_jobs_linkedin (params : LinkedInSearchParams) : M (list Dict) :=
  job_ids ← listing_loop params (range (pages params)) [];
  resolve_loop max_retries job_ids [].

(** The endpoint. *)
Definition scrape_linkedin_jobs (params : LinkedInSearchParams) : M StandardResponse :=
  try_except
    (job_data ← scrape_jobs_linkedin params;
     mret {| success := true;
             message := Some ("Found " +:+ pretty (List.length job_data) +:+ " LinkedIn jobs");
             count := List.length job_data;
             data := map (with_platform "LinkedIn") job_data |})
    (fun e =>
       _ ← emit ERROR ("LinkedIn scraping failed: " +:+ str_exn e);
       raise (HTTPException 500 ("LinkedIn scraping failed: " +:+ str_exn e))).

End LinkedIn.

(* ===================================================================== *)
(** ** Indeed *)
(* ===================================================================== *)

Module Indeed.
Import Html Runtime.

Definition PAGES_TO_SCRAPE : Z := 1.
Definition BASE_URL : string := "https://in.indeed.com/jobs".

Record IndeedSearchParams := {
  job_title : string;
  location : option string;
  days_posted : option Z;
  radius : option Z;
  job_type : option string;
  sort_by : option string;
  experience_level : option string;
  remote : option string
}.

(** The request model's defaults: what a caller who gives only the title gets. *)
Definition title_only (title : string) : IndeedSearchParams :=
  {| job_title := title; location := None; days_posted := Some 7; radius := Some 50;
     job_type := Some "fulltime"; sort_by := Some "date";
     experience_level := None; remote := None |}.

(** The [filters] dictionary of the endpoint, [None] values removed. *)
Definition filters_of (params : IndeedSearchParams) : list (string * PyVal) :=
  let filters :=
    [ ("q", VStr (job_title params));
      ("l", opt_str (location params));
      ("fromage", opt_int (days_posted params));
      ("radius", opt_int (radius params));
      ("jt", opt_str (job_type params));
      ("sort", opt_str (sort_by params));
      ("explvl", opt_str (experience_level params));
      ("remote", opt_str (remote params)) ] in
  List.filter (fun kv => negb (is_none kv.2)) filters.

(** [urlencode(params)]: keys and values stringified, then quoted. *)
Definition urlencode (params : list (string * PyVal)) : string :=
  PyStr.urlencode (map (fun kv => (kv.1, py_str kv.2)) params).

Definition page_params (filters : list (string * PyVal)) (page : nat) : list (string * PyVal) :=
  assoc_set "start" (VInt (Z.of_nat page * 10)) filters.

Definition page_url (filters : list (string * PyVal)) (page : nat) : string :=
  BASE_URL +:+ "?" +:+ urlencode (page_params filters page).

(** *** get_driver *)

(** [uc.Chrome(use_subprocess=True, options=options)] *)
Definition start_chrome : M unit :=
  fun env s =>
    match chrome env with
    | Some (NotStarted e) => (Raised e, s)
    | _ => (Ok tt, s)
    end.

(** [driver.execute_script(...)], on the browser that has started. *)
Definition execute_script : M unit :=
  fun env s =>
    match chrome env with
    | Some (ScriptFailed e) => (Raised e, s)
    | _ => (Ok tt, s)
    end.

Definition get_driver : M unit :=
  _ ← randint 100 120;                               (* the Chrome version *)
  _ ← start_chrome;
  execute_script.

(** *** human_like_interaction *)

(** [Keys] is never imported: naming it raises. *)
Definition Keys_unbound : Exn := PyExc "NameError" "name 'Keys' is not defined".

Definition mouse_move : M unit :=
  x_offset ← randint (-50) 50;
  y_offset ← randint (-50) 50;
  try_except
    (_ ← do_gesture (MoveByOffset x_offset y_offset);
     sleep_uniform)                                   (* actions.pause(uniform) *)
    (fun _ => mret tt).

Definition scroll : M unit :=
  try_except
    (up_or_down ← choice_bool;
     _ ← (if up_or_down : bool
          then (_ ← do_gesture FindBody; (raise Keys_unbound : M unit))
          else (_ ← do_gesture FindBody; (raise Keys_unbound : M unit)));
     sleep_uniform)
    (fun _ => mret tt).

Definition human_like_interaction : M unit :=
  _ ← do_gesture (MoveByOffset 10 10);
  _ ← sleep_uniform;
  moves ← randint 2 4;
  _ ← for_each (range moves) (fun _ => mouse_move);
  scrolls ← randint 3 5;
  for_each (range scrolls) (fun _ => scroll).

(** *** get_job_details *)

Definition template : Dict :=
  <["apply_link" := VStr ""]> (<["image_link" := VStr ""]>
  (<["work_model" := VStr "On-site"]> (<["experience_level" := VStr ""]>
  (<["job_snippet" := VStr ""]> (<["is_urgent" := VBool false]>
  (<["is_remote" := VBool false]> (<["benefits" := VStr ""]>
  (<["shift" := VStr ""]> (<["job_type" := VStr ""]>
  (<["company_rating" := VStr ""]> (<["job_url" := VStr ""]>
  (<["posted" := VStr ""]> (<["salary" := VStr ""]>
  (<["location" := VStr ""]> (<["company" := VStr ""]>
  (<["title" := VStr ""]> (<["job_id" := VStr ""]> ∅))))))))))))))))).

Definition keys : list string :=
  [ "job_id"; "title"; "company"; "location"; "salary"; "posted"; "job_url";
    "company_rating"; "job_type"; "shift"; "benefits"; "is_remote"; "is_urgent";
    "job_snippet"; "experience_level"; "work_model"; "image_link"; "apply_link" ].

(** [soup.find("meta", {"property": p})["content"] if soup.find(..) else None] *)
Definition meta_content (p : string) (soup : Soup) : Outcome PyVal :=
  match find (has_attr "meta" "property" p) soup with
  | Some m => VStr <$> getitem "content" m
  | None => Ok VNone
  end.

Definition company_of : Soup -> Outcome PyVal := meta_content "og:description".
Definition image_link_of : Soup -> Outcome PyVal := meta_content "og:image".

(** [soup.find("title").text.split(" - ")[1] if soup.find("title") else None] *)
Definition location_of (soup : Soup) : Outcome PyVal :=
  match find (is_elem "title") soup with
  | Some t => VStr <$> index (PyStr.split " - " (text t)) 1
  | None => Ok VNone
  end.

Definition is_remote_of (soup : Soup) : PyVal :=
  VBool (found (has_class "div" "remote-badge") soup).

Definition job_snippet_of (soup : Soup) : PyVal :=
  match find (has_class "div" "jobsearch-JobComponent-description") soup with
  | Some job_description => VStr (get_text_strip job_description)
  | None => VStr "Not Provided"
  end.

Definition salary_of (soup : Soup) : PyVal :=
  match find (is_string (PyStr.contains "₹")) soup with
  | Some (Text pay_tag) | Some (Special pay_tag) => VStr (PyStr.strip pay_tag)
  | _ => VStr "Not mentioned"
  end.

(** [[o for o in options if soup.find(string=o)]], joined or the sentinel. *)
Definition labels_of (options : list string) (soup : Soup) : PyVal :=
  match List.filter (fun o => found (is_string (String.eqb o)) soup) options with
  | [] => VStr "Not mentioned"
  | found => VStr (PyStr.join ", " found)
  end.

Definition job_type_options : list string :=
  ["Full-time"; "Part-time"; "Internship"; "Permanent"; "Contract"].
Definition shift_options : list string :=
  ["Day shift"; "Night shift"; "Rotational shift"; "Fixed shift"].

(** [benefits_header.find_next("ul").text if benefits_header else "Not mentioned"] *)
Definition benefits_of (soup : Soup) : Outcome PyVal :=
  match index_of (is_string (PyStr.contains "Benefits")) (nodes soup) with
  | Some i =>
      ul ← deref "text" (find_next "ul" soup i);
      mret (VStr (text ul))
  | None => Ok (VStr "Not mentioned")
  end.

Definition apply_link_of (soup : Soup) : Outcome PyVal :=
  match find (has_attr "meta" "property" "og:url") soup with
  | Some apply_link_meta => VStr <$> getitem "content" apply_link_meta
  | None => Ok (VStr "Not found")
  end.

Definition view_url (job_id : string) : string :=
  "https://in.indeed.com/viewjob?jk=" +:+ job_id.

(** [details[k]] for a key of the template. *)
Definition details_at (k : string) : M PyVal :=
  s ← get_state;
  match details s !! k with
  | Some v => mret v
  | None => raise (PyExc "KeyError" ("'" +:+ k +:+ "'"))
  end.

(** The body of the [try] block. *)
Definition fill_details (job_card : Node) : M unit :=
  _ ← match tag_find (has_class "a" "jcs-JobTitle") job_card with
      | Some job_link =>
          _ ← setitem "job_id" (VStr (get_default "data-jk" "" job_link));
          job_id ← details_at "job_id";
          _ ← setitem "job_url" (VStr (view_url (py_str job_id)));
          setitem "title" (VStr (get_text_strip job_link))
      | None => mret tt
      end;
  job_url ← details_at "job_url";
  _ ← driver_get (py_str job_url);
  _ ← sleep_uniform;
  soup ← get_page_source;
  company ← lift (company_of soup);
  _ ← setitem "company" company;
  location ← lift (location_of soup);
  _ ← setitem "location" location;
  image_link ← lift (image_link_of soup);
  _ ← setitem "image_link" image_link;
  _ ← setitem "is_remote" (is_remote_of soup);
  _ ← setitem "job_snippet" (job_snippet_of soup);
  _ ← setitem "salary" (salary_of soup);
  _ ← setitem "job_type" (labels_of job_type_options soup);
  _ ← setitem "shift" (labels_of shift_options soup);
  benefits ← lift (benefits_of soup);
  _ ← setitem "benefits" benefits;
  apply_link ← lift (apply_link_of soup);
  setitem "apply_link" apply_link.

Definition get_job_details (job_card : Node) : M Dict :=
  _ ← set_details template;
  _ ← try_except (fill_details job_card) (fun _ => mret tt);
  s ← get_state;
  mret (details s).

(** *** scrape_indeed *)

Definition repr (v : PyVal) : string :=
  match v with
  | VStr s => "'" +:+ s +:+ "'"
  | _ => py_str v
  end.

(** [str(filters)], without the escapes of unusual characters. *)
Definition repr_dict (d : list (string * PyVal)) : string :=
  "{" +:+ PyStr.join ", " (map (fun kv => "'" +:+ kv.1 +:+ "': " +:+ repr kv.2) d) +:+ "}".

(** The body of the loop over the job cards. *)
Definition collect_card (card : Node) : M unit :=
  job_data ← get_job_details card;
  s ← get_state;
  set_job_listings (job_listings s ++ [job_data]).

(** One turn of the page loop. *)
Definition scrape_page (filters : list (string * PyVal)) (page : nat) : M unit :=
  _ ← driver_get (page_url filters page);
  _ ← sleep_uniform;
  _ ← human_like_interaction;
  _ ← sleep_uniform;
  soup ← get_page_source;
  let job_cards := find_all (has_class "div" "job_seen_beacon") soup in
  _ ← for_each job_cards collect_card;
  _ ← emit PRINT ("Page " +:+ pretty (page + 1)%nat +:+ " processed with "
                   +:+ pretty (List.length job_cards) +:+ " jobs found");
  sleep_uniform.

Definition scrape_pages (n : Z) (filters : list (string * PyVal)) : M (list Dict) :=
  _ ← emit PRINT ("Starting Indeed scraping with your filters: " +:+ repr_dict filters);
  _ ← get_driver;
  _ ← set_job_listings [];
  _ ← try_finally
        (try_except
           (for_each (range n) (scrape_page filters))
           (fun e => emit PRINT ("Scraping interrupted: " +:+ str_exn e)))
        driver_quit_;
  s ← get_state;
  _ ← emit PRINT ("Total jobs collected: " +:+ pretty (List.length (job_listings s)));
  mret (job_listings s).

Definition scrape_indeed : list (string * PyVal) -> M (list Dict) :=
  scrape_pages PAGES_TO_SCRAPE.

(** The endpoint. *)
Definition scrape_indeed_jobs (params : IndeedSearchParams) : M StandardResponse :=
  try_except
    (job_listings ← scrape_indeed (filters_of params);
     mret {| success := true;
             message := Some ("Found " +:+ pretty (List.length job_listings) +:+ " Indeed jobs");
             count := List.length job_listings;
             data := map (with_platform "Indeed") job_listings |})
    (fun e =>
       _ ← emit ERROR ("Indeed scraping failed: " +:+ str_exn e);
       raise (HTTPException 500 ("Indeed scraping failed: " +:+ str_exn e))).

End Indeed.

(* ===================================================================== *)
(** * Properties *)
(* ===================================================================== *)

Import Html Runtime.

(** Running a computation: unfold the monad and the state accessors. *)
Ltac run :=
  cbv [mbind M_bind mret M_ret try_except try_finally raise lift get_state modify
       randint draw choice_bool sleep_uniform emit do_gesture requests_get driver_get
       get_page_source driver_quit_ set_details setitem set_job_listings
       sent visited page_source gestures draws log driver_quit details job_listings
       fst snd].

Lemma run_bind {A B} (m : M A) (f : A -> M B) env s :
  (m ≫= f) env s =
  match m env s with
  | (Ok a, s') => f a env s'
  | (Raised e, s') => (Raised e, s')
  end.
Proof. reflexivity. Qed.

Lemma run_for_each_cons {A} (x : A) xs (body : A -> M unit) env s :
  for_each (x :: xs) body env s =
  match body x env s with
  | (Ok _, s') => for_each xs body env s'
  | (Raised e, s') => (Raised e, s')
  end.
Proof. reflexivity. Qed.

Lemma range_length n : List.length (range n) = Z.to_nat n.
Proof. unfold range. apply length_seq. Qed.

Lemma randint_run lo hi env s :
  lo <= hi ->
  exists z, (randint lo hi env s).1 = Ok z /\ lo <= z <= hi.
Proof.
  intros Hle. unfold randint. run.
  eexists; split; [reflexivity|].
  match goal with
  | |- context [?a `mod` ?b] => pose proof (Z.mod_pos_bound a b)
  end.
  lia.
Qed.

(* --------------------------------------------------------------------- *)
(** ** Query construction *)
(* --------------------------------------------------------------------- *)

Section Query.
Import Indeed LinkedIn.

(** The keys of a query dictionary. *)
Definition query_keys (q : list (string * PyVal)) : list string := map fst q.

Lemma assoc_set_keys k v d :
  forall k', k' ∈ query_keys (assoc_set k v d) -> k' = k \/ k' ∈ query_keys d.
Proof.
  induction d as [|[k0 v0] d IH]; intros k'; cbn.
  - rewrite list_elem_of_singleton. auto.
  - destruct (String.eqb k0 k); cbn; rewrite !elem_of_cons; naive_solver.
Qed.

Lemma assoc_set_values (P : PyVal -> Prop) k v d :
  (forall k' v', (k', v') ∈ d -> P v') -> P v ->
  forall k' v', (k', v') ∈ assoc_set k v d -> P v'.
Proof.
  intros Hd Hv. induction d as [|[k0 v0] d IH]; cbn; intros k' v'.
  - intros ?%list_elem_of_singleton. by simplify_eq.
  - assert (Hd' : forall k1 v1, (k1, v1) ∈ d -> P v1).
    { intros k1 v1 H. apply (Hd k1 v1). apply elem_of_cons. by right. }
    assert (Hv0 : P v0).
    { apply (Hd k0 v0). apply elem_of_cons. by left. }
    destruct (String.eqb k0 k); rewrite elem_of_cons; intros [Heq|Hin].
    + by injection Heq as -> ->.
    + by apply (Hd' k' v').
    + by injection Heq as -> ->.
    + eapply IH; eauto.
Qed.

(** What [requests] sends is exactly the entries that are not [None]. *)
Lemma wire_params_spec q k x :
  (k, x) ∈ wire_params q <-> exists v, (k, v) ∈ q /\ v <> VNone /\ x = py_str v.
Proof.
  unfold wire_params. rewrite list_elem_of_omap. split.
  - intros ((k0 & v) & Hin & Hsome). exists v. cbn in Hsome.
    destruct v; simplify_eq/=; done.
  - intros (v & Hin & Hv & ->). exists (k, v). split; [done|].
    by destruct v.
Qed.

End Query.

Section KeywordOnly.
Import Indeed LinkedIn.

(** A filter set in which nothing but the required keyword is set. *)
Definition indeed_keyword_only (p : IndeedSearchParams) : Prop :=
  Indeed.location p = None /\ days_posted p = None /\ radius p = None /\
  Indeed.job_type p = None /\ sort_by p = None /\
  Indeed.experience_level p = None /\ Indeed.remote p = None.

Definition linkedin_keyword_only (p : LinkedInSearchParams) : Prop :=
  LinkedIn.location p = None /\ LinkedIn.remote p = None /\
  LinkedIn.experience_level p = None /\ LinkedIn.job_type p = None /\
  time_posted p = None.

(** C8. For a filter set in which only the required keyword is set, the
    query built for a listing page carries the keyword, URL-encoded, and no
    parameter for any filter key without a value: on Indeed the URL is
    [BASE_URL?q=<keyword>&start=<10*page>], on LinkedIn the request goes out
    as [search_url?keywords=<keyword>&pages=<pages>&start=<25*page>]. *)
Theorem keyword_only_query (ip : IndeedSearchParams) (lp : LinkedInSearchParams)
    (page : nat) :
  indeed_keyword_only ip ->
  linkedin_keyword_only lp ->
  page_url (filters_of ip) page =
    BASE_URL +:+ "?" +:+ "q=" +:+ PyStr.quote_plus (job_title ip)
             +:+ "&" +:+ "start=" +:+ PyStr.quote_plus (pretty (Z.of_nat page * 10))
  /\ wire_url (listing_request lp page) =
    search_url +:+ "?" +:+ "keywords=" +:+ PyStr.quote_plus (keywords lp)
               +:+ "&" +:+ "pages=" +:+ PyStr.quote_plus (pretty (pages lp))
               +:+ "&" +:+ "start=" +:+ PyStr.quote_plus (pretty (Z.of_nat page * 25)).
Proof.
  intros (Hl & Hd & Hr & Hj & Hs & He & Hm) (Hl' & Hr' & He' & Hj' & Ht').
  split.
  - unfold page_url, filters_of, page_params, Indeed.urlencode, PyStr.urlencode.
    rewrite Hl, Hd, Hr, Hj, Hs, He, Hm. reflexivity.
  - unfold wire_url, wire_params, listing_request, params_dict, PyStr.urlencode.
    cbn [req_params req_url]. rewrite Hl', Hr', He', Hj', Ht'. reflexivity.
Qed.

Definition indeed_data_scientist : IndeedSearchParams :=
  {| job_title := "Data Scientist"; Indeed.location := None; days_posted := None;
     radius := None; Indeed.job_type := None; sort_by := None;
     Indeed.experience_level := None; Indeed.remote := None |}.

Definition linkedin_data_scientist : LinkedInSearchParams :=
  {| keywords := "Data Scientist"; LinkedIn.location := None; LinkedIn.remote := None;
     LinkedIn.experience_level := None; LinkedIn.job_type := None;
     time_posted := None; pages := 1 |}.

Lemma keyword_only_query_witness :
  indeed_keyword_only indeed_data_scientist /\
  linkedin_keyword_only linkedin_data_scientist /\
  page_url (filters_of indeed_data_scientist) 0 =
    "https://in.indeed.com/jobs?q=Data+Scientist&start=0" /\
  wire_url (listing_request linkedin_data_scientist 0) =
    "https://www.linkedin.com/jobs-guest/jobs/api/seeMoreJobPostings/search?keywords=Data+Scientist&pages=1&start=0".
Proof.
  assert (Hi : indeed_keyword_only indeed_data_scientist) by (repeat split).
  assert (Hl : linkedin_keyword_only linkedin_data_scientist) by (repeat split).
  split; [exact Hi|]. split; [exact Hl|].
  exact (keyword_only_query indeed_data_scientist linkedin_data_scientist 0 Hi Hl).
Defined.

(** What the request model's defaults add when a caller gives the title only. *)
Example title_only_url :
  page_url (filters_of (title_only "Data Scientist")) 0 =
  "https://in.indeed.com/jobs?q=Data+Scientist&fromage=7&radius=50&jt=fulltime&sort=date&start=0".
Proof. reflexivity. Qed.

(** For any Indeed filter set, no parameter of the query is bound to [None]. *)
Lemma indeed_query_has_no_none params page k v :
  (k, v) ∈ page_params (filters_of params) page -> v <> VNone.
Proof.
  unfold page_params.
  apply (assoc_set_values (fun v => v <> VNone)); [|done].
  intros k0 v0 Hin%list_elem_of_In%filter_In. by destruct v0, Hin.
Qed.

End KeywordOnly.

(* --------------------------------------------------------------------- *)
(** ** The human-interaction simulation *)
(* --------------------------------------------------------------------- *)

Section Interaction.
Import Indeed.

(** Each guarded step ends normally and makes exactly one gesture. *)
Definition one_gesture (step : M unit) : Prop :=
  forall env s,
    (step env s).1 = Ok tt /\
    List.length (gestures (step env s).2) = S (List.length (gestures s)).

Lemma mouse_move_one_gesture : one_gesture mouse_move.
Proof.
  intros env [] . unfold mouse_move. run.
  destruct (gesture env _ _); cbn; rewrite length_app; cbn; split; (reflexivity || lia).
Qed.

Lemma scroll_one_gesture : one_gesture scroll.
Proof.
  intros env []. unfold scroll. run.
  destruct (Nat.even _); destruct (gesture env _ _);
    cbn; rewrite length_app; cbn; split; (reflexivity || lia).
Qed.

Lemma for_each_one_gesture {A} (xs : list A) (step : M unit) env s :
  one_gesture step ->
  (for_each xs (fun _ => step) env s).1 = Ok tt /\
  List.length (gestures (for_each xs (fun _ => step) env s).2)
    = (List.length (gestures s) + List.length xs)%nat.
Proof.
  intros Hstep. revert s. induction xs as [|x xs IH]; intros s.
  - cbn. split; [reflexivity | lia].
  - rewrite run_for_each_cons.
    destruct (Hstep env s) as [Hok Hlen].
    destruct (step env s) as [o s1]; cbn in Hok, Hlen; subst o.
    destruct (IH s1) as [Hok' Hlen']. split; [done|].
    rewrite Hlen', Hlen. cbn. lia.
Qed.

(** The unguarded first movement: when it fails, the failure leaves the
    simulation. *)
Lemma first_move_escapes env s e :
  gesture env (List.length (gestures s)) (MoveByOffset 10 10) = Some e ->
  (human_like_interaction env s).1 = Raised e.
Proof.
  intros Hg. destruct s. unfold human_like_interaction. run. cbn in Hg.
  by rewrite Hg.
Qed.

(** Past the first movement nothing escapes, and the two loops make between
    2 and 4 cursor movements and between 3 and 5 scroll attempts. *)
Lemma interaction_loops_swallow env s :
  gesture env (List.length (gestures s)) (MoveByOffset 10 10) = None ->
  (human_like_interaction env s).1 = Ok tt /\
  exists moves scrolls : nat,
    (2 <= moves <= 4)%nat /\ (3 <= scrolls <= 5)%nat /\
    List.length (gestures (human_like_interaction env s).2)
      = (List.length (gestures s) + 1 + moves + scrolls)%nat.
Proof.
  intros Hg. destruct s as [snt vis pg ges drw lg q det jl].
  unfold human_like_interaction. run. cbn in Hg. rewrite Hg.
  match goal with
  | |- context [for_each (range ?n) (fun _ => mouse_move) env ?s1] =>
      pose proof (for_each_one_gesture (range n) mouse_move env s1
                    mouse_move_one_gesture) as [Hok1 Hlen1];
      assert (Hn : 2 <= n <= 4)
        by (match goal with
            | |- context [?a `mod` ?b] => pose proof (Z.mod_pos_bound a b); lia
            end);
      rewrite range_length in Hlen1;
      destruct (for_each (range n) (fun _ => mouse_move) env s1) as [o1 s2];
      set (moves := Z.to_nat n) in *
  end.
  cbn in Hok1, Hlen1. subst o1. destruct s2 as [snt2 vis2 pg2 ges2 drw2 lg2 q2 det2 jl2].
  run.
  match goal with
  | |- context [for_each (range ?n) (fun _ => scroll) env ?s1] =>
      pose proof (for_each_one_gesture (range n) scroll env s1
                    scroll_one_gesture) as [Hok2 Hlen2];
      assert (Hm : 3 <= n <= 5)
        by (match goal with
            | |- context [?a `mod` ?b] => pose proof (Z.mod_pos_bound a b); lia
            end);
      rewrite range_length in Hlen2;
      destruct (for_each (range n) (fun _ => scroll) env s1) as [o2 s3];
      set (scrolls := Z.to_nat n) in *
  end.
  cbn in Hok2, Hlen2. subst o2. split; [reflexivity|].
  exists moves, scrolls. repeat split; try (subst moves scrolls; lia).
  destruct s3. cbn in Hlen1, Hlen2 |- *. rewrite Hlen2, Hlen1, length_app. cbn. lia.
Qed.

(** A browser in which the very first pointer movement is rejected. *)
Definition pointer_out_of_bounds : Exn :=
  PyExc "MoveTargetOutOfBoundsException" "move target out of bounds".

Definition stuck_pointer : Env :=
  {| http := fun _ _ => Raised (PyExc "ConnectionError" "unreachable");
     chrome := None;
     browse := fun _ _ => Ok [];
     gesture := fun n _ => match n with O => Some pointer_out_of_bounds | _ => None end;
     entropy := fun n => n |}.

(** C9. The simulation does not swallow every failure: in a browser whose
    first pointer movement [move_by_offset(10, 10)] is rejected, the exception
    leaves [human_like_interaction] and reaches the caller. *)
Theorem interaction_failure_escapes :
  (human_like_interaction stuck_pointer initial).1 = Raised pointer_out_of_bounds.
Proof. reflexivity. Qed.

End Interaction.

(* --------------------------------------------------------------------- *)
(** ** LinkedIn: one detail page *)
(* --------------------------------------------------------------------- *)

Section DetailPage.
Import LinkedIn.

Lemma criteria_entry_raises item e :
  criteria_entry item = Raised e -> exn_class e = "AttributeError".
Proof.
  unfold criteria_entry, deref.
  destruct (tag_find (is_elem "h3") item); cbn; [|by intros [= <-]].
  destruct (tag_find (is_elem "span") item); cbn; [done|by intros [= <-]].
Qed.

Lemma criteria_loop_total items criteria :
  exists c, criteria_loop items criteria = Ok c.
Proof.
  revert criteria. induction items as [|item items IH]; intros criteria; cbn.
  - by eexists.
  - destruct (criteria_entry item) as [[key value]|e] eqn:He; [apply IH|].
    apply criteria_entry_raises in He as ->. cbn. apply IH.
Qed.

(** Reading the criteria never raises. *)
Lemma get_job_criteria_total soup : exists c, get_job_criteria soup = Ok c.
Proof. apply criteria_loop_total. Qed.

(** The record of a document: the criteria laid over the fixed fields. *)
Lemma job_record_ok job_id soup d :
  job_record job_id soup = Ok d ->
  exists criteria fields,
    get_job_criteria soup = Ok criteria /\
    d = criteria ∪ fields /\
    fields !! "job_id" = Some (VStr job_id) /\
    fields !! "url" = Some (VStr ("https://www.linkedin.com/jobs/view/" +:+ job_id)) /\
    fields !! "platform" = None.
Proof.
  unfold job_record, job_fields.
  destruct (company_url_of soup) as [cu|e]; cbn; [|done].
  destruct (get_job_criteria_total soup) as [c Hc]. rewrite Hc. cbn.
  intros [= <-]. eexists c, _. split; [done|]. split; [reflexivity|].
  destruct (description_of soup); by simplify_map_eq.
Qed.

Lemma job_record_nonempty job_id soup d :
  job_record job_id soup = Ok d -> d <> ∅.
Proof.
  intros (c & f & _ & -> & Hid & _)%job_record_ok Hempty.
  assert (is_Some ((c ∪ f) !! "job_id")) as [v Hv].
  { apply lookup_union_is_Some. right. by eexists. }
  rewrite Hempty in Hv. by rewrite lookup_empty in Hv.
Qed.

(** What an attempt yields, from the answer of the network. *)
Definition fetched (job_id : string) (answer : Outcome Response) : option Dict :=
  match answer with
  | Ok response =>
      if bool_decide (status_code response ≠ 200) then None
      else match job_record job_id (body response) with
           | Ok d => Some d
           | Raised _ => None
           end
  | Raised _ => None
  end.

(** [scrape_job_page] never raises, issues exactly one request, and only
    adds to the log. *)
Lemma scrape_job_page_run job_id env s :
  let r := scrape_job_page job_id env s in
  r.1 = Ok (fetched job_id (http env (List.length (sent s)) (job_page_request job_id))) /\
  sent r.2 = sent s ++ [job_page_request job_id] /\
  log s `prefix_of` log r.2.
Proof.
  destruct s as [snt vis pg ges drw lg q det jl].
  unfold scrape_job_page, fetched. run. cbn [sent log].
  destruct (http env _ _) as [response|e]; cbn.
  - case_bool_decide; cbn.
    + repeat split. by apply prefix_app_r.
    + destruct (job_record job_id (body response)); cbn; repeat split;
        [done | by apply prefix_app_r].
  - repeat split. by apply prefix_app_r.
Qed.

Lemma scrape_job_page_some job_id env s d :
  (scrape_job_page job_id env s).1 = Ok (Some d) -> d <> ∅.
Proof.
  destruct (scrape_job_page_run job_id env s) as [-> _].
  unfold fetched. destruct (http env _ _) as [response|]; [|done].
  case_bool_decide; [done|].
  destruct (job_record _ _) eqn:Hrec; [|done].
  intros [= <-]. by eapply job_record_nonempty.
Qed.

Lemma job_record_total job_id soup cu :
  company_url_of soup = Ok cu -> exists d, job_record job_id soup = Ok d.
Proof.
  intros Hcu. destruct (get_job_criteria_total soup) as [c Hc].
  unfold job_record, job_fields. rewrite Hcu. cbn. rewrite Hc. cbn.
  eexists. reflexivity.
Qed.

(** A page served with status 200 whose company link, if any, has an
    [href] yields a record. *)
Lemma fetched_served job_id response :
  status_code response = 200 ->
  (exists cu, company_url_of (body response) = Ok cu) ->
  exists d, fetched job_id (Ok response) = Some d.
Proof.
  intros Hst [cu Hcu]. unfold fetched. rewrite bool_decide_false by (intros H; by apply H).
  destruct (job_record_total job_id _ _ Hcu) as [d ->]. by eexists.
Qed.

End DetailPage.

(* --------------------------------------------------------------------- *)
(** ** LinkedIn: the retry loop *)
(* --------------------------------------------------------------------- *)

Section Retry.
Import LinkedIn.

(** The attempt made when [n] requests have gone out fails / returns [d]. *)
Definition attempt_fails (env : Env) (n : nat) (job_id : string) : Prop :=
  fetched job_id (http env n (job_page_request job_id)) = None.

Definition attempt_returns (env : Env) (n : nat) (job_id : string) (d : Dict) : Prop :=
  fetched job_id (http env n (job_page_request job_id)) = Some d.

Lemma retry_loop_run env job_id retries d :
  forall todo k s jobs_data,
    (forall i, (i < k)%nat -> attempt_fails env (List.length (sent s) + i) job_id) ->
    attempt_returns env (List.length (sent s) + k) job_id d ->
    let r := retry_loop todo retries job_id jobs_data env s in
    ((k < List.length todo)%nat ->
       r.1 = Ok (jobs_data ++ [d]) /\
       sent r.2 = sent s ++ replicate (k + 1) (job_page_request job_id)) /\
    ((List.length todo <= k)%nat ->
       r.1 = Ok jobs_data /\
       sent r.2 = sent s ++ replicate (List.length todo) (job_page_request job_id)).
Proof.
  induction todo as [|attempt rest IH]; intros k s jobs_data Hfail Hok r.
  - subst r. destruct s. cbn. split; [lia|]. intros _. by rewrite app_nil_r.
  - subst r. cbn [retry_loop]. rewrite run_bind.
    destruct (scrape_job_page_run job_id env s) as (Hres & Hsent & _).
    destruct (scrape_job_page job_id env s) as [o s1] eqn:Hpage.
    cbn in Hres, Hsent. subst o.
    destruct k as [|k].
    + unfold attempt_returns in Hok. rewrite Nat.add_0_r in Hok. rewrite Hok.
      assert (Hne : d <> ∅).
      { apply (scrape_job_page_some job_id env s). rewrite Hpage. cbn.
        by rewrite Hok. }
      rewrite bool_decide_false by done.
      destruct s1. run. cbn in Hsent |- *. split; [|lia]. intros _. by rewrite Hsent.
    + pose proof (Hfail 0%nat ltac:(lia)) as H0. unfold attempt_fails in H0.
      rewrite Nat.add_0_r in H0. rewrite H0.
      rewrite run_bind.
      destruct (sleep_uniform env s1) as [o s2] eqn:Hsleep.
      assert (o = Ok tt /\ sent s2 = sent s1) as [-> Hs2].
      { destruct s1. revert Hsleep. run. by intros [= <- <-]. }
      assert (Hlen : List.length (sent s2) = S (List.length (sent s))).
      { rewrite Hs2, Hsent, length_app. cbn. lia. }
      destruct (IH k s2 jobs_data) as [Hlt Hge].
      * intros i Hi. rewrite Hlen.
        replace (S (List.length (sent s)) + i)%nat
          with (List.length (sent s) + S i)%nat by lia.
        apply Hfail. lia.
      * rewrite Hlen.
        by replace (S (List.length (sent s)) + k)%nat
          with (List.length (sent s) + S k)%nat by lia.
      * cbn [List.length]. split; intros Hk.
        -- destruct Hlt as [-> ->]; [lia|]. split; [done|].
           rewrite Hs2, Hsent, <-app_assoc. done.
        -- destruct Hge as [-> ->]; [lia|]. split; [done|].
           rewrite Hs2, Hsent, <-app_assoc. done.
Qed.

(** C2. When the detail fetch of an identifier fails exactly [k] times and
    then returns a record, the retry loop run with [m] allowed attempts (the
    code runs it with [max_retries = 3]) produces a record if and only if
    [k < m]; the record is the one returned by attempt [k + 1], after exactly
    [k + 1] requests. With [m <= k] nothing is appended and [m] requests went
    out. *)
Theorem retry_resolves_iff env s job_id jobs_data (k m : nat) d :
  (forall i, (i < k)%nat -> attempt_fails env (List.length (sent s) + i) job_id) ->
  attempt_returns env (List.length (sent s) + k) job_id d ->
  let r := retry_loop (seq 0 m) m job_id jobs_data env s in
  max_retries = 3%nat /\
  ((exists record, r.1 = Ok (jobs_data ++ [record])) <-> (k < m)%nat) /\
  ((k < m)%nat ->
     r.1 = Ok (jobs_data ++ [d]) /\
     sent r.2 = sent s ++ replicate (k + 1) (job_page_request job_id)) /\
  ((m <= k)%nat ->
     r.1 = Ok jobs_data /\
     sent r.2 = sent s ++ replicate m (job_page_request job_id)).
Proof.
  intros Hfail Hok r.
  destruct (retry_loop_run env job_id m d (seq 0 m) k s jobs_data Hfail Hok)
    as [Hlt Hge].
  rewrite length_seq in Hlt, Hge. fold r in Hlt, Hge.
  split; [reflexivity|]. split; [|split; assumption].
  split.
  - intros [record Hrec]. destruct (decide (k < m)%nat) as [|Hn]; [done|].
    destruct Hge as [Hr _]; [lia|]. rewrite Hr in Hrec.
    injection Hrec as Hrec. apply (f_equal List.length) in Hrec.
    rewrite length_app in Hrec. cbn in Hrec. lia.
  - intros Hk. exists d. by apply Hlt.
Qed.

End Retry.

(* --------------------------------------------------------------------- *)
(** ** LinkedIn: pagination *)
(* --------------------------------------------------------------------- *)

Section Pagination.
Import LinkedIn.

(** A listing-page fetch fails: the request raises or does not answer 200. *)
Definition listing_fetch_fails (answer : Outcome Response) : Prop :=
  match answer with
  | Raised _ => True
  | Ok response => status_code response ≠ 200
  end.

Lemma collect_ids_nonempty jobs :
  forall job_ids ids',
    collect_ids jobs job_ids = Ok ids' ->
    Forall (fun id => id <> "") job_ids -> Forall (fun id => id <> "") ids'.
Proof.
  induction jobs as [|job jobs IH]; intros job_ids ids'; cbn.
  - by intros [= <-].
  - destruct (card_id job) as [job_id|e]; cbn; [|done].
    intros Hrest Hall. apply (IH _ _ Hrest).
    destruct job_id; cbn; [done|].
    apply Forall_app. split; [done|]. by apply Forall_singleton.
Qed.

Lemma listing_page_run params page job_ids env s :
  let r := listing_page params page job_ids env s in
  let answer := http env (List.length (sent s)) (listing_request params page) in
  sent r.2 = sent s ++ [listing_request params page] /\
  log s `prefix_of` log r.2 /\
  match r.1 with
  | Ok ids' =>
      exists response,
        answer = Ok response /\ status_code response = 200 /\
        collect_ids (find_all (is_elem "li") (body response)) job_ids = Ok ids'
  | Raised e => exists detail, e = HTTPException 500 detail
  end /\
  (listing_fetch_fails answer -> exists detail, r.1 = Raised (HTTPException 500 detail)).
Proof.
  destruct s as [snt vis pg ges drw lg q det jl].
  unfold listing_page, listing_fetch_fails. run. cbn [sent log].
  destruct (http env _ _) as [response|e]; cbn.
  - case_bool_decide as Hst; cbn.
    + destruct (collect_ids _ job_ids) as [ids'|e] eqn:Hids; cbn.
      * repeat split; [done| |done]. by exists response.
      * repeat split; [by apply prefix_app_r|by eexists|by eexists].
    + repeat split; [|by eexists|by eexists].
      rewrite <-app_assoc. by apply prefix_app_r.
  - repeat split; [by apply prefix_app_r|by eexists|by eexists].
Qed.

Lemma listing_loop_run params env :
  forall todo job_ids s,
    let r := listing_loop params todo job_ids env s in
    log s `prefix_of` log r.2 /\
    match r.1 with
    | Ok ids =>
        sent r.2 = sent s ++ map (listing_request params) todo /\
        (Forall (fun id => id <> "") job_ids -> Forall (fun id => id <> "") ids)
    | Raised e =>
        (exists detail, e = HTTPException 500 detail) /\
        exists j, (j < List.length todo)%nat /\
          sent r.2 = sent s ++ map (listing_request params) (take (S j) todo)
    end /\
    (forall i page,
       todo !! i = Some page ->
       listing_fetch_fails (http env (List.length (sent s) + i) (listing_request params page)) ->
       exists detail, r.1 = Raised (HTTPException 500 detail)).
Proof.
  induction todo as [|page todo IH]; intros job_ids s r; subst r.
  - cbn. repeat split; [reflexivity|by rewrite app_nil_r|done|]. by intros i page [=].
  - cbn [listing_loop]. rewrite run_bind.
    destruct (listing_page_run params page job_ids env s) as (Hsent & Hlog & Hres & Hfail).
    destruct (listing_page params page job_ids env s) as [[ids'|e] s1];
      cbn in Hsent, Hlog, Hres, Hfail.
    + destruct Hres as (response & Hans & Hst & Hids).
      destruct (IH ids' s1) as (Hlog' & Hres' & Hfail').
      assert (Hlen : List.length (sent s1) = S (List.length (sent s))).
      { rewrite Hsent, length_app. cbn. lia. }
      split; [by etrans|]. split.
      * destruct (listing_loop params todo ids' env s1).1 as [ids|e'].
        -- destruct Hres' as [-> Hne]. split; [by rewrite Hsent, <-app_assoc|].
           intros Hall. apply Hne. by eapply collect_ids_nonempty.
        -- destruct Hres' as [Hdet (j & Hj & ->)]. split; [done|].
           exists (S j). split; [cbn; lia|]. by rewrite Hsent, <-app_assoc.
      * intros [|i] page' Hlook Hbad.
        -- cbn in Hlook. injection Hlook as <-. rewrite Nat.add_0_r in Hbad.
           destruct (Hfail Hbad) as [detail [=]].
        -- cbn in Hlook. apply (Hfail' i page' Hlook). rewrite Hlen.
           by replace (S (List.length (sent s)) + i)%nat
             with (List.length (sent s) + S i)%nat by lia.
    + cbn. split; [done|]. split.
      * split; [done|]. exists 0%nat. split; [cbn; lia|]. by rewrite Hsent.
      * intros _ _ _ _. destruct Hres as [detail ->]. by eexists.
Qed.

End Pagination.

(* --------------------------------------------------------------------- *)
(** ** LinkedIn: resolving the discovered identifiers *)
(* --------------------------------------------------------------------- *)

Section Resolve.
Import LinkedIn.

(** [d] is what [scrape_job_page] builds for [job_id] from some document. *)
Definition record_of (job_id : string) (d : Dict) : Prop :=
  exists soup, job_record job_id soup = Ok d.

(** A request for a listing page, as opposed to a detail page. *)
Definition is_listing (r : Request) : bool := String.eqb (req_url r) search_url.

Lemma job_page_not_listing job_id : is_listing (job_page_request job_id) = false.
Proof. reflexivity. Qed.

Lemma listing_is_listing params page : is_listing (listing_request params page) = true.
Proof. reflexivity. Qed.

Definition exhausted_warning (job_id : string) (retries : nat) : Level * string :=
  (WARNING, "Failed to scrape job " +:+ job_id +:+ " after "
            +:+ pretty retries +:+ " attempts").

Lemma fetched_record_of job_id answer d :
  fetched job_id answer = Some d -> record_of job_id d /\ d <> ∅.
Proof.
  unfold fetched. destruct answer as [response|]; [|done].
  case_bool_decide; [done|].
  destruct (job_record _ _) eqn:Hrec; [|done]. intros [= <-].
  split; [by eexists|by eapply job_record_nonempty].
Qed.

Lemma sleep_uniform_run env s :
  exists s', sleep_uniform env s = (Ok tt, s') /\ sent s' = sent s /\ log s' = log s.
Proof. destruct s. run. by eexists. Qed.

(** The retry loop never raises; it appends at most one record, a record of
    this identifier, and sends nothing but detail requests. *)
Lemma retry_loop_total env job_id retries :
  forall todo s,
  exists new s',
    (forall acc, retry_loop todo retries job_id acc env s = (Ok (acc ++ new), s')) /\
    (List.length new <= 1)%nat /\
    Forall (record_of job_id) new /\
    log s `prefix_of` log s' /\
    exists j, sent s' = sent s ++ replicate j (job_page_request job_id).
Proof.
  induction todo as [|attempt rest IH]; intros s.
  - exists [], (emit WARNING (snd (exhausted_warning job_id retries)) env s).2.
    split; [|split; [cbn; lia|split; [done|split]]].
    + intros acc. rewrite app_nil_r. by destruct s.
    + destruct s. cbn. by apply prefix_app_r.
    + exists 0%nat. destruct s. cbn. by rewrite app_nil_r.
  - destruct (scrape_job_page_run job_id env s) as (Hres & Hsent & Hlog).
    destruct (scrape_job_page job_id env s) as [o s1] eqn:Hpage.
    cbn in Hres, Hsent, Hlog. subst o.
    destruct (fetched job_id _) as [d|] eqn:Hf.
    + destruct (fetched_record_of _ _ _ Hf) as [Hrec Hne].
      exists [d], (emit INFO ("Successfully scraped job " +:+ job_id) env s1).2.
      split; [|split; [cbn; lia|split; [by apply Forall_singleton|split]]].
      * intros acc. cbn [retry_loop]. rewrite run_bind, Hpage.
        rewrite bool_decide_false by done. by destruct s1.
      * etrans; [exact Hlog|]. destruct s1. cbn. by apply prefix_app_r.
      * exists 1%nat. destruct s1. cbn in *. by rewrite Hsent.
    + destruct (sleep_uniform_run env s1) as (s2 & Hsleep & Hs2 & Hl2).
      destruct (IH s2) as (new & s' & Hrun & Hlen & Hall & Hlog' & j & Hsent').
      exists new, s'. split; [|split; [done|split; [done|split]]].
      * intros acc. cbn [retry_loop]. rewrite run_bind, Hpage, run_bind, Hsleep.
        apply Hrun.
      * etrans; [exact Hlog|]. by rewrite <-Hl2.
      * exists (S j). rewrite Hsent', Hs2, Hsent, <-app_assoc. done.
Qed.


Lemma resolve_loop_total env retries :
  forall ids s,
  exists new s',
    (forall acc, resolve_loop retries ids acc env s = (Ok (acc ++ new), s')) /\
    (List.length new <= List.length ids)%nat /\
    Forall (fun d => exists job_id, job_id ∈ ids /\ record_of job_id d) new /\
    log s `prefix_of` log s' /\
    exists rs, sent s' = sent s ++ rs /\ Forall (fun r => is_listing r = false) rs.
Proof.
  induction ids as [|job_id ids IH]; intros s.
  - exists [], s. split; [|split; [done|split; [done|split; [done|]]]].
    + intros acc. by rewrite app_nil_r.
    + exists []. by rewrite app_nil_r.
  - destruct (retry_loop_total env job_id retries (seq 0 retries) s)
      as (new1 & s1 & Hrun1 & Hlen1 & Hall1 & Hlog1 & j & Hsent1).
    destruct (IH s1) as (new2 & s2 & Hrun2 & Hlen2 & Hall2 & Hlog2 & rs & Hsent2 & Hrs).
    exists (new1 ++ new2), s2. split; [|split; [|split; [|split; [by etrans|]]]].
    + intros acc. cbn [resolve_loop]. rewrite run_bind, Hrun1, Hrun2.
      by rewrite app_assoc.
    + rewrite length_app. cbn. lia.
    + apply Forall_app. split.
      * eapply Forall_impl; [exact Hall1|]. intros d Hd. exists job_id.
        split; [apply list_elem_of_here|done].
      * eapply Forall_impl; [exact Hall2|]. intros d (id & Hin & Hd). exists id.
        split; [by apply elem_of_cons; right|done].
    + exists (replicate j (job_page_request job_id) ++ rs).
      split; [by rewrite Hsent2, Hsent1, <-app_assoc|].
      apply Forall_app. split; [|done].
      apply Forall_replicate. apply job_page_not_listing.
Qed.


End Resolve.

(* --------------------------------------------------------------------- *)
(** ** LinkedIn: the whole run *)
(* --------------------------------------------------------------------- *)

Section LinkedInRun.
Import LinkedIn.

(** The endpoint, once pagination has produced its identifiers. *)
Lemma scrape_linkedin_jobs_resolved params env s job_ids s0 :
  listing_loop params (range (pages params)) [] env s = (Ok job_ids, s0) ->
  exists records s',
    (forall acc, resolve_loop max_retries job_ids acc env s0 = (Ok (acc ++ records), s')) /\
    scrape_linkedin_jobs params env s =
      (Ok {| success := true;
             message := Some ("Found " +:+ pretty (List.length records) +:+ " LinkedIn jobs");
             count := List.length records;
             data := map (with_platform "LinkedIn") records |}, s').
Proof.
  intros Hlist.
  destruct (resolve_loop_total env max_retries job_ids s0) as (records & s' & Hrun & _).
  exists records, s'. split; [done|].
  unfold scrape_linkedin_jobs, scrape_jobs_linkedin, try_except.
  rewrite !run_bind, Hlist, Hrun. reflexivity.
Qed.

(** The endpoint, when pagination raises. *)
Lemma scrape_linkedin_jobs_aborted params env s e s0 :
  listing_loop params (range (pages params)) [] env s = (Raised e, s0) ->
  (scrape_linkedin_jobs params env s).1 =
    Raised (HTTPException 500 ("LinkedIn scraping failed: " +:+ str_exn e)).
Proof.
  intros Hlist. unfold scrape_linkedin_jobs, scrape_jobs_linkedin, try_except.
  rewrite !run_bind, Hlist. by destruct s0.
Qed.


End LinkedInRun.

(* --------------------------------------------------------------------- *)
(** ** LinkedIn: fixtures *)
(* --------------------------------------------------------------------- *)

Module Scenario.
Import LinkedIn.

Definition listing_item (job_id : string) : Node :=
  Elem "li" [] []
    [Elem "div" ["base-card"; "job-search-card"]
       [("data-entity-urn", "urn:li:jobPosting:" +:+ job_id)]
       [Text "Data Scientist"]].

Definition listing_of (job_ids : list string) : Soup :=
  [Elem "ul" [] [] (map listing_item job_ids)].

Definition detail_page : Soup :=
  [ Elem "h2" ["top-card-layout__title"] [] [Text " Data Scientist "];
    Elem "a" ["topcard__org-name-link"] [("href", "https://www.linkedin.com/company/acme")]
      [Text "Acme"];
    Elem "ul" [] []
      [Elem "li" ["description__job-criteria-item"] []
         [Elem "h3" [] [] [Text "Seniority level"]; Elem "span" [] [] [Text "Entry level"]]] ].

Definition served : Response := {| status_code := 200; body := detail_page |}.
Definition unavailable : Response := {| status_code := 503; body := [] |}.

Definition no_browser : nat -> string -> Outcome Soup :=
  fun _ _ => Raised (PyExc "WebDriverException" "no browser").

(** The network of scenario B: the listing has 1001 and 1002, the detail
    page of 1001 is served, that of 1002 never is. *)
Definition net_1002_down : Env :=
  {| http := fun _ r =>
       if String.eqb (req_url r) search_url
       then Ok {| status_code := 200; body := listing_of ["1001"; "1002"] |}
       else if String.eqb (req_url r) (req_url (job_page_request "1001"))
       then Ok served
       else Ok unavailable;
     chrome := None; browse := no_browser; gesture := fun _ _ => None;
     entropy := fun n => n |}.

(** The network of a full run: the listing has 1001 only. *)
Definition net_1001_only : Env :=
  {| http := fun _ r =>
       if String.eqb (req_url r) search_url
       then Ok {| status_code := 200; body := listing_of ["1001"] |}
       else Ok served;
     chrome := None; browse := no_browser; gesture := fun _ _ => None;
     entropy := fun n => n |}.

(** A detail endpoint that answers 503 once and serves the page afterwards. *)
Definition net_flaky : Env :=
  {| http := fun n _ => match n with O => Ok unavailable | _ => Ok served end;
     chrome := None; browse := no_browser; gesture := fun _ _ => None;
     entropy := fun n => n |}.

(** The record built from the served page. *)
Definition record_1001 : Dict := default ∅ (fetched "1001" (Ok served)).

Example record_1001_fields :
  map (fun k => record_1001 !! k)
      ["job_id"; "title"; "company"; "location"; "url"; "seniority_level"]
  = [ Some (VStr "1001"); Some (VStr "Data Scientist"); Some (VStr "Acme"); Some VNone;
      Some (VStr "https://www.linkedin.com/jobs/view/1001"); Some (VStr "Entry level") ].
Proof. vm_compute. reflexivity. Qed.

Lemma served_1001 : fetched "1001" (Ok served) = Some record_1001.
Proof.
  unfold record_1001.
  destruct (fetched_served "1001" served) as [d Hd].
  - reflexivity.
  - eexists. vm_compute. reflexivity.
  - rewrite Hd. reflexivity.
Qed.

End Scenario.

Lemma retry_resolves_iff_witness :
  let r := LinkedIn.retry_loop (seq 0 3) 3 "1001" [] Scenario.net_flaky initial in
  r.1 = Ok [Scenario.record_1001] /\
  sent r.2 = [LinkedIn.job_page_request "1001"; LinkedIn.job_page_request "1001"].
Proof.
  destruct (retry_resolves_iff Scenario.net_flaky initial "1001" [] 1 3 Scenario.record_1001)
    as (_ & _ & Hlt & _).
  - intros i Hi. assert (i = 0%nat) as -> by lia. reflexivity.
  - exact Scenario.served_1001.
  - apply Hlt. lia.
Defined.


(** Scenario B end to end: two identifiers discovered, one record returned. *)
Example scenario_B_response :
  let r := LinkedIn.scrape_linkedin_jobs linkedin_data_scientist Scenario.net_1002_down initial in
  (match r.1 with
   | Ok response =>
       Some (success response, message response, count response,
             map (fun d => d !! "job_id") (data response))
   | Raised _ => None
   end) = Some (true, Some "Found 1 LinkedIn jobs", 1%nat, [Some (VStr "1001")]) /\
  log r.2 = [ (INFO, "Successfully scraped job 1001");
              (ERROR, "Failed to fetch job 1002: Status 503");
              (ERROR, "Failed to fetch job 1002: Status 503");
              (ERROR, "Failed to fetch job 1002: Status 503");
              (WARNING, "Failed to scrape job 1002 after 3 attempts") ].
Proof. vm_compute. split; reflexivity. Qed.

(* --------------------------------------------------------------------- *)
(** ** Indeed: the detail extractor *)
(* --------------------------------------------------------------------- *)

Section Details.
Import Indeed.

Definition title_link (job_card : Node) : option Node :=
  tag_find (has_class "a" "jcs-JobTitle") job_card.

(** The assignments of the [if job_link:] block. *)
Definition card_fields (job_card : Node) (d : Dict) : Dict :=
  match title_link job_card with
  | Some job_link =>
      let job_id := get_default "data-jk" "" job_link in
      <["title" := VStr (get_text_strip job_link)]>
        (<["job_url" := VStr (view_url job_id)]> (<["job_id" := VStr job_id]> d))
  | None => d
  end.

(** The URL handed to [driver.get]: [details['job_url']]. *)
Definition card_url (job_card : Node) : string :=
  match title_link job_card with
  | Some job_link => view_url (get_default "data-jk" "" job_link)
  | None => ""
  end.

(** The assignments made from the detail page, in the order of the source. *)
Definition page_fields : list (string * (Soup -> Outcome PyVal)) :=
  [ ("company", company_of);
    ("location", location_of);
    ("image_link", image_link_of);
    ("is_remote", fun soup => Ok (is_remote_of soup));
    ("job_snippet", fun soup => Ok (job_snippet_of soup));
    ("salary", fun soup => Ok (salary_of soup));
    ("job_type", fun soup => Ok (labels_of job_type_options soup));
    ("shift", fun soup => Ok (labels_of shift_options soup));
    ("benefits", benefits_of);
    ("apply_link", apply_link_of) ].

(** Assign field after field until an extraction raises. *)
Fixpoint assign_until_raise (fields : list (string * (Soup -> Outcome PyVal)))
    (soup : Soup) (d : Dict) : Dict :=
  match fields with
  | [] => d
  | (k, extract) :: rest =>
      match extract soup with
      | Ok v => assign_until_raise rest soup (<[k := v]> d)
      | Raised _ => d
      end
  end.

(** How many assignments ran: the fields before the first one that raises. *)
Fixpoint ran (fields : list (string * (Soup -> Outcome PyVal))) (soup : Soup) : nat :=
  match fields with
  | [] => 0
  | (_, extract) :: rest =>
      match extract soup with
      | Ok _ => S (ran rest soup)
      | Raised _ => 0
      end
  end.

(** The dictionary [get_job_details] returns for a card, given what
    [driver.get] answered for the card's URL. *)
Definition expected_details (job_card : Node) (page : Outcome Soup) : Dict :=
  match page with
  | Ok soup => assign_until_raise page_fields soup (card_fields job_card template)
  | Raised _ => card_fields job_card template
  end.

(** The keys no statement of [get_job_details] assigns. *)
Definition never_assigned : list string :=
  ["posted"; "company_rating"; "is_urgent"; "experience_level"; "work_model"].

Lemma template_job_url : template !! "job_url" = Some (VStr "").
Proof. reflexivity. Qed.

Lemma get_job_details_run job_card env s :
  let r := get_job_details job_card env s in
  let page := browse env (List.length (visited s)) (card_url job_card) in
  r.1 = Ok (expected_details job_card page) /\
  visited r.2 = visited s ++ [card_url job_card] /\
  job_listings r.2 = job_listings s /\
  log r.2 = log s /\
  sent r.2 = sent s.
Proof.
  destruct s as [snt vis pg ges drw lg q det jl].
  unfold get_job_details, fill_details, details_at, expected_details, card_fields,
    card_url, title_link.
  run. cbn [visited job_listings log sent assign_until_raise page_fields].
  destruct (tag_find _ job_card) as [job_link|].
  - rewrite lookup_insert_eq. cbn [py_str].
    rewrite lookup_insert_ne by done. rewrite lookup_insert_eq. cbn [py_str].
    destruct (browse env _ _) as [soup|e]; [|done].
    destruct (company_of soup); [|done].
    destruct (location_of soup); [|done].
    destruct (image_link_of soup); [|done].
    destruct (benefits_of soup); [|done].
    destruct (apply_link_of soup); done.
  - rewrite template_job_url. cbn [py_str].
    destruct (browse env _ _) as [soup|e]; [|done].
    destruct (company_of soup); [|done].
    destruct (location_of soup); [|done].
    destruct (image_link_of soup); [|done].
    destruct (benefits_of soup); [|done].
    destruct (apply_link_of soup); done.
Qed.

Lemma assign_other fields soup k :
  forall d, k ∉ map fst fields -> assign_until_raise fields soup d !! k = d !! k.
Proof.
  induction fields as [|[k0 f] fields IH]; intros d Hk; [done|].
  cbn in Hk |- *. apply not_elem_of_cons in Hk as [Hne Hk].
  destruct (f soup); [|done]. rewrite IH by done. by rewrite lookup_insert_ne.
Qed.

Lemma assign_lookup fields soup :
  NoDup (map fst fields) ->
  forall d i k f,
    fields !! i = Some (k, f) ->
    if decide (i < ran fields soup)%nat
    then exists v, f soup = Ok v /\ assign_until_raise fields soup d !! k = Some v
    else assign_until_raise fields soup d !! k = d !! k.
Proof.
  induction fields as [|[k0 f0] fields IH]; intros Hnd d i k f Hi; [done|].
  cbn in Hnd. apply NoDup_cons in Hnd as [Hk0 Hnd].
  cbn [assign_until_raise ran].
  destruct i as [|i]; cbn in Hi.
  - injection Hi as -> ->. destruct (f soup) as [v|e] eqn:Hf.
    + rewrite decide_True by lia. exists v. split; [done|].
      rewrite assign_other by done. apply lookup_insert_eq.
    + by rewrite decide_False by lia.
  - destruct (f0 soup) as [v0|e0].
    + specialize (IH Hnd (<[k0:=v0]> d) i k f Hi).
      destruct (decide (i < ran fields soup)%nat).
      * rewrite decide_True by lia. done.
      * rewrite decide_False by lia. rewrite IH. apply lookup_insert_ne.
        intros ->. apply Hk0. apply list_elem_of_fmap. exists (k, f). split; [done|].
        by eapply list_elem_of_lookup_2.
    + by rewrite decide_False by lia.
Qed.

Lemma assign_dom fields soup :
  forall d, (forall k, k ∈ map fst fields -> k ∈ dom d) ->
  dom (assign_until_raise fields soup d) = dom d.
Proof.
  induction fields as [|[k0 f] fields IH]; intros d Hk; [done|].
  cbn. destruct (f soup); [|done].
  assert (k0 ∈ dom d) by (apply Hk; cbn; apply list_elem_of_here).
  rewrite IH.
  - rewrite dom_insert_L. set_solver.
  - intros k Hin. rewrite dom_insert_L. apply elem_of_union. right.
    apply Hk. cbn. by apply elem_of_cons; right.
Qed.

Lemma template_dom : dom template = list_to_set keys.
Proof. unfold template, keys. rewrite !dom_insert_L, dom_empty_L. cbn. set_solver. Qed.

Lemma page_fields_NoDup : NoDup (map fst page_fields).
Proof. cbn. repeat (apply NoDup_cons; split; [set_solver|]). apply NoDup_nil_2. Qed.

Lemma card_fields_dom job_card : dom (card_fields job_card template) = list_to_set keys.
Proof.
  unfold card_fields. destruct (title_link job_card); [|apply template_dom].
  cbn zeta. rewrite !dom_insert_L, template_dom. unfold keys. cbn. set_solver.
Qed.

(** The card's assignments touch [job_id], [job_url] and [title] only. *)
Lemma card_fields_other job_card k :
  k <> "job_id" -> k <> "job_url" -> k <> "title" ->
  card_fields job_card template !! k = template !! k.
Proof.
  intros H1 H2 H3. unfold card_fields. destruct (title_link job_card); [|done].
  cbn zeta. by rewrite !lookup_insert_ne.
Qed.

Lemma page_fields_keys k :
  k ∈ map fst page_fields -> k ∈ keys /\ k <> "job_id" /\ k <> "job_url" /\ k <> "title".
Proof.
  cbn. unfold keys. rewrite !elem_of_cons.
  intros H. repeat destruct H as [->|H]; try (split; [set_solver|done]).
  by apply elem_of_nil in H.
Qed.

Lemma expected_details_dom job_card page :
  dom (expected_details job_card page) = list_to_set keys.
Proof.
  unfold expected_details. destruct page as [soup|e]; [|apply card_fields_dom].
  rewrite assign_dom; [apply card_fields_dom|].
  intros k Hk%page_fields_keys. rewrite card_fields_dom.
  apply elem_of_list_to_set. tauto.
Qed.

(** The identifying fields come from the card alone. *)
Lemma expected_details_identity job_card page k :
  k = "job_id" \/ k = "job_url" \/ k = "title" \/ k ∈ never_assigned ->
  expected_details job_card page !! k = card_fields job_card template !! k.
Proof.
  intros Hk. unfold expected_details. destruct page as [soup|e]; [|done].
  apply assign_other. cbn. unfold never_assigned in Hk. set_solver.
Qed.

End Details.

(* --------------------------------------------------------------------- *)
(** ** Missing locators *)
(* --------------------------------------------------------------------- *)

Section Locators.
Import Indeed LinkedIn.

(** Whether any of the labels occurs as a string of the page. *)
Definition any_label (options : list string) (soup : Soup) : bool :=
  existsb (fun o => found (is_string (String.eqb o)) soup) options.

(** For each field read from the Indeed detail page: whether its locator
    finds anything, and the value the field takes when it does not. *)
Definition page_locators : list (string * (Soup -> bool) * PyVal) :=
  [ ("company", found (has_attr "meta" "property" "og:description"), VNone);
    ("location", found (is_elem "title"), VNone);
    ("image_link", found (has_attr "meta" "property" "og:image"), VNone);
    ("is_remote", found (has_class "div" "remote-badge"), VBool false);
    ("job_snippet", found (has_class "div" "jobsearch-JobComponent-description"),
       VStr "Not Provided");
    ("salary", found (is_string (PyStr.contains "₹")), VStr "Not mentioned");
    ("job_type", any_label job_type_options, VStr "Not mentioned");
    ("shift", any_label shift_options, VStr "Not mentioned");
    ("benefits", found (is_string (PyStr.contains "Benefits")), VStr "Not mentioned");
    ("apply_link", found (has_attr "meta" "property" "og:url"), VStr "Not found") ].

(** The guarded fields of a LinkedIn record and their locators. *)
Definition linkedin_locators : list (string * (Node -> bool)) :=
  [ ("title", has_class "h2" "top-card-layout__title");
    ("company", has_class "a" "topcard__org-name-link");
    ("location", has_class "span" "topcard__flavor--bullet");
    ("posted", has_class "span" "posted-time-ago__text");
    ("applicants", has_class "span" "num-applicants__caption") ].

Lemma not_found p soup : found p soup = false -> find p soup = None.
Proof. unfold found. by destruct (find p soup). Qed.

Lemma index_of_none p l : List.find p l = None -> index_of p l = None.
Proof.
  induction l as [|n l IH]; cbn; [done|].
  destruct (p n); [done|]. intros H. by rewrite IH.
Qed.

Lemma no_label options soup :
  any_label options soup = false -> labels_of options soup = VStr "Not mentioned".
Proof.
  unfold any_label, labels_of. intros H.
  assert (List.filter (fun o => found (is_string (String.eqb o)) soup) options = []) as ->;
    [|done].
  induction options as [|o options IH]; cbn in H |- *; [done|].
  apply orb_false_iff in H as [-> H]. by apply IH.
Qed.

(** A field whose locator finds nothing takes its sentinel; nothing raises. *)
Lemma missing_locator_sentinel soup i k present sentinel :
  page_locators !! i = Some (k, present, sentinel) ->
  present soup = false ->
  exists f, page_fields !! i = Some (k, f) /\ f soup = Ok sentinel.
Proof.
  intros Hi Hp.
  destruct i as [|[|[|[|[|[|[|[|[|[|i]]]]]]]]]]; [..|done];
    injection Hi as <- <- <-; (eexists; split; [reflexivity|]).
  - unfold company_of, meta_content. by rewrite (not_found _ _ Hp).
  - unfold location_of. by rewrite (not_found _ _ Hp).
  - unfold image_link_of, meta_content. by rewrite (not_found _ _ Hp).
  - unfold is_remote_of. by rewrite Hp.
  - unfold job_snippet_of. by rewrite (not_found _ _ Hp).
  - unfold salary_of. by rewrite (not_found _ _ Hp).
  - cbn beta. by rewrite (no_label _ _ Hp).
  - cbn beta. by rewrite (no_label _ _ Hp).
  - unfold benefits_of. apply not_found in Hp. unfold find in Hp.
    by rewrite (index_of_none _ _ Hp).
  - unfold apply_link_of. by rewrite (not_found _ _ Hp).
Qed.

Lemma job_record_fields job_id soup cu :
  company_url_of soup = Ok cu ->
  exists d criteria,
    job_record job_id soup = Ok d /\
    get_job_criteria soup = Ok criteria /\
    forall k p, (k, p) ∈ linkedin_locators -> criteria !! k = None ->
      d !! k = Some (text_or_none p soup).
Proof.
  intros Hcu. destruct (get_job_criteria_total soup) as [c Hc].
  unfold job_record, job_fields. rewrite Hcu. cbn. rewrite Hc. cbn.
  eexists _, c. split; [reflexivity|]. split; [done|].
  intros k p Hin Hnone. rewrite lookup_union_r by done.
  unfold linkedin_locators in Hin. rewrite !elem_of_cons in Hin.
  destruct (description_of soup);
    repeat destruct Hin as [[= -> ->]|Hin]; try (by apply elem_of_nil in Hin);
    by simplify_map_eq.
Qed.

End Locators.

(* --------------------------------------------------------------------- *)
(** ** Indeed: fixtures *)
(* --------------------------------------------------------------------- *)

Module IndeedScenario.
Import Indeed.

(** A job card with its title link, and one without. *)
Definition card_abc : Node :=
  Elem "div" ["job_seen_beacon"] []
    [Elem "a" ["jcs-JobTitle"] [("data-jk", "abc")] [Text " Data Scientist "]].

Definition card_bare : Node :=
  Elem "div" ["job_seen_beacon"] [] [Text "Sponsored"].

Definition page_full : Soup :=
  [ Elem "title" [] [] [Text "Data Scientist - Pune - Indeed"];
    Elem "meta" [] [("property", "og:image"); ("content", "https://img.example/logo.png")] [];
    Elem "div" [] []
      [Text "Full-time"; Text " ₹50,000 a month "; Text "Benefits:";
       Elem "ul" [] [] [Elem "li" [] [] [Text "Food provided"]]] ].

(** The title has no [" - "]: reading the location raises [IndexError]. *)
Definition page_untitled : Soup :=
  [ Elem "title" [] [] [Text "Data Scientist"];
    Elem "meta" [] [("property", "og:image"); ("content", "https://img.example/logo.png")] [] ].

Definition invalid_url : Exn := PyExc "InvalidArgumentException" "invalid argument".

(** A browser that serves [listing] for the search URL and [detail] for
    every job URL, and rejects the empty URL. *)
Definition browser_serving (listing detail : Soup) : Env :=
  {| http := fun _ _ => Raised (PyExc "ConnectionError" "unreachable");
     chrome := None;
     browse := fun _ url =>
       if String.prefix (BASE_URL +:+ "?") url then Ok listing
       else if String.eqb url "" then Raised invalid_url
       else Ok detail;
     gesture := fun _ _ => None;
     entropy := fun n => n |}.

(** A browser in which every navigation times out. *)
Definition browser_blocked : Env :=
  {| http := fun _ _ => Raised (PyExc "ConnectionError" "unreachable");
     chrome := None;
     browse := fun _ _ => Raised (PyExc "TimeoutException" "timeout");
     gesture := fun _ _ => None;
     entropy := fun n => n |}.

(** A LinkedIn detail page whose company link has no [href]. *)
Definition page_without_href : Soup :=
  [ Elem "h2" ["top-card-layout__title"] [] [Text " Data Scientist "];
    Elem "a" ["topcard__org-name-link"] [] [Text "Acme"] ].

Definition net_without_href : Env :=
  {| http := fun _ _ => Ok {| status_code := 200; body := page_without_href |};
     chrome := None; browse := Scenario.no_browser; gesture := fun _ _ => None;
     entropy := fun n => n |}.

Example page_full_details :
  let d := expected_details card_abc (Ok page_full) in
  map (fun k => d !! k) keys =
  [ Some (VStr "abc"); Some (VStr "Data Scientist"); Some VNone; Some (VStr "Pune");
    Some (VStr "₹50,000 a month"); Some (VStr "");
    Some (VStr "https://in.indeed.com/viewjob?jk=abc"); Some (VStr "");
    Some (VStr "Full-time"); Some (VStr "Not mentioned"); Some (VStr "Food provided");
    Some (VBool false); Some (VBool false); Some (VStr "Not Provided"); Some (VStr "");
    Some (VStr "On-site"); Some (VStr "https://img.example/logo.png");
    Some (VStr "Not found") ].
Proof. vm_compute. reflexivity. Qed.

End IndeedScenario.

(* --------------------------------------------------------------------- *)
(** ** Indeed: totality and defaults of the detail extractor *)
(* --------------------------------------------------------------------- *)

Section DetailsTotal.
Import Indeed.

(** C10, as the code has it. For every job card [get_job_details] returns
    normally a dictionary with exactly the fixed key set. A key keeps its
    template default whenever its assignment did not run: the five keys that
    are never assigned, the card's three keys when the card has no title
    link, every page key when the page fetch raised, and the page keys from
    the first raising extraction on. An extraction that ran is bound to its
    own value, and when its locator found nothing that value is the field's
    sentinel ([None], ["Not Provided"], ["Not mentioned"], ["Not found"],
    [False]), not the template default. *)
Theorem get_job_details_total job_card env s :
  let page := browse env (List.length (visited s)) (card_url job_card) in
  exists d,
    (get_job_details job_card env s).1 = Ok d /\
    dom d = list_to_set keys /\
    (forall k, k ∈ never_assigned -> d !! k = template !! k) /\
    (title_link job_card = None ->
       forall k, k ∈ ["job_id"; "job_url"; "title"] -> d !! k = template !! k) /\
    (forall e, page = Raised e ->
       forall k, k ∈ map fst page_fields -> d !! k = template !! k) /\
    (forall soup, page = Ok soup ->
       forall i k f, page_fields !! i = Some (k, f) ->
         if decide (i < ran page_fields soup)%nat
         then exists v, f soup = Ok v /\ d !! k = Some v
         else d !! k = template !! k) /\
    (forall soup, page = Ok soup ->
       forall i k present sentinel,
         page_locators !! i = Some (k, present, sentinel) ->
         (i < ran page_fields soup)%nat -> present soup = false ->
         d !! k = Some sentinel).
Proof.
  intros page. destruct (get_job_details_run job_card env s) as (Hres & _).
  fold page in Hres. exists (expected_details job_card page).
  split; [done|]. split; [apply expected_details_dom|].
  assert (Hpage : forall k, k ∈ map fst page_fields ->
            card_fields job_card template !! k = template !! k).
  { intros k (_ & H1 & H2 & H3)%page_fields_keys. by apply card_fields_other. }
  assert (Hran : forall soup, page = Ok soup ->
            forall i k f, page_fields !! i = Some (k, f) ->
              if decide (i < ran page_fields soup)%nat
              then exists v, f soup = Ok v /\ expected_details job_card page !! k = Some v
              else expected_details job_card page !! k = template !! k).
  { intros soup -> i k f Hi. cbn [expected_details].
    pose proof (assign_lookup page_fields soup page_fields_NoDup
                  (card_fields job_card template) i k f Hi) as H.
    destruct (decide (i < ran page_fields soup)%nat); [done|].
    rewrite H. apply Hpage. apply list_elem_of_fmap. exists (k, f).
    split; [done|]. by eapply list_elem_of_lookup_2. }
  repeat split.
  - intros k Hk. rewrite expected_details_identity by auto.
    apply card_fields_other; unfold never_assigned in Hk; set_solver.
  - intros Hnone k Hk. rewrite expected_details_identity by set_solver.
    unfold card_fields. by rewrite Hnone.
  - intros e -> k Hk. cbn [expected_details]. by apply Hpage.
  - exact Hran.
  - intros soup Hsoup i k present sentinel Hloc Hi Hmiss.
    destruct (missing_locator_sentinel soup i k present sentinel Hloc Hmiss)
      as (f & Hf & Hval).
    specialize (Hran soup Hsoup i k f Hf). rewrite decide_True in Hran by done.
    destruct Hran as (v & Hv & ->). congruence.
Qed.

End DetailsTotal.

Module DefaultCases.
Import Indeed IndeedScenario.

(** On a page where nothing is found the company is [None] and the snippet
    ["Not Provided"], while the template has [""] for both. *)
Lemma unmatched_field_not_default :
  let r := get_job_details card_abc (browser_serving [] []) initial in
  found (has_attr "meta" "property" "og:description") [] = false /\
  template !! "company" = Some (VStr "") /\
  template !! "job_snippet" = Some (VStr "") /\
  exists d, r.1 = Ok d /\
    d !! "company" = Some VNone /\
    d !! "job_snippet" = Some (VStr "Not Provided").
Proof.
  cbn zeta. split; [reflexivity|]. split; [reflexivity|]. split; [reflexivity|].
  eexists. split; [apply get_job_details_run|]. vm_compute. split; reflexivity.
Qed.

End DefaultCases.


(* --------------------------------------------------------------------- *)
(** ** Fault isolation of field extraction *)
(* --------------------------------------------------------------------- *)

Section Isolation.
Import Indeed LinkedIn.

(** The fixed fields of a LinkedIn record, key by key, as the dictionary
    display of [scrape_job_page] and the [description] assignment after it
    bind them; [company_url] is the value of its extraction. *)
Definition fixed_field (job_id : string) (soup : Soup) (company_url : PyVal)
    (k : string) : option PyVal :=
  if String.eqb k "job_id" then Some (VStr job_id)
  else if String.eqb k "title" then
    Some (text_or_none (has_class "h2" "top-card-layout__title") soup)
  else if String.eqb k "company" then
    Some (text_or_none (has_class "a" "topcard__org-name-link") soup)
  else if String.eqb k "location" then
    Some (text_or_none (has_class "span" "topcard__flavor--bullet") soup)
  else if String.eqb k "posted" then
    Some (text_or_none (has_class "span" "posted-time-ago__text") soup)
  else if String.eqb k "applicants" then
    Some (text_or_none (has_class "span" "num-applicants__caption") soup)
  else if String.eqb k "url" then
    Some (VStr ("https://www.linkedin.com/jobs/view/" +:+ job_id))
  else if String.eqb k "company_url" then Some company_url
  else if String.eqb k "description" then description_of soup
  else None.

(** A LinkedIn record, key by key: the criteria first, then the fixed fields. *)
Lemma job_record_lookup job_id soup d company_url criteria :
  job_record job_id soup = Ok d ->
  company_url_of soup = Ok company_url ->
  get_job_criteria soup = Ok criteria ->
  forall k,
    d !! k = match criteria !! k with
             | Some v => Some v
             | None => fixed_field job_id soup company_url k
             end.
Proof.
  unfold job_record, job_fields. intros Hrec Hcu Hc. rewrite Hcu in Hrec. cbn in Hrec.
  rewrite Hc in Hrec. cbn in Hrec. injection Hrec as <-. intros k.
  destruct (criteria !! k) as [v|] eqn:Hk; [by apply lookup_union_Some_l|].
  rewrite lookup_union_r by done. unfold fixed_field.
  destruct (description_of soup);
    repeat match goal with
           | |- context [String.eqb k ?x] =>
               destruct (String.eqb_spec k x) as [->|?]; [by simplify_map_eq|]
           end;
    by rewrite ?lookup_insert_ne by done.
Qed.

Lemma fixed_field_missing job_id soup company_url k p :
  (k, p) ∈ linkedin_locators -> find p soup = None ->
  fixed_field job_id soup company_url k = Some VNone.
Proof.
  unfold linkedin_locators. rewrite !elem_of_cons. intros Hin Hfind.
  repeat destruct Hin as [[= -> ->]|Hin]; try (by apply elem_of_nil in Hin);
    unfold fixed_field, text_or_none; cbn; by rewrite Hfind.
Qed.

(** C1, as the code has it, board by board.

    Indeed. For every card and every detail document that loads,
    [get_job_details] returns a record. The three card fields hold what the
    card gives and the five fields never assigned hold the template default.
    The page fields are assigned in order until the first extraction that
    raises: each field before it holds the value of its own extraction, and
    when its locator found nothing that value is the field's sentinel; the
    raising field and all those after it keep the template default.

    LinkedIn. For every detail document served with status 200, either the
    one extraction that can raise, the [href] of the company link, raises and
    the whole record is discarded ([scrape_job_page] returns [None]); or
    nothing raises and the record returned holds, for every key, the
    job-criteria entry of that name if there is one and the value of the
    field's own extraction otherwise: [None] when the field's locator found
    nothing, no [description] key when the description block is missing. *)
Theorem extraction_isolated_per_record :
  (forall job_card env s soup,
     browse env (List.length (visited s)) (card_url job_card) = Ok soup ->
     exists d,
       (get_job_details job_card env s).1 = Ok d /\
       (forall k, k ∈ ["job_id"; "job_url"; "title"] ->
          d !! k = card_fields job_card template !! k) /\
       (forall k, k ∈ never_assigned -> d !! k = template !! k) /\
       (forall i k f, page_fields !! i = Some (k, f) ->
          if decide (i < ran page_fields soup)%nat
          then exists v, f soup = Ok v /\ d !! k = Some v
          else d !! k = template !! k) /\
       (forall i k present sentinel,
          page_locators !! i = Some (k, present, sentinel) ->
          (i < ran page_fields soup)%nat -> present soup = false ->
          d !! k = Some sentinel)) /\
  (forall job_id env s response,
     http env (List.length (sent s)) (job_page_request job_id) = Ok response ->
     status_code response = 200 ->
     match company_url_of (body response) with
     | Ok company_url =>
         exists d criteria,
           (scrape_job_page job_id env s).1 = Ok (Some d) /\
           get_job_criteria (body response) = Ok criteria /\
           (forall k,
              d !! k = match criteria !! k with
                       | Some v => Some v
                       | None => fixed_field job_id (body response) company_url k
                       end) /\
           (forall k p, (k, p) ∈ linkedin_locators -> find p (body response) = None ->
              fixed_field job_id (body response) company_url k = Some VNone) /\
           (find (has_class "a" "topcard__org-name-link") (body response) = None ->
              company_url = VNone) /\
           (find (has_class "div" "show-more-less-html__markup") (body response) = None ->
              fixed_field job_id (body response) company_url "description" = None)
     | Raised _ => (scrape_job_page job_id env s).1 = Ok None
     end).
Proof.
  split.
  - intros job_card env s soup Hpage.
    destruct (get_job_details_run job_card env s) as (Hres & _). cbn zeta in Hres.
    rewrite Hpage in Hres. exists (expected_details job_card (Ok soup)).
    split; [done|].
    assert (Hkeep : forall k, k ∈ map fst page_fields ->
              card_fields job_card template !! k = template !! k).
    { intros k (_ & H1 & H2 & H3)%page_fields_keys. by apply card_fields_other. }
    assert (Hran : forall i k f, page_fields !! i = Some (k, f) ->
              if decide (i < ran page_fields soup)%nat
              then exists v, f soup = Ok v /\
                             expected_details job_card (Ok soup) !! k = Some v
              else expected_details job_card (Ok soup) !! k = template !! k).
    { intros i k f Hi. cbn [expected_details].
      pose proof (assign_lookup page_fields soup page_fields_NoDup
                    (card_fields job_card template) i k f Hi) as H.
      destruct (decide (i < ran page_fields soup)%nat); [done|].
      rewrite H. apply Hkeep. apply list_elem_of_fmap. exists (k, f).
      split; [done|]. by eapply list_elem_of_lookup_2. }
    split; [|split; [|split; [exact Hran|]]].
    + intros k Hk. apply expected_details_identity. rewrite !elem_of_cons in Hk.
      destruct Hk as [->|[->|[->|Hk]]]; auto. by apply elem_of_nil in Hk.
    + intros k Hk. rewrite expected_details_identity by auto.
      unfold never_assigned in Hk. rewrite !elem_of_cons in Hk.
      repeat destruct Hk as [->|Hk]; try (by apply elem_of_nil in Hk);
        by apply card_fields_other.
    + intros i k present sentinel Hloc Hi Hmiss.
      destruct (missing_locator_sentinel soup i k present sentinel Hloc Hmiss)
        as (f & Hf & Hval).
      specialize (Hran i k f Hf). rewrite decide_True in Hran by done.
      destruct Hran as (v & Hv & ->). congruence.
  - intros job_id env s response Hhttp Hst.
    destruct (scrape_job_page_run job_id env s) as (-> & _).
    rewrite Hhttp. unfold fetched. rewrite bool_decide_false by (intros H; by apply H).
    destruct (company_url_of (body response)) as [cu|e] eqn:Hcu.
    + destruct (job_record_total job_id _ _ Hcu) as [d Hd].
      destruct (get_job_criteria_total (body response)) as [c Hc].
      rewrite Hd. exists d, c. split; [done|]. split; [done|].
      split; [by apply job_record_lookup|].
      split; [intros k p; apply fixed_field_missing|]. split.
      * intros Hfind. unfold company_url_of in Hcu. rewrite Hfind in Hcu. congruence.
      * intros Hfind. unfold fixed_field, description_of. cbn. by rewrite Hfind.
    + unfold job_record, job_fields. by rewrite Hcu.
Qed.

End Isolation.

Module IsolationCases.
Import Indeed LinkedIn IndeedScenario.

(** A world for both boards: the browser serves [page_full] for every job
    URL, the network the LinkedIn page of the LinkedIn fixtures. *)
Definition both_boards : Env :=
  {| http := fun _ _ => Ok Scenario.served;
     chrome := None;
     browse := browse (browser_serving [] page_full);
     gesture := fun _ _ => None;
     entropy := fun n => n |}.

Lemma extraction_isolated_per_record_witness :
  (exists d, (get_job_details card_abc both_boards initial).1 = Ok d /\
             d !! "company" = Some VNone /\
             d !! "location" = Some (VStr "Pune")) /\
  (exists d, (scrape_job_page "1001" both_boards initial).1 = Ok (Some d) /\
             d !! "location" = Some VNone /\
             d !! "description" = None /\
             d !! "seniority_level" = Some (VStr "Entry level")).
Proof.
  destruct extraction_isolated_per_record as [Hindeed Hlinkedin].
  split.
  - destruct (Hindeed card_abc both_boards initial page_full eq_refl)
      as (d & Hd & _ & _ & Hran & Hmiss).
    exists d. split; [exact Hd|]. split.
    + eapply (Hmiss 0%nat); [reflexivity|vm_compute; lia|reflexivity].
    + pose proof (Hran 1%nat "location" location_of eq_refl) as Hloc.
      rewrite decide_True in Hloc by (vm_compute; lia).
      destruct Hloc as (v & Hv & ->). f_equal.
      assert (Hp : location_of page_full = Ok (VStr "Pune")) by reflexivity.
      congruence.
  - pose proof (Hlinkedin "1001" both_boards initial Scenario.served eq_refl eq_refl)
      as H.
    assert (Hcu : company_url_of (body Scenario.served)
                  = Ok (VStr "https://www.linkedin.com/company/acme")) by reflexivity.
    rewrite Hcu in H. destruct H as (d & c & Hd & Hc & Hkeys & Hmiss & _ & Hdesc).
    assert (Hcrit : c !! "location" = None /\ c !! "description" = None /\
                    c !! "seniority_level" = Some (VStr "Entry level")).
    { assert (Hv : match get_job_criteria (body Scenario.served) with
                   | Ok c => c !! "location" = None /\ c !! "description" = None /\
                             c !! "seniority_level" = Some (VStr "Entry level")
                   | Raised _ => False
                   end) by (vm_compute; repeat split).
      by rewrite Hc in Hv. }
    destruct Hcrit as (Hc1 & Hc2 & Hc3).
    exists d. split; [exact Hd|].
    rewrite !Hkeys, Hc1, Hc2, Hc3. split; [|split; [|done]].
    + apply (Hmiss "location" (has_class "span" "topcard__flavor--bullet")).
      * unfold linkedin_locators. do 2 (apply elem_of_cons; right).
        apply list_elem_of_here.
      * reflexivity.
    + apply Hdesc. reflexivity.
Defined.

(** The claim fails on both boards. On Indeed a title without [" - "] makes
    the location raise, and the image link, whose locator is present, is
    never read. On LinkedIn a company link without [href] raises and the
    whole record is lost although its title is there. *)
Lemma extraction_failure_not_isolated :
  let r := get_job_details card_abc (browser_serving [] page_untitled) initial in
  (exists e, location_of page_untitled = Raised e) /\
  image_link_of page_untitled = Ok (VStr "https://img.example/logo.png") /\
  (exists d, r.1 = Ok d /\ d !! "image_link" = Some (VStr "")) /\
  (exists e, company_url_of page_without_href = Raised e) /\
  text_or_none (has_class "h2" "top-card-layout__title") page_without_href
    = VStr "Data Scientist" /\
  (scrape_job_page "1001" net_without_href initial).1 = Ok None.
Proof.
  cbn zeta. split; [eexists; vm_compute; reflexivity|]. split; [vm_compute; reflexivity|].
  split; [eexists; split; [apply get_job_details_run|vm_compute; reflexivity]|].
  split; [eexists; vm_compute; reflexivity|]. split; vm_compute; reflexivity.
Qed.

End IsolationCases.


(* --------------------------------------------------------------------- *)
(** ** Indeed: the whole run *)
(* --------------------------------------------------------------------- *)

Section IndeedRun.
Import Indeed.

(** What the interaction simulation leaves untouched. *)
Definition same_pages (s s' : State) : Prop :=
  visited s' = visited s /\ page_source s' = page_source s /\
  job_listings s' = job_listings s /\ sent s' = sent s.

Global Instance same_pages_refl : Reflexive same_pages.
Proof. by intros s. Qed.

Global Instance same_pages_trans : Transitive same_pages.
Proof.
  intros s1 s2 s3 (H1 & H2 & H3 & H4) (H1' & H2' & H3' & H4').
  repeat split; congruence.
Qed.

Lemma for_each_keeps {A} (R : State -> State -> Prop)
    `{!Reflexive R, !Transitive R} (xs : list A) (body : A -> M unit) env :
  (forall x s, R s (body x env s).2) ->
  forall s, R s (for_each xs body env s).2.
Proof.
  intros Hbody. induction xs as [|x xs IH]; intros s; [reflexivity|].
  rewrite run_for_each_cons. specialize (Hbody x s).
  destruct (body x env s) as [[[]|e] s1]; [|done].
  etrans; [exact Hbody|apply IH].
Qed.

Lemma mouse_move_same_pages env s : same_pages s (mouse_move env s).2.
Proof.
  destruct s. unfold mouse_move. run. by destruct (gesture env _ _).
Qed.

Lemma scroll_same_pages env s : same_pages s (scroll env s).2.
Proof.
  destruct s. unfold scroll. run.
  by destruct (Nat.even _); destruct (gesture env _ _).
Qed.

Lemma human_like_interaction_same_pages env s :
  same_pages s (human_like_interaction env s).2.
Proof.
  destruct s as [snt vis pg ges drw lg q det jl].
  unfold human_like_interaction. run.
  destruct (gesture env _ _); [done|].
  match goal with
  | |- context [for_each ?xs ?body env ?s1] =>
      pose proof (for_each_keeps same_pages xs body env
                    (fun _ s => mouse_move_same_pages env s) s1) as H1;
      destruct (for_each xs body env s1) as [[[]|e] s2]
  end; [|exact H1].
  destruct s2 as [snt2 vis2 pg2 ges2 drw2 lg2 q2 det2 jl2]. run.
  match goal with
  | |- context [for_each ?xs ?body env ?s1] =>
      pose proof (for_each_keeps same_pages xs body env
                    (fun _ s => scroll_same_pages env s) s1) as H2
  end.
  etrans; [exact H1|]. etrans; [|exact H2]. done.
Qed.

(** A record as [get_job_details] builds it for some card. *)
Definition is_details (d : Dict) : Prop :=
  exists job_card page, d = expected_details job_card page.

Lemma collect_card_run card env s :
  let r := collect_card card env s in
  r.1 = Ok tt /\
  visited r.2 = visited s ++ [card_url card] /\
  (exists d, is_details d /\ job_listings r.2 = job_listings s ++ [d]) /\
  sent r.2 = sent s.
Proof.
  unfold collect_card. cbn zeta. rewrite run_bind.
  destruct (get_job_details_run card env s) as (Hres & Hvis & Hjl & _ & Hsent).
  destruct (get_job_details card env s) as [o s1]. cbn in Hres, Hvis, Hjl, Hsent.
  subst o. destruct s1. run. cbn in Hvis, Hjl, Hsent |- *. subst.
  repeat split. eexists. split; [by eexists _, _|done].
Qed.

Lemma cards_loop_run env cards :
  forall s,
    let r := for_each cards collect_card env s in
    r.1 = Ok tt /\
    visited r.2 = visited s ++ map card_url cards /\
    (exists new, Forall is_details new /\ job_listings r.2 = job_listings s ++ new) /\
    sent r.2 = sent s.
Proof.
  induction cards as [|card cards IH]; intros s; cbn zeta.
  - cbn. repeat split; [by rewrite app_nil_r|]. exists []. by rewrite app_nil_r.
  - rewrite run_for_each_cons.
    destruct (collect_card_run card env s) as (Hres & Hvis & (d & Hd & Hjl) & Hsent).
    destruct (collect_card card env s) as [o s1]. cbn in Hres, Hvis, Hjl, Hsent. subst o.
    destruct (IH s1) as (Hres' & Hvis' & (new & Hnew & Hjl') & Hsent').
    split; [done|]. split; [by rewrite Hvis', Hvis, <-app_assoc|].
    split; [|congruence].
    exists (d :: new). split; [by constructor|].
    by rewrite Hjl', Hjl, <-app_assoc.
Qed.

End IndeedRun.

Section IndeedPages.
Import Indeed.

(** A listing URL of Indeed, as opposed to the URL of a job. *)
Definition is_listing_url (url : string) : bool := String.prefix (BASE_URL +:+ "?") url.

Lemma page_url_is_listing filters page : is_listing_url (page_url filters page) = true.
Proof.
  unfold is_listing_url, page_url, BASE_URL. cbn.
  by destruct (urlencode (page_params filters page)).
Qed.

Lemma card_url_not_listing card : is_listing_url (card_url card) = false.
Proof. unfold card_url. by destruct (title_link card). Qed.

Lemma scrape_page_run filters page env s :
  let r := scrape_page filters page env s in
  let answer := browse env (List.length (visited s)) (page_url filters page) in
  exists cards new,
    visited r.2 = visited s ++ page_url filters page :: map card_url cards /\
    job_listings r.2 = job_listings s ++ new /\
    Forall is_details new /\
    sent r.2 = sent s /\
    (forall e, answer = Raised e -> r.1 = Raised e /\ cards = [] /\ new = []).
Proof.
  destruct s as [snt vis pg ges drw lg q det jl].
  unfold scrape_page. run. cbn [visited job_listings sent].
  destruct (browse env _ _) as [soup|e].
  - match goal with
    | |- context [human_like_interaction env ?s1] =>
        pose proof (human_like_interaction_same_pages env s1) as (Hv & Hp & Hj & Hs);
        destruct (human_like_interaction env s1) as [[[]|e] s2]
    end; cbn in Hv, Hp, Hj, Hs.
    + destruct s2 as [snt2 vis2 pg2 ges2 drw2 lg2 q2 det2 jl2].
      cbn in Hv, Hp, Hj, Hs. subst. run.
      match goal with
      | |- context [for_each ?cards collect_card env ?s1] =>
          destruct (cards_loop_run env cards s1) as (Hres & Hvis & (new & Hnew & Hjl) & Hsent);
          destruct (for_each cards collect_card env s1) as [o s3];
          exists cards, new
      end.
      cbn in Hres, Hvis, Hjl, Hsent. subst o. destruct s3. run.
      cbn in Hvis, Hjl, Hsent |- *. subst.
      split; [by rewrite <-app_assoc|]. by repeat split.
    + exists [], []. destruct s2. cbn in Hv, Hp, Hj, Hs |- *. subst.
      rewrite app_nil_r. by repeat split.
  - exists [], []. cbn. rewrite app_nil_r.
    split; [done|]. split; [done|]. split; [done|]. split; [done|].
    by intros e' [= <-].
Qed.

(** Once the browser has started, [scrape_indeed] never raises: a failure in
    the page loop is caught and the listings collected so far are returned. *)
Lemma scrape_indeed_run filters env s :
  chrome env = None ->
  let r := scrape_indeed filters env s in
  exists cards records,
    r.1 = Ok records /\
    visited r.2 = visited s ++ page_url filters 0 :: map card_url cards /\
    Forall is_details records /\
    sent r.2 = sent s /\
    (forall e, browse env (List.length (visited s)) (page_url filters 0) = Raised e ->
               records = [] /\ cards = []).
Proof.
  intros Hchrome. destruct s as [snt vis pg ges drw lg q det jl].
  unfold scrape_indeed, scrape_pages, get_driver, start_chrome, execute_script, PAGES_TO_SCRAPE.
  change (range 1) with [0%nat]. run. rewrite Hchrome. cbn [for_each]. run.
  match goal with
  | |- context [scrape_page filters 0 env ?s1] =>
      destruct (scrape_page_run filters 0 env s1)
        as (cards & new & Hvis & Hjl & Hnew & Hsent & Hfail);
      destruct (scrape_page filters 0 env s1) as [[[]|e] s2]
  end; destruct s2; cbn in Hvis, Hjl, Hsent, Hfail |- *; subst;
    exists cards, new; (split; [done|]); (split; [done|]); (split; [done|]);
    (split; [done|]); intros e' He'; by destruct (Hfail e' He') as (_ & -> & ->).
Qed.

(** When [get_driver] raises, at either of its two calls, the run fails
    before the [try] block is entered: nothing is visited and [driver.quit()]
    is not called. *)
Lemma scrape_indeed_no_browser filters env s failure :
  chrome env = Some failure ->
  let r := scrape_indeed filters env s in
  r.1 = Raised (start_error failure) /\
  visited r.2 = visited s /\ driver_quit r.2 = driver_quit s.
Proof.
  intros Hchrome. destruct s.
  unfold scrape_indeed, scrape_pages, get_driver, start_chrome, execute_script. run.
  rewrite Hchrome. by destruct failure.
Qed.

Lemma scrape_indeed_jobs_run params env s :
  chrome env = None ->
  let r := scrape_indeed_jobs params env s in
  exists cards records,
    r.1 = Ok {| success := true;
                message := Some ("Found " +:+ pretty (List.length records) +:+ " Indeed jobs");
                count := List.length records;
                data := map (with_platform "Indeed") records |} /\
    visited r.2 = visited s ++ page_url (filters_of params) 0 :: map card_url cards /\
    Forall is_details records /\
    (forall e, browse env (List.length (visited s)) (page_url (filters_of params) 0) = Raised e ->
               records = [] /\ cards = []).
Proof.
  intros Hchrome. cbn zeta.
  destruct (scrape_indeed_run (filters_of params) env s Hchrome)
    as (cards & records & Hres & Hvis & Hrec & _ & Hfail).
  exists cards, records. unfold scrape_indeed_jobs, try_except. rewrite run_bind.
  destruct (scrape_indeed (filters_of params) env s) as [o s1].
  cbn in Hres, Hvis. subst o. by cbn.
Qed.

(** The records of the cards of a page, the first card fetched as navigation
    number [n]. *)
Fixpoint card_records (env : Env) (n : nat) (cards : list Node) : list Dict :=
  match cards with
  | [] => []
  | card :: rest =>
      expected_details card (browse env n (card_url card)) :: card_records env (S n) rest
  end.

Lemma card_records_length env cards :
  forall n, List.length (card_records env n cards) = List.length cards.
Proof. induction cards as [|card cards IH]; intros n; cbn; [done|]. by rewrite IH. Qed.

Lemma collect_card_exact card env s :
  let r := collect_card card env s in
  r.1 = Ok tt /\
  visited r.2 = visited s ++ [card_url card] /\
  job_listings r.2 = job_listings s ++
    [expected_details card (browse env (List.length (visited s)) (card_url card))] /\
  log r.2 = log s.
Proof.
  unfold collect_card. cbn zeta. rewrite run_bind.
  destruct (get_job_details_run card env s) as (Hres & Hvis & Hjl & Hlog & _).
  destruct (get_job_details card env s) as [o s1]. cbn in Hres, Hvis, Hjl, Hlog.
  subst o. destruct s1. run. cbn in Hvis, Hjl, Hlog |- *. by subst.
Qed.

Lemma cards_loop_exact env cards :
  forall s,
    let r := for_each cards collect_card env s in
    r.1 = Ok tt /\
    job_listings r.2 = job_listings s ++ card_records env (List.length (visited s)) cards /\
    log r.2 = log s.
Proof.
  induction cards as [|card cards IH]; intros s; cbn zeta.
  - cbn. by rewrite app_nil_r.
  - rewrite run_for_each_cons.
    destruct (collect_card_exact card env s) as (Hres & Hvis & Hjl & Hlog).
    destruct (collect_card card env s) as [o s1]. cbn in Hres, Hvis, Hjl, Hlog. subst o.
    destruct (IH s1) as (Hres' & Hjl' & Hlog').
    split; [done|]. split; [|congruence].
    rewrite Hjl', Hjl, Hvis, length_app, <-app_assoc. cbn.
    by rewrite Nat.add_1_r.
Qed.

(** The job cards of a listing page. *)
Definition cards_of (soup : Soup) : list Node :=
  find_all (has_class "div" "job_seen_beacon") soup.

Lemma scrape_page_exact filters page env s soup :
  browse env (List.length (visited s)) (page_url filters page) = Ok soup ->
  let r := scrape_page filters page env s in
  match gesture env (List.length (gestures s)) (MoveByOffset 10 10) with
  | None =>
      r.1 = Ok tt /\
      job_listings r.2 = job_listings s ++
        card_records env (S (List.length (visited s))) (cards_of soup)
  | Some e => r.1 = Raised e /\ job_listings r.2 = job_listings s
  end.
Proof.
  intros Hbrowse. destruct s as [snt vis pg ges drw lg q det jl].
  unfold scrape_page. run. cbn [visited gestures job_listings] in Hbrowse |- *.
  rewrite Hbrowse.
  match goal with
  | |- context [human_like_interaction env ?s1] =>
      pose proof (human_like_interaction_same_pages env s1) as (Hv & Hp & Hj & _);
      pose proof (first_move_escapes env s1) as Hesc;
      pose proof (interaction_loops_swallow env s1) as Hok;
      destruct (human_like_interaction env s1) as [o s2]
  end.
  cbn in Hv, Hp, Hj, Hesc, Hok.
  destruct (gesture env (List.length ges) (MoveByOffset 10 10)) as [e|].
  - rewrite (Hesc e eq_refl). destruct s2. cbn in Hj |- *. by subst.
  - destruct (Hok eq_refl) as [-> _].
    destruct s2 as [snt2 vis2 pg2 ges2 drw2 lg2 q2 det2 jl2].
    cbn in Hv, Hp, Hj. subst. run.
    match goal with
    | |- context [for_each ?cards collect_card env ?s1] =>
        destruct (cards_loop_exact env cards s1) as (Hres & Hjl & _);
        destruct (for_each cards collect_card env s1) as [o s3]
    end.
    cbn in Hres, Hjl. subst o. destruct s3. run. cbn in Hjl |- *. subst.
    split; [done|]. rewrite length_app. cbn. by rewrite Nat.add_1_r.
Qed.

Lemma indeed_run_exact ip env s soup :
  chrome env = None ->
  browse env (List.length (visited s)) (page_url (filters_of ip) 0) = Ok soup ->
  gesture env (List.length (gestures s)) (MoveByOffset 10 10) = None ->
  (scrape_indeed_jobs ip env s).1 =
    Ok {| success := true;
          message := Some ("Found " +:+ pretty (List.length
                      (card_records env (S (List.length (visited s))) (cards_of soup)))
                      +:+ " Indeed jobs");
          count := List.length
                     (card_records env (S (List.length (visited s))) (cards_of soup));
          data := map (with_platform "Indeed")
                    (card_records env (S (List.length (visited s))) (cards_of soup)) |}.
Proof.
  intros Hchrome Hbrowse Hgesture.
  destruct s as [snt vis pg ges drw lg q det jl].
  unfold scrape_indeed_jobs, scrape_indeed, scrape_pages, get_driver, start_chrome,
    execute_script, PAGES_TO_SCRAPE.
  change (range 1) with [0%nat]. run. rewrite Hchrome. cbn [for_each]. run.
  match goal with
  | |- context [scrape_page (filters_of ip) 0 env ?s1] =>
      pose proof (scrape_page_exact (filters_of ip) 0 env s1 soup Hbrowse) as Hpage;
      destruct (scrape_page (filters_of ip) 0 env s1) as [o s2]
  end.
  cbn in Hpage, Hgesture. rewrite Hgesture in Hpage. destruct Hpage as [-> Hjl].
  destruct s2. cbn in Hjl |- *. by subst.
Qed.

(** What an Indeed run does once [get_driver] has returned: it answers with
    the records of the cards of the listing page, one per card; when the
    listing page cannot be fetched, or when the first pointer movement on it
    is rejected, the failure is printed and the response is empty. *)
Lemma scrape_indeed_jobs_cases ip env s :
  chrome env = None ->
  let r := scrape_indeed_jobs ip env s in
  exists records,
    r.1 = Ok {| success := true;
                message := Some ("Found " +:+ pretty (List.length records) +:+ " Indeed jobs");
                count := List.length records;
                data := map (with_platform "Indeed") records |} /\
    match browse env (List.length (visited s)) (page_url (filters_of ip) 0) with
    | Raised e =>
        records = [] /\ (PRINT, "Scraping interrupted: " +:+ str_exn e) ∈ log r.2
    | Ok soup =>
        match gesture env (List.length (gestures s)) (MoveByOffset 10 10) with
        | Some e =>
            records = [] /\ (PRINT, "Scraping interrupted: " +:+ str_exn e) ∈ log r.2
        | None =>
            records = card_records env (S (List.length (visited s))) (cards_of soup)
        end
    end.
Proof.
  intros Hchrome. destruct s as [snt vis pg ges drw lg q det jl].
  unfold scrape_indeed_jobs, scrape_indeed, scrape_pages, get_driver, start_chrome,
    execute_script, PAGES_TO_SCRAPE.
  change (range 1) with [0%nat]. run. rewrite Hchrome. cbn [for_each]. run.
  destruct (browse env (List.length vis) (page_url (filters_of ip) 0)) as [soup|e] eqn:Hbrowse.
  - match goal with
    | |- context [scrape_page (filters_of ip) 0 env ?s1] =>
        pose proof (scrape_page_exact (filters_of ip) 0 env s1 soup Hbrowse) as Hpage;
        destruct (scrape_page (filters_of ip) 0 env s1) as [o s2]
    end.
    cbn in Hpage.
    destruct (gesture env (List.length ges) (MoveByOffset 10 10)) as [e|];
      destruct Hpage as [-> Hjl]; destruct s2; cbn in Hjl |- *; subst.
    + exists []. split; [done|]. split; [done|].
      rewrite !elem_of_app, !list_elem_of_singleton. auto.
    + eexists. split; [reflexivity|done].
  - unfold scrape_page. run. cbn [visited]. rewrite Hbrowse.
    exists []. split; [done|]. split; [done|].
    rewrite !elem_of_app, !list_elem_of_singleton. auto.
Qed.

End IndeedPages.

(* --------------------------------------------------------------------- *)
(** ** LinkedIn: where the records of a run come from *)
(* --------------------------------------------------------------------- *)

Section Provenance.
Import LinkedIn.

(** [d] was built from the answer to one of the [requests]: the request
    number [n] asked for the detail page of [job_id], was answered with
    status 200, and [d] is the record of the document that came back. *)
Definition detail_fetch (env : Env) (requests : list Request) (job_id : string)
    (d : Dict) : Prop :=
  exists n response,
    requests !! n = Some (job_page_request job_id) /\
    http env n (job_page_request job_id) = Ok response /\
    status_code response = 200 /\
    job_record job_id (body response) = Ok d.

Lemma detail_fetch_mono env requests requests' job_id d :
  requests `prefix_of` requests' ->
  detail_fetch env requests job_id d -> detail_fetch env requests' job_id d.
Proof.
  intros Hpre (n & response & Hn & Hrest). exists n, response. split; [|done].
  by eapply prefix_lookup_Some.
Qed.

Lemma fetched_answer job_id answer d :
  fetched job_id answer = Some d ->
  exists response,
    answer = Ok response /\ status_code response = 200 /\
    job_record job_id (body response) = Ok d.
Proof.
  unfold fetched. destruct answer as [response|]; [|done].
  case_bool_decide as Hst; [done|].
  destruct (job_record _ _) eqn:Hrec; [|done]. intros [= <-].
  exists response. split; [done|]. split; [|done].
  destruct (decide (status_code response = 200)); [done|]. by destruct Hst.
Qed.

Lemma retry_loop_fetches env job_id retries :
  forall todo s,
  exists new s',
    (forall acc, retry_loop todo retries job_id acc env s = (Ok (acc ++ new), s')) /\
    sent s `prefix_of` sent s' /\
    Forall (detail_fetch env (sent s') job_id) new.
Proof.
  induction todo as [|attempt rest IH]; intros s.
  - exists [], (emit WARNING (snd (exhausted_warning job_id retries)) env s).2.
    split; [|split; [by destruct s|done]].
    intros acc. rewrite app_nil_r. by destruct s.
  - destruct (scrape_job_page_run job_id env s) as (Hres & Hsent & _).
    destruct (scrape_job_page job_id env s) as [o s1] eqn:Hpage.
    cbn in Hres, Hsent. subst o.
    destruct (fetched job_id _) as [d|] eqn:Hf.
    + destruct (fetched_record_of _ _ _ Hf) as [_ Hne].
      destruct (fetched_answer _ _ _ Hf) as (response & Hans & Hst & Hrec).
      exists [d], (emit INFO ("Successfully scraped job " +:+ job_id) env s1).2.
      split; [|split].
      * intros acc. cbn [retry_loop]. rewrite run_bind, Hpage.
        rewrite bool_decide_false by done. by destruct s1.
      * destruct s1. cbn in Hsent |- *. rewrite Hsent. by apply prefix_app_r.
      * apply Forall_singleton. exists (List.length (sent s)), response.
        split; [|done]. destruct s1. cbn in Hsent |- *. rewrite Hsent.
        by rewrite lookup_app_r, Nat.sub_diag by lia.
    + destruct (sleep_uniform_run env s1) as (s2 & Hsleep & Hs2 & _).
      destruct (IH s2) as (new & s' & Hrun & Hpre & Hall).
      exists new, s'. split; [|split; [|done]].
      * intros acc. cbn [retry_loop]. rewrite run_bind, Hpage, run_bind, Hsleep.
        apply Hrun.
      * etrans; [|exact Hpre]. rewrite Hs2, Hsent. by apply prefix_app_r.
Qed.

Lemma resolve_loop_fetches env :
  forall job_ids s,
  exists new s',
    (forall acc, resolve_loop max_retries job_ids acc env s = (Ok (acc ++ new), s')) /\
    sent s `prefix_of` sent s' /\
    Forall (fun d => exists job_id, job_id ∈ job_ids /\ detail_fetch env (sent s') job_id d)
           new.
Proof.
  induction job_ids as [|job_id job_ids IH]; intros s.
  - exists [], s. split; [|done]. intros acc. by rewrite app_nil_r.
  - destruct (retry_loop_fetches env job_id max_retries (seq 0 max_retries) s)
      as (new1 & s1 & Hrun1 & Hpre1 & Hall1).
    destruct (IH s1) as (new2 & s2 & Hrun2 & Hpre2 & Hall2).
    exists (new1 ++ new2), s2. split; [|split; [by etrans|]].
    + intros acc. cbn [resolve_loop]. rewrite run_bind, Hrun1, Hrun2.
      by rewrite app_assoc.
    + apply Forall_app. split.
      * eapply Forall_impl; [exact Hall1|]. intros d Hd. exists job_id.
        split; [apply list_elem_of_here|]. by eapply detail_fetch_mono.
      * eapply Forall_impl; [exact Hall2|]. intros d (id & Hin & Hd). exists id.
        split; [by apply elem_of_cons; right|done].
Qed.

(** A listing page that cannot be fetched ends the pagination at that page
    or before it: the requests that went out are those of the pages up to the
    one that aborted the loop. *)
Lemma listing_loop_aborts params env :
  forall todo job_ids s i page,
    todo !! i = Some page ->
    listing_fetch_fails (http env (List.length (sent s) + i) (listing_request params page)) ->
    let r := listing_loop params todo job_ids env s in
    exists j detail,
      (j <= i)%nat /\
      r.1 = Raised (HTTPException 500 detail) /\
      sent r.2 = sent s ++ map (listing_request params) (take (S j) todo).
Proof.
  induction todo as [|page0 todo IH]; intros job_ids s i page Hi Hbad; [done|].
  cbn zeta. cbn [listing_loop]. rewrite run_bind.
  destruct (listing_page_run params page0 job_ids env s) as (Hsent & _ & Hres & Hfail).
  destruct (listing_page params page0 job_ids env s) as [[ids'|e] s1];
    cbn in Hsent, Hres, Hfail.
  - destruct i as [|i]; cbn in Hi.
    + injection Hi as <-. rewrite Nat.add_0_r in Hbad.
      by destruct (Hfail Hbad) as [detail [=]].
    + destruct (IH ids' s1 i page Hi) as (j & detail & Hj & Hraised & Hsent').
      { rewrite Hsent, length_app. cbn.
        by replace (List.length (sent s) + 1 + i)%nat
          with (List.length (sent s) + S i)%nat by lia. }
      exists (S j), detail. split; [lia|]. split; [done|].
      by rewrite Hsent', Hsent, <-app_assoc.
  - destruct Hres as [detail ->]. exists 0%nat, detail. cbn.
    split; [lia|]. split; [done|]. by rewrite Hsent.
Qed.

(** The endpoint, when pagination raises: the error is logged and nothing
    more is requested. *)
Lemma scrape_linkedin_jobs_aborted_run params env s e s0 :
  listing_loop params (range (pages params)) [] env s = (Raised e, s0) ->
  let r := scrape_linkedin_jobs params env s in
  r.1 = Raised (HTTPException 500 ("LinkedIn scraping failed: " +:+ str_exn e)) /\
  sent r.2 = sent s0.
Proof.
  intros Hlist. unfold scrape_linkedin_jobs, scrape_jobs_linkedin, try_except.
  cbn zeta. rewrite !run_bind, Hlist. by destruct s0.
Qed.

(** Everything a LinkedIn run that returns has done, with the origin of each
    record. *)
Lemma linkedin_run_records lp env s lresp ls :
  scrape_linkedin_jobs lp env s = (Ok lresp, ls) ->
  exists job_ids s0 records,
    listing_loop lp (range (pages lp)) [] env s = (Ok job_ids, s0) /\
    Forall (fun id => id <> "") job_ids /\
    (resolve_loop max_retries job_ids [] env s0).1 = Ok records /\
    lresp = {| success := true;
               message := Some ("Found " +:+ pretty (List.length records) +:+ " LinkedIn jobs");
               count := List.length records;
               data := map (with_platform "LinkedIn") records |} /\
    Forall (fun d => exists job_id, job_id ∈ job_ids /\ detail_fetch env (sent ls) job_id d)
           records.
Proof.
  intros Hrun.
  destruct (listing_loop_run lp env (range (pages lp)) [] s) as (_ & Hshape & _).
  destruct (listing_loop lp (range (pages lp)) [] env s) as [[job_ids|e] s0] eqn:Hlist.
  - cbn in Hshape. destruct Hshape as [_ Hne].
    destruct (resolve_loop_fetches env job_ids s0) as (records & s' & Hres & _ & Hall).
    destruct (scrape_linkedin_jobs_resolved _ _ _ _ _ Hlist) as (records' & s'' & Hres' & Heq).
    pose proof (Hres []) as Hres0. specialize (Hres' []). rewrite Hres0 in Hres'.
    injection Hres' as <- <-. rewrite Heq in Hrun. injection Hrun as <- <-.
    exists job_ids, s0, records. split; [done|]. split; [by apply Hne|].
    split; [by rewrite Hres0|]. done.
  - apply scrape_linkedin_jobs_aborted in Hlist. rewrite Hrun in Hlist. discriminate.
Qed.

End Provenance.

(* --------------------------------------------------------------------- *)
(** ** Runs that return a response *)
(* --------------------------------------------------------------------- *)

Section Returned.
Import Indeed LinkedIn.

Lemma filter_all_true {A} (p : A -> bool) l :
  Forall (fun x => p x = true) l -> List.filter p l = l.
Proof. induction 1 as [|x l Hx _ IH]; cbn; [done|]. by rewrite Hx, IH. Qed.

Lemma filter_all_false {A} (p : A -> bool) l :
  Forall (fun x => p x = false) l -> List.filter p l = [].
Proof. induction 1 as [|x l Hx _ IH]; cbn; [done|]. by rewrite Hx. Qed.

(** Everything a LinkedIn run that returns has done. *)
Lemma linkedin_run_ok lp env s lresp ls :
  scrape_linkedin_jobs lp env s = (Ok lresp, ls) ->
  exists job_ids s0 records rs,
    listing_loop lp (range (pages lp)) [] env s = (Ok job_ids, s0) /\
    sent s0 = sent s ++ map (listing_request lp) (range (pages lp)) /\
    Forall (fun id => id <> "") job_ids /\
    lresp = {| success := true;
               message := Some ("Found " +:+ pretty (List.length records) +:+ " LinkedIn jobs");
               count := List.length records;
               data := map (with_platform "LinkedIn") records |} /\
    (List.length records <= List.length job_ids)%nat /\
    Forall (fun d => exists job_id, job_id ∈ job_ids /\ record_of job_id d) records /\
    sent ls = sent s0 ++ rs /\
    Forall (fun r => is_listing r = false) rs.
Proof.
  intros Hrun.
  destruct (listing_loop_run lp env (range (pages lp)) [] s) as (_ & Hshape & _).
  destruct (listing_loop lp (range (pages lp)) [] env s) as [[job_ids|e] s0] eqn:Hlist.
  - cbn in Hshape. destruct Hshape as [Hsent Hne].
    destruct (resolve_loop_total env max_retries job_ids s0)
      as (records & s' & Hres & Hlen & Hall & _ & rs & Hsent' & Hrs).
    destruct (scrape_linkedin_jobs_resolved _ _ _ _ _ Hlist) as (records' & s'' & Hres' & Heq).
    specialize (Hres []). specialize (Hres' []). rewrite Hres in Hres'.
    injection Hres' as <- <-. rewrite Heq in Hrun. injection Hrun as <- <-.
    exists job_ids, s0, records, rs. repeat split; try done. by apply Hne.
  - apply scrape_linkedin_jobs_aborted in Hlist. rewrite Hrun in Hlist. discriminate.
Qed.

Lemma scrape_indeed_jobs_no_browser params env s failure :
  chrome env = Some failure ->
  let r := scrape_indeed_jobs params env s in
  r.1 = Raised (HTTPException 500
                  ("Indeed scraping failed: " +:+ str_exn (start_error failure))) /\
  visited r.2 = visited s /\ driver_quit r.2 = driver_quit s.
Proof.
  intros Hchrome. unfold scrape_indeed_jobs, try_except. cbn zeta. rewrite run_bind.
  destruct (scrape_indeed_no_browser (filters_of params) env s failure Hchrome)
    as (Hres & Hvis & Hquit).
  destruct (scrape_indeed (filters_of params) env s) as [o s1].
  cbn in Hres, Hvis, Hquit. subst o. destruct s1. by cbn in *.
Qed.

(** Everything an Indeed run that returns has done. *)
Lemma indeed_run_ok ip env s iresp s' :
  scrape_indeed_jobs ip env s = (Ok iresp, s') ->
  exists cards records,
    iresp = {| success := true;
               message := Some ("Found " +:+ pretty (List.length records) +:+ " Indeed jobs");
               count := List.length records;
               data := map (with_platform "Indeed") records |} /\
    visited s' = visited s ++ page_url (filters_of ip) 0 :: map card_url cards /\
    Forall is_details records.
Proof.
  intros Hrun. destruct (chrome env) as [e|] eqn:Hchrome.
  - destruct (scrape_indeed_jobs_no_browser ip env s e Hchrome) as [Hfail _].
    rewrite Hrun in Hfail. discriminate.
  - destruct (scrape_indeed_jobs_run ip env s Hchrome)
      as (cards & records & Hres & Hvis & Hrec & _).
    rewrite Hrun in Hres, Hvis. cbn in Hres, Hvis. injection Hres as ->.
    by exists cards, records.
Qed.

Lemma with_platform_lookup name job k :
  with_platform name job !! k =
  match job !! k with
  | Some v => Some v
  | None => if decide (k = "platform") then Some (VStr name) else None
  end.
Proof.
  unfold with_platform. destruct (job !! k) as [v|] eqn:Hk.
  - by apply lookup_union_Some_l.
  - rewrite lookup_union_r by done. destruct (decide (k = "platform")) as [->|Hne].
    + apply lookup_singleton_eq.
    + by apply lookup_singleton_ne.
Qed.

End Returned.

(* --------------------------------------------------------------------- *)
(** ** The contract of a run, board by board *)
(* --------------------------------------------------------------------- *)

Section Contract.
Import Indeed LinkedIn.

(** C3, as the code has it, board by board.

    LinkedIn. A listing-page fetch that fails (the request raises or the
    status is not 200), whatever the page, is fatal: the endpoint raises an
    HTTP 500 error and returns no response.

    Indeed. Once [get_driver] has returned, the failure of the listing-page
    fetch is caught inside [scrape_indeed]: ["Scraping interrupted: ..."] is
    printed and the endpoint answers with a successful response holding the
    listings collected so far, none with the single page scraped. The
    endpoint fails only when [get_driver] raises, that is when Chrome does
    not start or when the script run right after the start raises. *)
Theorem listing_failure_by_board :
  (forall lp env s (p : nat),
     Z.of_nat p < pages lp ->
     listing_fetch_fails (http env (List.length (sent s) + p) (listing_request lp p)) ->
     exists detail,
       (scrape_linkedin_jobs lp env s).1 = Raised (HTTPException 500 detail)) /\
  (forall ip env s e,
     chrome env = None ->
     browse env (List.length (visited s)) (page_url (filters_of ip) 0) = Raised e ->
     let r := scrape_indeed_jobs ip env s in
     r.1 = Ok {| success := true; message := Some "Found 0 Indeed jobs";
                 count := 0; data := [] |} /\
     (PRINT, "Scraping interrupted: " +:+ str_exn e) ∈ log r.2) /\
  (forall ip env s,
     (exists e, (scrape_indeed_jobs ip env s).1 = Raised e) <-> chrome env <> None).
Proof.
  split; [|split].
  - intros lp env s p Hp Hfail.
    destruct (listing_loop_run lp env (range (pages lp)) [] s) as (_ & _ & Hfatal).
    destruct (Hfatal p p) as [detail Hraised]; [|done|].
    { unfold range. rewrite lookup_seq_lt by lia. done. }
    destruct (listing_loop lp (range (pages lp)) [] env s) as [o s0] eqn:Hlist.
    cbn in Hraised. subst o. eexists. by eapply scrape_linkedin_jobs_aborted.
  - intros ip env s e Hchrome Hbrowse.
    destruct (scrape_indeed_jobs_cases ip env s Hchrome) as (records & Hres & Hcase).
    rewrite Hbrowse in Hcase. destruct Hcase as [-> Hlog]. by split.
  - intros ip env s. split.
    + intros [e He] Hnone.
      destruct (scrape_indeed_jobs_run ip env s Hnone) as (cards & records & Hres & _).
      rewrite Hres in He. discriminate.
    + intros Hsome. destruct (chrome env) as [failure|] eqn:Hchrome; [|done].
      destruct (scrape_indeed_jobs_no_browser ip env s failure Hchrome) as [Hres _].
      by eexists.
Qed.

(** C5, as the code has it, board by board. A run that returns gives back a
    response with a success flag, a message, the ordered records and one
    count, the number of records returned. On LinkedIn the whole response is
    computed from the records resolved for the identifiers discovered, whose
    number is at most the number of identifiers; neither the number
    discovered nor the number dropped is part of it. *)
Theorem response_reports_one_count :
  (forall lp env s lresp ls,
     scrape_linkedin_jobs lp env s = (Ok lresp, ls) ->
     success lresp = true /\
     count lresp = List.length (data lresp) /\
     message lresp = Some ("Found " +:+ pretty (count lresp) +:+ " LinkedIn jobs") /\
     exists job_ids s0 records,
       listing_loop lp (range (pages lp)) [] env s = (Ok job_ids, s0) /\
       (resolve_loop max_retries job_ids [] env s0).1 = Ok records /\
       lresp = {| success := true;
                  message := Some ("Found " +:+ pretty (List.length records)
                                   +:+ " LinkedIn jobs");
                  count := List.length records;
                  data := map (with_platform "LinkedIn") records |} /\
       (List.length records <= List.length job_ids)%nat) /\
  (forall ip env s iresp is_,
     scrape_indeed_jobs ip env s = (Ok iresp, is_) ->
     success iresp = true /\
     count iresp = List.length (data iresp) /\
     message iresp = Some ("Found " +:+ pretty (count iresp) +:+ " Indeed jobs")).
Proof.
  split.
  - intros lp env s lresp ls Hl.
    destruct (linkedin_run_ok _ _ _ _ _ Hl)
      as (job_ids & s0 & records & rs & Hlist & _ & _ & Heq & Hlen & _).
    destruct (linkedin_run_records _ _ _ _ _ Hl)
      as (job_ids' & s0' & records' & Hlist' & _ & Hres & Heq' & _).
    rewrite Hlist in Hlist'. injection Hlist' as <- <-.
    assert (Hsame : List.length records' = List.length records).
    { rewrite Heq in Heq'. by injection Heq' as _ <- _. }
    subst lresp. cbn. rewrite length_map. repeat split.
    exists job_ids, s0, records'. split; [done|]. split; [done|]. split; [done|]. lia.
  - intros ip env s iresp is_ Hi.
    destruct (indeed_run_ok _ _ _ _ _ Hi) as (cards & records & -> & _).
    cbn. by rewrite length_map.
Qed.

(** C7, as the code has it, board by board.

    LinkedIn. A run that returns has issued exactly [pages] listing-page
    fetches, for the pages [0 .. pages-1] in order. A listing page whose
    fetch fails aborts the run at that page or before it: the run raises, and
    its requests are the listing fetches of the pages up to the one that
    aborted it, so no later page is fetched.

    Indeed. The caller gives no page count: a run that returns has fetched
    [PAGES_TO_SCRAPE = 1] listing page. *)
Theorem listing_fetches_by_board :
  (forall lp env s lresp ls,
     scrape_linkedin_jobs lp env s = (Ok lresp, ls) ->
     List.filter is_listing (drop (List.length (sent s)) (sent ls))
       = map (listing_request lp) (seq 0 (Z.to_nat (pages lp)))) /\
  (forall lp env s (p : nat),
     Z.of_nat p < pages lp ->
     listing_fetch_fails (http env (List.length (sent s) + p) (listing_request lp p)) ->
     let r := scrape_linkedin_jobs lp env s in
     exists j detail,
       (j <= p)%nat /\
       r.1 = Raised (HTTPException 500 detail) /\
       drop (List.length (sent s)) (sent r.2) = map (listing_request lp) (seq 0 (S j))) /\
  PAGES_TO_SCRAPE = 1 /\
  (forall ip env s iresp is_,
     scrape_indeed_jobs ip env s = (Ok iresp, is_) ->
     List.filter is_listing_url (drop (List.length (visited s)) (visited is_))
       = [page_url (filters_of ip) 0]).
Proof.
  split; [|split; [|split; [done|]]].
  - intros lp env s lresp ls Hl.
    destruct (linkedin_run_ok _ _ _ _ _ Hl)
      as (job_ids & s0 & records & rs & _ & Hs0 & _ & _ & _ & _ & Hls & Hrs).
    rewrite Hls, Hs0, <-app_assoc, drop_app_length, List.filter_app.
    rewrite (filter_all_false _ rs Hrs), app_nil_r.
    apply filter_all_true, Forall_forall. by intros r (page & -> & _)%list_elem_of_fmap.
  - intros lp env s p Hp Hfail. cbn zeta.
    destruct (listing_loop_aborts lp env (range (pages lp)) [] s p p)
      as (j & detail & Hj & Hraised & Hsent); [|done|].
    { unfold range. rewrite lookup_seq_lt by lia. done. }
    destruct (listing_loop lp (range (pages lp)) [] env s) as [o s0] eqn:Hlist.
    cbn in Hraised, Hsent. subst o.
    destruct (scrape_linkedin_jobs_aborted_run _ _ _ _ _ Hlist) as [Hres Hsame].
    exists j. eexists. split; [done|]. split; [exact Hres|].
    rewrite Hsame, Hsent, drop_app_length. f_equal.
    unfold range. rewrite take_seq. f_equal. lia.
  - intros ip env s iresp is_ Hi.
    destruct (indeed_run_ok _ _ _ _ _ Hi) as (cards & records & _ & Hvis & _).
    rewrite Hvis, drop_app_length. cbn. rewrite page_url_is_listing. f_equal.
    apply filter_all_false, Forall_forall.
    intros u (card & -> & _)%list_elem_of_fmap. apply card_url_not_listing.
Qed.

Lemma card_records_elem env cards d :
  forall n, d ∈ card_records env n cards ->
  exists job_card page, job_card ∈ cards /\ d = expected_details job_card page.
Proof.
  induction cards as [|card cards IH]; intros n; cbn; [by intros ?%elem_of_nil|].
  intros [->|Hin]%elem_of_cons.
  - eexists card, _. split; [apply list_elem_of_here|done].
  - destruct (IH _ Hin) as (c & page & Hc & ->). exists c, page.
    split; [by apply elem_of_cons; right|done].
Qed.

(** C4, as the code has it, board by board. Every returned record has a
    platform, an identifier and a URL entry.

    LinkedIn. Each record comes from a detail request of the run, made for
    an identifier that was discovered, which is not empty, and answered with
    status 200. Its platform is ["LinkedIn"], its identifier that identifier
    and its URL the view URL built from it, each of the three unless the
    job-criteria list of the page that was served has an item of that name
    ([Platform], [Job id], [Url]): the text of that item, empty or not, then
    takes its place.

    Indeed. Each record comes from a job card of the listing page. Its
    platform is ["Indeed"]. When the card has a title link the identifier is
    the [data-jk] attribute of the link, the empty string when the link has
    none, and the URL is the view URL built from it; when the card has no
    title link, both are the empty strings of the template. *)
Theorem returned_record_identity :
  (forall lp env s lresp ls,
     scrape_linkedin_jobs lp env s = (Ok lresp, ls) ->
     exists job_ids s0,
       listing_loop lp (range (pages lp)) [] env s = (Ok job_ids, s0) /\
       forall d, d ∈ data lresp ->
         exists job_id n response criteria,
           job_id ∈ job_ids /\ job_id <> "" /\
           sent ls !! n = Some (job_page_request job_id) /\
           http env n (job_page_request job_id) = Ok response /\
           status_code response = 200 /\
           get_job_criteria (body response) = Ok criteria /\
           d !! "platform" = Some (default (VStr "LinkedIn") (criteria !! "platform")) /\
           d !! "job_id" = Some (default (VStr job_id) (criteria !! "job_id")) /\
           d !! "url" =
             Some (default (VStr ("https://www.linkedin.com/jobs/view/" +:+ job_id))
                           (criteria !! "url"))) /\
  (forall ip env s iresp is_,
     scrape_indeed_jobs ip env s = (Ok iresp, is_) ->
     forall d, d ∈ data iresp ->
       exists soup job_card,
         browse env (List.length (visited s)) (page_url (filters_of ip) 0) = Ok soup /\
         job_card ∈ cards_of soup /\
         d !! "platform" = Some (VStr "Indeed") /\
         match title_link job_card with
         | Some job_link =>
             d !! "job_id" = Some (VStr (get_default "data-jk" "" job_link)) /\
             d !! "job_url" = Some (VStr (view_url (get_default "data-jk" "" job_link)))
         | None =>
             d !! "job_id" = Some (VStr "") /\ d !! "job_url" = Some (VStr "")
         end).
Proof.
  split.
  - intros lp env s lresp ls Hl.
    destruct (linkedin_run_records _ _ _ _ _ Hl)
      as (job_ids & s0 & records & Hlist & Hne & _ & -> & Hrec).
    exists job_ids, s0. split; [done|].
    cbn [data]. intros d (rec & -> & Hin)%list_elem_of_fmap.
    rewrite Forall_forall in Hrec. rewrite Forall_forall in Hne.
    destruct (Hrec rec Hin) as (job_id & Hid & n & response & Hn & Hhttp & Hst & Hsoup).
    destruct (job_record_ok _ _ _ Hsoup) as (c & f & Hc & -> & Hfid & Hfurl & Hfp).
    exists job_id, n, response, c.
    split; [done|]. split; [by apply Hne|]. split; [done|]. split; [done|].
    split; [done|]. split; [done|].
    rewrite !with_platform_lookup, !lookup_union.
    rewrite Hfid, Hfurl, Hfp.
    destruct (c !! "platform"), (c !! "job_id"), (c !! "url"); cbn;
      by rewrite ?decide_True by done.
  - intros ip env s iresp is_ Hi d Hd.
    destruct (chrome env) as [failure|] eqn:Hchrome.
    { destruct (scrape_indeed_jobs_no_browser ip env s failure Hchrome) as [Hfail _].
      rewrite Hi in Hfail. discriminate. }
    destruct (scrape_indeed_jobs_cases ip env s Hchrome) as (records & Hres & Hcase).
    rewrite Hi in Hres. cbn in Hres. injection Hres as ->. cbn [data] in Hd.
    apply list_elem_of_fmap in Hd as (rec & -> & Hin).
    destruct (browse env _ _) as [soup|e]; [|destruct Hcase as [-> _]; by apply elem_of_nil in Hin].
    destruct (gesture env _ _); [destruct Hcase as [-> _]; by apply elem_of_nil in Hin|].
    subst records. apply card_records_elem in Hin as (card & page & Hcard & ->).
    exists soup, card. split; [done|]. split; [done|].
    rewrite !with_platform_lookup.
    assert (Hp : expected_details card page !! "platform" = None).
    { apply not_elem_of_dom. rewrite expected_details_dom. unfold keys. set_solver. }
    rewrite Hp, decide_True by done. split; [done|].
    rewrite !expected_details_identity by auto.
    unfold card_fields. destruct (title_link card) as [link|]; [|done].
    cbn zeta. rewrite lookup_insert_ne, lookup_insert_ne, lookup_insert_eq by done.
    by rewrite lookup_insert_ne, lookup_insert_eq by done.
Qed.

End Contract.

(* --------------------------------------------------------------------- *)
(** ** The contract on the fixtures *)
(* --------------------------------------------------------------------- *)

Module ContractCases.
Import Indeed LinkedIn IndeedScenario.

(** Every listing fetch is refused: LinkedIn answers 429, the browser times
    out. *)
Definition all_blocked : Env :=
  {| http := fun _ _ => Ok {| status_code := 429; body := [] |};
     chrome := None;
     browse := browse browser_blocked;
     gesture := fun _ _ => None;
     entropy := fun n => n |}.

(** Both boards answer: LinkedIn lists 1001 and serves its page, Indeed lists
    a card with a title link and one without. *)
Definition two_boards : Env :=
  {| http := http Scenario.net_1001_only;
     chrome := None;
     browse := browse (browser_serving [card_abc; card_bare] page_full);
     gesture := fun _ _ => None;
     entropy := fun n => n |}.

(** Chrome starts and the script run on it raises. *)
Definition no_chrome : Env :=
  {| http := fun _ _ => Ok {| status_code := 429; body := [] |};
     chrome := Some (ScriptFailed (PyExc "JavascriptException" "javascript error"));
     browse := browse browser_blocked;
     gesture := fun _ _ => None;
     entropy := fun n => n |}.

Definition three_pages : LinkedInSearchParams :=
  {| keywords := "Data Scientist"; LinkedIn.location := None; LinkedIn.remote := None;
     LinkedIn.experience_level := None; LinkedIn.job_type := None;
     time_posted := None; pages := 3 |}.

(** The response of a run, when it returned one. *)
Definition returned (x : Outcome StandardResponse * State) : StandardResponse :=
  match x.1 with
  | Ok response => response
  | Raised _ => {| success := false; message := None; count := 0; data := [] |}
  end.

Lemma returned_eq (x : Outcome StandardResponse * State) response :
  x.1 = Ok response -> x = (Ok (returned x), x.2).
Proof. destruct x as [o st]. cbn. by intros ->. Qed.

Lemma linkedin_returns env job_ids :
  (listing_loop linkedin_data_scientist (range 1) [] env initial).1 = Ok job_ids ->
  exists response, (scrape_linkedin_jobs linkedin_data_scientist env initial).1 = Ok response.
Proof.
  intros Hlist.
  destruct (listing_loop linkedin_data_scientist (range 1) [] env initial)
    as [o s0] eqn:Heq.
  cbn in Hlist. subst o.
  destruct (scrape_linkedin_jobs_resolved linkedin_data_scientist env initial job_ids s0 Heq)
    as (records & s' & _ & ->).
  by eexists.
Qed.

Lemma two_boards_linkedin :
  let l := scrape_linkedin_jobs linkedin_data_scientist two_boards initial in
  l = (Ok (returned l), l.2).
Proof.
  destruct (linkedin_returns two_boards ["1001"]) as [response H];
    [vm_compute; reflexivity|].
  by eapply returned_eq.
Qed.

Lemma two_boards_indeed :
  let i := scrape_indeed_jobs (title_only "Data Scientist") two_boards initial in
  i = (Ok (returned i), i.2).
Proof.
  destruct (scrape_indeed_jobs_run (title_only "Data Scientist") two_boards initial)
    as (cards & records & H & _); [reflexivity|].
  by eapply returned_eq.
Qed.

Lemma listing_failure_by_board_witness :
  (exists detail,
     (scrape_linkedin_jobs linkedin_data_scientist all_blocked initial).1
       = Raised (HTTPException 500 detail)) /\
  (let r := scrape_indeed_jobs (title_only "Data Scientist") all_blocked initial in
   r.1 = Ok {| success := true; message := Some "Found 0 Indeed jobs";
               count := 0; data := [] |} /\
   (PRINT, "Scraping interrupted: " +:+ str_exn (PyExc "TimeoutException" "timeout"))
     ∈ log r.2) /\
  ((exists e, (scrape_indeed_jobs (title_only "Data Scientist") no_chrome initial).1
              = Raised e) <-> chrome no_chrome <> None).
Proof.
  destruct listing_failure_by_board as (Hlinkedin & Hindeed & Hfatal).
  split; [|split].
  - apply (Hlinkedin linkedin_data_scientist all_blocked initial 0%nat).
    + cbn. lia.
    + cbn. lia.
  - apply (Hindeed (title_only "Data Scientist") all_blocked initial
             (PyExc "TimeoutException" "timeout")); reflexivity.
  - apply Hfatal.
Defined.

(** The listing page of Indeed cannot be fetched, and the run still answers
    with a successful, empty response. *)
Lemma indeed_listing_failure_not_fatal :
  let ip := title_only "Data Scientist" in
  (exists e, browse browser_blocked 0 (page_url (filters_of ip) 0) = Raised e) /\
  (scrape_indeed_jobs ip browser_blocked initial).1 =
    Ok {| success := true; message := Some "Found 0 Indeed jobs"; count := 0; data := [] |}.
Proof. cbn zeta. split; [by eexists|]. vm_compute. reflexivity. Qed.

Lemma response_reports_one_count_witness :
  let l := scrape_linkedin_jobs linkedin_data_scientist two_boards initial in
  let i := scrape_indeed_jobs (title_only "Data Scientist") two_boards initial in
  count (returned l) = List.length (data (returned l)) /\
  count (returned i) = List.length (data (returned i)).
Proof.
  intros l i.
  destruct response_reports_one_count as [Hlinkedin Hindeed].
  destruct (Hlinkedin linkedin_data_scientist two_boards initial (returned l) l.2
              two_boards_linkedin) as (_ & Hl & _).
  destruct (Hindeed (title_only "Data Scientist") two_boards initial (returned i) i.2
              two_boards_indeed) as (_ & Hi & _).
  exact (conj Hl Hi).
Defined.

(** A full run and a partial run with the same response: in the first the
    listing has one identifier and it resolves, in the second it has two and
    one is dropped. Nothing in the response tells them apart. *)
Lemma counts_not_in_response :
  let full := scrape_linkedin_jobs linkedin_data_scientist Scenario.net_1001_only initial in
  let partial := scrape_linkedin_jobs linkedin_data_scientist Scenario.net_1002_down initial in
  (listing_loop linkedin_data_scientist (range 1) [] Scenario.net_1001_only initial).1
    = Ok ["1001"] /\
  (listing_loop linkedin_data_scientist (range 1) [] Scenario.net_1002_down initial).1
    = Ok ["1001"; "1002"] /\
  full.1 = partial.1 /\
  exists response, full.1 = Ok response /\ count response = 1%nat.
Proof.
  cbn zeta. split; [vm_compute; reflexivity|]. split; [vm_compute; reflexivity|].
  split; [vm_compute; reflexivity|].
  destruct (linkedin_returns Scenario.net_1001_only ["1001"]) as [response H];
    [vm_compute; reflexivity|].
  exists response. split; [done|].
  assert (Hc : match (scrape_linkedin_jobs linkedin_data_scientist
                        Scenario.net_1001_only initial).1 with
               | Ok r => count r
               | Raised _ => 0%nat
               end = 1%nat) by (vm_compute; reflexivity).
  by rewrite H in Hc.
Qed.

Lemma listing_fetches_by_board_witness :
  let l := scrape_linkedin_jobs linkedin_data_scientist two_boards initial in
  let i := scrape_indeed_jobs (title_only "Data Scientist") two_boards initial in
  let r := scrape_linkedin_jobs three_pages all_blocked initial in
  List.filter is_listing (drop (List.length (sent initial)) (sent l.2))
    = map (listing_request linkedin_data_scientist)
          (seq 0 (Z.to_nat (pages linkedin_data_scientist))) /\
  List.filter is_listing_url (drop (List.length (visited initial)) (visited i.2))
    = [page_url (filters_of (title_only "Data Scientist")) 0] /\
  exists j detail,
    (j <= 0)%nat /\
    r.1 = Raised (HTTPException 500 detail) /\
    drop (List.length (sent initial)) (sent r.2)
      = map (listing_request three_pages) (seq 0 (S j)).
Proof.
  intros l i r.
  destruct listing_fetches_by_board as (Hreturns & Haborts & _ & Hindeed).
  pose proof (Hreturns linkedin_data_scientist two_boards initial (returned l) l.2
                two_boards_linkedin) as Hl.
  pose proof (Hindeed (title_only "Data Scientist") two_boards initial (returned i) i.2
                two_boards_indeed) as Hi.
  assert (Hr : exists j detail,
             (j <= 0)%nat /\
             r.1 = Raised (HTTPException 500 detail) /\
             drop (List.length (sent initial)) (sent r.2)
               = map (listing_request three_pages) (seq 0 (S j))).
  { apply (Haborts three_pages all_blocked initial 0%nat).
    - cbn. lia.
    - cbn. lia. }
  exact (conj Hl (conj Hi Hr)).
Defined.

(** With three pages requested and the first one refused, LinkedIn issues one
    listing fetch, not three. Indeed takes no page count at all: with both
    cards resolved it has fetched one listing page. *)
Lemma listing_fetches_not_as_requested :
  pages three_pages = 3 /\
  List.filter is_listing (sent (scrape_linkedin_jobs three_pages all_blocked initial).2)
    = [listing_request three_pages 0] /\
  let i := scrape_indeed_jobs (title_only "Data Scientist") two_boards initial in
  List.filter is_listing_url (visited i.2)
    = [page_url (filters_of (title_only "Data Scientist")) 0] /\
  visited i.2 = [ page_url (filters_of (title_only "Data Scientist")) 0;
                  "https://in.indeed.com/viewjob?jk=abc"; "" ].
Proof. split; [done|]. split; [vm_compute; reflexivity|]. split; vm_compute; reflexivity. Qed.

Lemma returned_record_identity_witness :
  let l := scrape_linkedin_jobs linkedin_data_scientist two_boards initial in
  let i := scrape_indeed_jobs (title_only "Data Scientist") two_boards initial in
  (forall d, d ∈ data (returned l) -> is_Some (d !! "job_id")) /\
  (forall d, d ∈ data (returned i) -> d !! "platform" = Some (VStr "Indeed")).
Proof.
  intros l i.
  destruct returned_record_identity as [Hlinkedin Hindeed].
  destruct (Hlinkedin linkedin_data_scientist two_boards initial (returned l) l.2
              two_boards_linkedin) as (job_ids & s0 & _ & Hl).
  pose proof (Hindeed (title_only "Data Scientist") two_boards initial (returned i) i.2
                two_boards_indeed) as Hi.
  split.
  - intros d Hd.
    destruct (Hl d Hd) as (job_id & n & response & c & _ & _ & _ & _ & _ & _ & _ & H & _).
    rewrite H. by eexists.
  - intros d Hd. by destruct (Hi d Hd) as (soup & card & _ & _ & H & _).
Defined.

(** The card without a title link is returned as a record whose identifier
    and URL are empty. *)
Lemma indeed_record_without_identifier :
  match (scrape_indeed_jobs (title_only "Data Scientist") two_boards initial).1 with
  | Ok response =>
      map (fun d => (d !! "platform", d !! "job_id", d !! "job_url")) (data response)
  | Raised _ => []
  end =
  [ (Some (VStr "Indeed"), Some (VStr "abc"), Some (VStr "https://in.indeed.com/viewjob?jk=abc"));
    (Some (VStr "Indeed"), Some (VStr ""), Some (VStr "")) ].
Proof. vm_compute. reflexivity. Qed.

(** A LinkedIn detail page whose criteria list has an item headed
    [Platform] with an empty value: the record returned for it has the empty
    string as its platform, the criteria entry having replaced ["LinkedIn"]. *)
Definition page_platform : Soup :=
  [ Elem "h2" ["top-card-layout__title"] [] [Text "Data Scientist"];
    Elem "ul" [] []
      [Elem "li" ["description__job-criteria-item"] []
         [Elem "h3" [] [] [Text "Platform"]; Elem "span" [] [] []]] ].

Definition net_platform : Env :=
  {| http := fun _ r =>
       if String.eqb (req_url r) search_url
       then Ok {| status_code := 200; body := Scenario.listing_of ["1001"] |}
       else Ok {| status_code := 200; body := page_platform |};
     chrome := None; browse := Scenario.no_browser; gesture := fun _ _ => None;
     entropy := fun n => n |}.

Example linkedin_platform_overridden :
  match (scrape_linkedin_jobs linkedin_data_scientist net_platform initial).1 with
  | Ok response => map (fun d => (d !! "platform", d !! "job_id")) (data response)
  | Raised _ => []
  end = [(Some (VStr ""), Some (VStr "1001"))].
Proof. vm_compute. reflexivity. Qed.

End ContractCases.

(* ===================================================================== *)
(** * Further properties of the code *)
(* ===================================================================== *)

(* --------------------------------------------------------------------- *)
(** ** Lower case: what it leaves in a key *)
(* --------------------------------------------------------------------- *)

Section LowerCase.
Import PyStr.

(** The characters of a key as the code normalises them: no space, and no
    upper-case ASCII letter. *)
Definition normalised_char (ch : ascii) : Prop :=
  ch <> " "%char /\ ~ (65 <= nat_of_ascii ch <= 90)%nat.

Definition normalised (k : string) : Prop :=
  Forall normalised_char (list_ascii_of_string k).

(** The code points of a decoded string: a character, or an invalid byte. *)
Definition point_ok (p : N) : Prop :=
  (p < 1114112 \/ 1114240 <= p < 1114368)%N.

Ltac bounds :=
  repeat match goal with
         | H : _ && _ = true |- _ => apply andb_true_iff in H as [? ?]
         | H : negb _ = true |- _ => apply negb_true_iff in H
         | H : (_ <=? _)%N = true |- _ => apply N.leb_le in H
         | H : (_ <? _)%N = true |- _ => apply N.ltb_lt in H
         end.

Lemma two_bytes_spec a s1 p n :
  two_bytes a s1 = Some (p, n) -> (128 <= p < 1114112)%N.
Proof.
  unfold two_bytes, continuation. destruct s1 as [|b s2]; [done|].
  cbn zeta. destruct (_ && _) eqn:H; [|done]. intros [= <- _]. bounds. lia.
Qed.

Lemma three_bytes_spec a s1 p n :
  three_bytes a s1 = Some (p, n) -> (128 <= p < 1114112)%N.
Proof.
  unfold three_bytes, continuation. destruct s1 as [|b [|c s3]]; [done..|].
  cbn zeta. destruct (_ && _) eqn:H; [|done]. intros [= <- _]. bounds. lia.
Qed.

Lemma four_bytes_spec a s1 p n :
  four_bytes a s1 = Some (p, n) -> (128 <= p < 1114112)%N.
Proof.
  unfold four_bytes, continuation. destruct s1 as [|b [|c [|d s4]]]; [done..|].
  cbn zeta. destruct (_ && _) eqn:H; [|done]. intros [= <- _]. bounds. lia.
Qed.

Lemma head_point_spec a s1 p n :
  head_point (String a s1) = Some (p, n) ->
  (p = N_of_ascii a /\ p < 128)%N \/ (128 <= p)%N /\ point_ok p.
Proof.
  unfold head_point, point_ok, invalid_byte. cbn zeta.
  pose proof (N_ascii_bounded a) as Ha.
  destruct (N.ltb_spec (N_of_ascii a) 128) as [Hlt|Hge]; [intros [= <- _]; by left|].
  intros H. right.
  destruct (two_bytes _ s1) as [[p2 n2]|] eqn:H2.
  { injection H as <- _. apply two_bytes_spec in H2. lia. }
  destruct (three_bytes _ s1) as [[p3 n3]|] eqn:H3.
  { injection H as <- _. apply three_bytes_spec in H3. lia. }
  destruct (four_bytes _ s1) as [[p4 n4]|] eqn:H4.
  { injection H as <- _. apply four_bytes_spec in H4. lia. }
  injection H as <- _. lia.
Qed.

(** A character below U+0080 of the decoded string is a byte of the string. *)
Lemma decode_go_points s :
  forall skip p, p ∈ decode_go skip s ->
    ((p < 128)%N /\ ascii_of_N p ∈ list_ascii_of_string s) \/
    ((128 <= p)%N /\ point_ok p).
Proof.
  induction s as [|a s IH]; intros skip p; cbn [decode_go]; [by intros ?%elem_of_nil|].
  assert (Hrest : forall k, p ∈ decode_go k s ->
            ((p < 128)%N /\ ascii_of_N p ∈ list_ascii_of_string (String a s)) \/
            ((128 <= p)%N /\ point_ok p)).
  { intros k [[Hp Hin]|H]%IH; [left|by right]. split; [done|].
    cbn. by apply elem_of_cons; right. }
  destruct skip as [|k]; [|apply Hrest].
  destruct (head_point (String a s)) as [[q n]|] eqn:Hq; [|by intros ?%elem_of_nil].
  intros [->|Hin]%elem_of_cons; [|by eapply Hrest].
  apply head_point_spec in Hq as [[-> Hlt]|H]; [left|by right].
  split; [done|]. rewrite ascii_N_embedding. cbn. apply list_elem_of_here.
Qed.

Definition range_ok (r : CaseRange) : bool :=
  match r with
  | Shift lo hi to => ((lo <=? hi) && (90 <? to) && (to + (hi - lo) <? 1114112))%N
  | Pairs lo hi => ((90 <? lo) && (hi + 1 <? 1114112))%N
  end.

Lemma lookup_lower_ok t c q :
  forallb range_ok t = true -> lookup_lower t c = Some q -> (90 < q < 1114112)%N.
Proof.
  induction t as [|[lo hi to|lo hi] t IH]; cbn [forallb lookup_lower]; [done|..];
    intros [Hr Ht]%andb_true_iff; unfold in_range;
    destruct ((_ <=? c)%N && _) eqn:Hin; try (by apply IH);
    unfold range_ok in Hr; bounds.
  - intros [= Hq]. lia.
  - destruct (N.even _); [|done]. intros [= Hq]. lia.
Qed.

Lemma lower_table_ok : forallb range_ok lower_table = true.
Proof. vm_compute. reflexivity. Qed.

(** A character is kept, and is then no upper-case ASCII letter, or it goes
    to characters above ['Z']. *)
Lemma to_lower_full_points p q :
  q ∈ to_lower_full p ->
  (q = p /\ ~ (65 <= p <= 90)%N) \/ (90 < q < 1114112)%N.
Proof.
  unfold to_lower_full. destruct (N.eqb_spec p 304) as [->|_].
  { rewrite !elem_of_cons. intros [->|[->|[]%elem_of_nil]]; right; lia. }
  destruct (lookup_lower lower_table p) as [l|] eqn:Hl.
  - intros ->%list_elem_of_singleton. right.
    by eapply lookup_lower_ok; [apply lower_table_ok|].
  - intros ->%list_elem_of_singleton. left. split; [done|].
    unfold lower_table in Hl. cbn [lookup_lower] in Hl. unfold in_range in Hl.
    destruct (_ && _) eqn:Hin; [done|]. apply andb_false_iff in Hin.
    intros [H1 H2]. destruct Hin as [Hin|Hin].
    + apply N.leb_gt in Hin. lia.
    + apply N.leb_gt in Hin. lia.
Qed.

Lemma lower_points_points l :
  forall before q, q ∈ lower_points before l ->
    (q = 962 \/ q = 963)%N \/ exists p, p ∈ l /\ q ∈ to_lower_full p.
Proof.
  induction l as [|c l IH]; intros before q; cbn [lower_points];
    [by intros ?%elem_of_nil|].
  intros [Hq|Hq]%elem_of_app.
  - destruct (N.eqb_spec c 931) as [->|_].
    + apply list_elem_of_singleton in Hq. left. destruct (_ && _); auto.
    + right. exists c. split; [apply list_elem_of_here|done].
  - destruct (IH _ _ Hq) as [H|(p & Hp & Hqp)]; [by left|right].
    exists p. split; [by apply elem_of_cons; right|done].
Qed.

Lemma list_ascii_of_string_app s t :
  list_ascii_of_string (s +:+ t) = list_ascii_of_string s ++ list_ascii_of_string t.
Proof.
  induction s as [|a s IH]; [done|].
  change (String a s +:+ t) with (String a (s +:+ t)). cbn. by rewrite IH.
Qed.

Lemma encode_bytes l b :
  b ∈ list_ascii_of_string (encode l) ->
  exists p, p ∈ l /\ b ∈ list_ascii_of_string (encode_point p).
Proof.
  induction l as [|p l IH]; cbn [encode]; [by intros ?%elem_of_nil|].
  rewrite list_ascii_of_string_app. intros [Hb|Hb]%elem_of_app.
  - exists p. split; [apply list_elem_of_here|done].
  - destruct (IH Hb) as (p' & Hp' & Hb'). exists p'.
    split; [by apply elem_of_cons; right|done].
Qed.

Lemma byte_value n : (n < 256)%N -> N_of_ascii (byte n) = n.
Proof. apply N_ascii_embedding. Qed.

Lemma high_byte n : (128 <= n < 256)%N -> ~ (N_of_ascii (byte n) < 128)%N.
Proof. intros Hn. rewrite byte_value by lia. lia. Qed.

Ltac high_bytes Hb :=
  rewrite ?elem_of_cons in Hb;
  repeat destruct Hb as [->|Hb]; try (by apply elem_of_nil in Hb);
  intros Hsmall; exfalso; revert Hsmall; apply high_byte;
  repeat match goal with
         | |- context [(?x mod 64)%N] =>
             let H := fresh in
             assert (H := N.mod_lt x 64 ltac:(lia));
             generalize dependent (x mod 64)%N; intros
         end;
  zify; Z.div_mod_to_equations; lia.

(** The only byte below 128 in the encoding of a code point is the code
    point itself. *)
Lemma encode_point_small p b :
  point_ok p ->
  b ∈ list_ascii_of_string (encode_point p) ->
  (N_of_ascii b < 128)%N -> p = N_of_ascii b.
Proof.
  unfold point_ok, encode_point. intros Hp.
  destruct (N.ltb_spec p 128) as [H1|H1]; cbn [list_ascii_of_string].
  { intros ->%list_elem_of_singleton _. by rewrite byte_value by lia. }
  destruct (N.ltb_spec p 2048) as [H2|H2]; cbn [list_ascii_of_string].
  { intros Hb. high_bytes Hb. }
  destruct (N.ltb_spec p 65536) as [H3|H3]; cbn [list_ascii_of_string].
  { intros Hb. high_bytes Hb. }
  destruct (N.ltb_spec p 1114112) as [H4|H4]; cbn [list_ascii_of_string].
  { intros Hb. high_bytes Hb. }
  intros Hb. high_bytes Hb.
Qed.

Lemma replace_space_underscore_bytes s :
  " "%char ∉ list_ascii_of_string (replace_space_underscore s).
Proof.
  unfold replace_space_underscore, map_chars.
  induction s as [|ch s IH]; cbn; [by intros ?%elem_of_nil|].
  intros [Heq|Hin]%elem_of_cons; [|done].
  destruct (Ascii.eqb_spec ch " "); [discriminate|congruence].
Qed.

Lemma normalised_key s :
  normalised (lower (replace_space_underscore s)).
Proof.
  unfold normalised, lower. apply Forall_forall. intros b Hb.
  pose proof (replace_space_underscore_bytes s) as Hspace.
  set (s' := replace_space_underscore s) in *.
  destruct (N.ltb_spec (N_of_ascii b) 128) as [Hsmall|Hbig].
  - apply encode_bytes in Hb as (q & Hq & Hb).
    assert (Hcase : (q = N_of_ascii b ->
                     (90 < q)%N \/ (~ (65 <= q <= 90)%N /\
                                    ascii_of_N q ∈ list_ascii_of_string s')) /\ point_ok q).
    { apply lower_points_points in Hq as [[-> | ->]|(p & Hp & Hqp)].
      - split; [intros _; left; lia|left; lia].
      - split; [intros _; left; lia|left; lia].
      - apply decode_go_points in Hp. apply to_lower_full_points in Hqp.
        destruct Hqp as [[-> Hup]|Hhigh].
        + destruct Hp as [[Hlt Hin]|[Hge Hok]].
          * split; [intros _; by right|left; lia].
          * split; [|done]. intros ->. lia.
        + split; [intros _; left; lia|left; lia]. }
    destruct Hcase as [Hcase Hok].
    pose proof (encode_point_small q b Hok Hb Hsmall) as Heq.
    destruct (Hcase Heq) as [Hv|[Hv Hin]]; clear Hq; subst q.
    + split.
      * intros ->. cbn in Hv. lia.
      * unfold nat_of_ascii. lia.
    + rewrite ascii_N_embedding in Hin. split.
      * by intros ->.
      * unfold nat_of_ascii. lia.
  - split.
    + intros ->. cbn in Hbig. lia.
    + unfold nat_of_ascii. lia.
Qed.

(** The model agrees with Python on accented capitals, on the capital sigma
    and its final form, and on the dotted capital I. *)
Example lower_examples :
  map lower ["ÉCOLE"; "ΟΔΟΣ"; "ΣΟΦΙΑ"; "İstanbul"; "Seniority_level"]
  = ["école"; "οδος"; "σοφια"; "i̇stanbul"; "seniority_level"].
Proof. vm_compute. reflexivity. Qed.

End LowerCase.

(* --------------------------------------------------------------------- *)
(** ** get_job_criteria *)
(* --------------------------------------------------------------------- *)

Section Criteria.
Import LinkedIn.

Lemma criteria_loop_app items1 :
  forall items2 criteria,
    criteria_loop (items1 ++ items2) criteria =
    match criteria_loop items1 criteria with
    | Ok c1 => criteria_loop items2 c1
    | Raised e => Raised e
    end.
Proof.
  induction items1 as [|item items1 IH]; intros items2 criteria; [done|].
  cbn. destruct (criteria_entry item) as [[key value]|e]; [apply IH|].
  destruct (String.eqb _ _); [apply IH|done].
Qed.

(** X1. An item of the criteria list without an [h3] or without a [span] is
    skipped and changes nothing: the dictionary is the one the other items
    give, whatever stands before and after it. *)
Theorem malformed_criteria_item_is_skipped before bad after criteria :
  tag_find (is_elem "h3") bad = None \/ tag_find (is_elem "span") bad = None ->
  criteria_loop (before ++ bad :: after) criteria
    = criteria_loop (before ++ after) criteria.
Proof.
  intros Hbad. rewrite !criteria_loop_app.
  destruct (criteria_loop before criteria) as [c1|e]; [|done].
  cbn. unfold criteria_entry, deref.
  destruct Hbad as [-> | Hspan]; [done|].
  destruct (tag_find (is_elem "h3") bad); [|done]. cbn. by rewrite Hspan.
Qed.

Lemma criteria_loop_other items key :
  (forall later k v, later ∈ items -> criteria_entry later = Ok (k, v) -> k <> key) ->
  forall criteria c,
    criteria_loop items criteria = Ok c -> c !! key = criteria !! key.
Proof.
  induction items as [|item items IH]; intros Hother criteria c; cbn.
  - by intros [= <-].
  - assert (Hrest : forall later k v,
              later ∈ items -> criteria_entry later = Ok (k, v) -> k <> key).
    { intros later k v Hin. apply Hother. by apply elem_of_cons; right. }
    destruct (criteria_entry item) as [[k v]|e] eqn:He.
    + intros Hc. rewrite (IH Hrest _ _ Hc). apply lookup_insert_ne.
      eapply Hother; [apply list_elem_of_here|done].
    + destruct (String.eqb _ _); [by apply IH|done].
Qed.

(** X2. When several items have the same heading the last one wins: an item
    read as [(key, value)] that no later item overrides is in the result
    with that value, whatever came before it. *)
Theorem criteria_last_heading_wins before item after criteria key value :
  criteria_entry item = Ok (key, value) ->
  (forall later k v, later ∈ after -> criteria_entry later = Ok (k, v) -> k <> key) ->
  exists c,
    criteria_loop (before ++ item :: after) criteria = Ok c /\
    c !! key = Some (VStr value).
Proof.
  intros Hitem Hafter. rewrite criteria_loop_app.
  destruct (criteria_loop_total before criteria) as [c1 ->].
  cbn. rewrite Hitem.
  destruct (criteria_loop_total after (<[key:=VStr value]> c1)) as [c Hc].
  exists c. split; [done|].
  rewrite (criteria_loop_other after key Hafter _ _ Hc). apply lookup_insert_eq.
Qed.

Lemma criteria_entry_key item key value :
  criteria_entry item = Ok (key, value) -> normalised key.
Proof.
  unfold criteria_entry, deref.
  destruct (tag_find (is_elem "h3") item); cbn; [|done].
  destruct (tag_find (is_elem "span") item); cbn; [|done].
  intros [= <- _]. apply normalised_key.
Qed.

(** X3. Every key of the criteria dictionary is normalised: it has no space
    and no upper-case ASCII letter, whatever the headings of the page are. *)
Theorem criteria_keys_normalised soup c k :
  get_job_criteria soup = Ok c -> is_Some (c !! k) -> normalised k.
Proof.
  unfold get_job_criteria.
  generalize (find_all (has_class "li" "description__job-criteria-item") soup).
  intros items Hc Hk.
  assert (Hinv : forall criteria,
            (forall k, is_Some (criteria !! k) -> normalised k) ->
            criteria_loop items criteria = Ok c ->
            forall k, is_Some (c !! k) -> normalised k).
  { clear. induction items as [|item items IH]; intros criteria Hall; cbn.
    - by intros [= <-].
    - destruct (criteria_entry item) as [[key value]|e] eqn:He.
      + apply IH. intros k. rewrite lookup_insert_is_Some.
        intros [<-|[_ Hk]]; [by eapply criteria_entry_key|by apply Hall].
      + destruct (String.eqb _ _); [by apply IH|done]. }
  apply (Hinv ∅); [|done..].
  intros k0 [v Hv]. by rewrite lookup_empty in Hv.
Qed.

End Criteria.

(* --------------------------------------------------------------------- *)
(** ** scrape_job_page *)
(* --------------------------------------------------------------------- *)

Section JobPage.
Import LinkedIn.

(** X4. [scrape_job_page] never raises and issues exactly one request. When
    it returns a record the log is unchanged; when it returns [None] it has
    logged exactly one error, so no failed fetch goes unreported. *)
Theorem scrape_job_page_reports_failures job_id env s :
  let r := scrape_job_page job_id env s in
  sent r.2 = sent s ++ [job_page_request job_id] /\
  ((exists d, r.1 = Ok (Some d) /\ log r.2 = log s) \/
   (exists msg, r.1 = Ok None /\ log r.2 = log s ++ [(ERROR, msg)])).
Proof.
  destruct s as [snt vis pg ges drw lg q det jl].
  unfold scrape_job_page. run. cbn [sent log].
  destruct (http env _ _) as [response|e]; cbn.
  - case_bool_decide; cbn.
    + split; [done|]. right. by eexists.
    + destruct (job_record job_id (body response)); cbn; (split; [done|]).
      * left. by eexists.
      * right. by eexists.
  - split; [done|]. right. by eexists.
Qed.

(** The keys of the dictionary display of [scrape_job_page]. *)
Definition fixed_keys : list string :=
  ["job_id"; "title"; "company"; "location"; "posted"; "applicants"; "url"; "company_url"].

(** X5. Every record [scrape_job_page] returns has the eight keys of its
    dictionary display, whatever the page holds: a locator that finds
    nothing does not leave its key out. *)
Theorem scraped_record_has_fixed_keys job_id env s d :
  (scrape_job_page job_id env s).1 = Ok (Some d) ->
  forall k, k ∈ fixed_keys -> is_Some (d !! k).
Proof.
  destruct (scrape_job_page_run job_id env s) as (-> & _).
  intros [= Hf] k Hk. apply fetched_record_of in Hf as [[soup Hrec] _].
  revert Hrec. unfold job_record, job_fields.
  destruct (company_url_of soup) as [cu|e]; cbn; [|done].
  destruct (get_job_criteria_total soup) as [c ->]. cbn. intros [= <-].
  apply lookup_union_is_Some. right.
  unfold fixed_keys in Hk. rewrite !elem_of_cons in Hk.
  destruct (description_of soup);
    repeat destruct Hk as [->|Hk]; try (by apply elem_of_nil in Hk);
    rewrite ?lookup_insert_ne by done; rewrite lookup_insert_eq; by eexists.
Qed.

End JobPage.

(* --------------------------------------------------------------------- *)
(** ** scrape_jobs_linkedin: discovering identifiers *)
(* --------------------------------------------------------------------- *)

Section Discovery.
Import LinkedIn.

Lemma prefix_nil s : String.prefix "" s = true.
Proof. by destruct s. Qed.

Lemma split_go_nonempty sep : forall s skip cur, PyStr.split_go sep skip cur s <> [].
Proof.
  induction s as [|c s IH]; intros skip cur; cbn [PyStr.split_go]; [done|].
  destruct skip; [|apply IH]. destruct (String.prefix sep (String c s)); [done|apply IH].
Qed.

Lemma last_item_cons x l : l <> [] -> last_item (x :: l) = last_item l.
Proof.
  destruct l as [|y l]; [done|]. intros _. unfold last_item, index. cbn.
  by rewrite Nat.sub_0_r.
Qed.

Lemma rev_app_rev_app s : forall t u,
  String.rev_app (String.rev_app s t) u = String.rev_app t (s +:+ u).
Proof. induction s as [|c s IH]; intros t u; cbn; [done|]. by rewrite IH. Qed.

Lemma append_cons c s t : String c s +:+ t = String c (s +:+ t).
Proof. reflexivity. Qed.

Lemma append_empty t : "" +:+ t = t.
Proof. reflexivity. Qed.

Lemma append_nil_r s : s +:+ "" = s.
Proof. induction s as [|c s IH]; [done|]. by rewrite append_cons, IH. Qed.

Lemma prefix_colon c s : String.prefix ":" (String c s) = bool_decide (":"%char = c).
Proof.
  change (String.prefix ":" (String c s))
    with (match ascii_dec ":" c with
          | left _ => String.prefix "" s
          | right _ => false
          end).
  destruct (ascii_dec ":" c); rewrite ?prefix_nil;
    [by rewrite bool_decide_true|by rewrite bool_decide_false].
Qed.

Lemma split_go_colon_cons cur c s :
  PyStr.split_go ":" 0 cur (String c s) =
  if bool_decide (":"%char = c)
  then String.rev cur :: PyStr.split_go ":" 0 "" s
  else PyStr.split_go ":" 0 (String c cur) s.
Proof.
  change (PyStr.split_go ":" 0 cur (String c s))
    with (if String.prefix ":" (String c s)
          then String.rev cur :: PyStr.split_go ":" 0 "" s
          else PyStr.split_go ":" 0 (String c cur) s).
  by rewrite prefix_colon.
Qed.

Lemma contains_colon_cons c s :
  PyStr.contains ":" (String c s) = bool_decide (":"%char = c) || PyStr.contains ":" s.
Proof.
  change (PyStr.contains ":" (String c s))
    with (String.prefix ":" (String c s) || PyStr.contains ":" s).
  by rewrite prefix_colon.
Qed.

Lemma split_go_no_colon id :
  PyStr.contains ":" id = false ->
  forall cur, PyStr.split_go ":" 0 cur id = [String.rev (String.rev_app id cur)].
Proof.
  induction id as [|c id IH]; intros Hno cur; [done|].
  rewrite contains_colon_cons in Hno. apply orb_false_iff in Hno as [Hc Hno].
  rewrite split_go_colon_cons, Hc. by apply IH.
Qed.

Lemma split_go_last_piece id :
  PyStr.contains ":" id = false ->
  forall p cur, last_item (PyStr.split_go ":" 0 cur (p +:+ ":" +:+ id)) = Ok id.
Proof.
  intros Hno. induction p as [|c p IH]; intros cur.
  - rewrite append_empty, append_cons, append_empty, split_go_colon_cons.
    rewrite bool_decide_true by done.
    rewrite last_item_cons by apply split_go_nonempty.
    rewrite split_go_no_colon by done.
    unfold last_item, index, String.rev. cbn [List.length Nat.sub lookup list_lookup].
    by rewrite rev_app_rev_app, append_nil_r.
  - rewrite append_cons, split_go_colon_cons. case_bool_decide.
    + rewrite last_item_cons by apply split_go_nonempty. apply IH.
    + apply IH.
Qed.

(** X6. The identifier of a listing item is what follows the last colon of
    the [data-entity-urn] attribute of its base card: an item whose card says
    [<anything>:<id>], with no colon in [id], yields exactly [id]. *)
Theorem entity_urn_identifier job card urn_prefix id :
  tag_find (has_class "div" "base-card") job = Some card ->
  attr "data-entity-urn" (node_attrs card) = Some (urn_prefix +:+ ":" +:+ id) ->
  PyStr.contains ":" id = false ->
  card_id job = Ok id.
Proof.
  intros Hcard Hattr Hno. unfold card_id, deref, get_default. rewrite Hcard. cbn.
  rewrite Hattr. cbn. by apply split_go_last_piece.
Qed.

Lemma card_id_raises job e :
  card_id job = Raised e -> tag_find (has_class "div" "base-card") job = None.
Proof.
  unfold card_id, deref. destruct (tag_find _ job) as [card|]; [|done]. cbn.
  unfold PyStr.split, last_item.
  pose proof (split_go_nonempty ":" (get_default "data-entity-urn" "" card) 0 "") as Hne.
  destruct (PyStr.split_go _ _ _ _) as [|x l] eqn:Hs; [done|].
  unfold index. rewrite (list_lookup_lookup_total_lt (x :: l)); [done|cbn; lia].
Qed.

(** The identifier the walrus expression binds for an item, [""] when the
    expression raises. *)
Definition item_id (job : Node) : string :=
  match card_id job with
  | Ok job_id => job_id
  | Raised _ => ""
  end.

(** X7. When every item of a listing page has a base card, the identifiers
    collected from it are the non-empty identifiers of the items, in document
    order and with repetitions kept, appended to those already known. *)
Theorem collected_ids_in_document_order jobs :
  forall job_ids,
    (forall job, job ∈ jobs -> is_Some (tag_find (has_class "div" "base-card") job)) ->
    collect_ids jobs job_ids
      = Ok (job_ids ++ List.filter PyStr.truthy (map item_id jobs)).
Proof.
  induction jobs as [|job jobs IH]; intros job_ids Hcards.
  - cbn. by rewrite app_nil_r.
  - assert (Hjob : is_Some (tag_find (has_class "div" "base-card") job))
      by (apply Hcards, list_elem_of_here).
    assert (Hrest : forall j, j ∈ jobs ->
              is_Some (tag_find (has_class "div" "base-card") j))
      by (intros j Hj; apply Hcards; by apply elem_of_cons; right).
    cbn [collect_ids map List.filter].
    destruct (card_id job) as [job_id|e] eqn:Hid.
    + assert (item_id job = job_id) as -> by (unfold item_id; by rewrite Hid).
      unfold mbind, Outcome_bind. rewrite IH by done.
      destruct (PyStr.truthy job_id); [|done]. by rewrite <-app_assoc.
    + apply card_id_raises in Hid. rewrite Hid in Hjob. by destruct Hjob.
Qed.

Lemma collect_ids_raises jobs job :
  job ∈ jobs -> tag_find (has_class "div" "base-card") job = None ->
  forall job_ids, exists e, collect_ids jobs job_ids = Raised e.
Proof.
  intros Hin Hnone. induction jobs as [|j jobs IH]; intros job_ids.
  - by apply elem_of_nil in Hin.
  - cbn. destruct (card_id j) as [id|e] eqn:Hid; [|by eexists].
    apply elem_of_cons in Hin as [->|Hin].
    + unfold card_id, deref in Hid. by rewrite Hnone in Hid.
    + cbn. by apply IH.
Qed.

(** X8. One [li] without a base card anywhere on the first listing page is
    fatal: the page answered 200, and the run still fails with HTTP 500. *)
Theorem item_without_card_aborts_run lp env s response job :
  0 < pages lp ->
  http env (List.length (sent s)) (listing_request lp 0) = Ok response ->
  status_code response = 200 ->
  job ∈ find_all (is_elem "li") (body response) ->
  tag_find (has_class "div" "base-card") job = None ->
  exists detail, (scrape_linkedin_jobs lp env s).1 = Raised (HTTPException 500 detail).
Proof.
  intros Hpages Hhttp Hst Hin Hnone.
  assert (Hrange : exists rest, range (pages lp) = 0%nat :: rest).
  { unfold range. destruct (Z.to_nat (pages lp)) as [|n] eqn:Hn; [lia|]. by eexists. }
  destruct Hrange as [rest Hrange].
  destruct (listing_loop lp (range (pages lp)) [] env s) as [o s0] eqn:Hlist.
  assert (exists detail, o = Raised (HTTPException 500 detail)) as [detail ->].
  { revert Hlist. rewrite Hrange. cbn [listing_loop]. rewrite run_bind.
    destruct (listing_page_run lp 0 [] env s) as (_ & _ & Hres & _).
    destruct (listing_page lp 0 [] env s) as [[ids|e] s1]; cbn in Hres.
    - destruct Hres as (response' & Hans & _ & Hids). rewrite Hhttp in Hans.
      injection Hans as <-.
      destruct (collect_ids_raises _ _ Hin Hnone []) as [e He]. congruence.
    - destruct Hres as [detail ->]. intros [= <- _]. by eexists. }
  eexists. by eapply scrape_linkedin_jobs_aborted.
Qed.

(** X9. With a page count of zero or less no request is made at all and the
    run answers at once with an empty, successful response. *)
Theorem no_pages_no_requests lp env s :
  pages lp <= 0 ->
  scrape_linkedin_jobs lp env s =
    (Ok {| success := true; message := Some "Found 0 LinkedIn jobs";
           count := 0; data := [] |}, s).
Proof.
  intros Hpages. unfold scrape_linkedin_jobs, scrape_jobs_linkedin, try_except, range.
  replace (Z.to_nat (pages lp)) with 0%nat by lia. reflexivity.
Qed.

End Discovery.

(* --------------------------------------------------------------------- *)
(** ** scrape_jobs_linkedin: resolving in order, within a budget *)
(* --------------------------------------------------------------------- *)

Section Budget.
Import LinkedIn.

Lemma retry_loop_trace env job_id retries :
  forall todo s,
  exists new n s',
    (forall acc, retry_loop todo retries job_id acc env s = (Ok (acc ++ new), s')) /\
    (List.length new <= 1)%nat /\
    Forall (record_of job_id) new /\
    (n <= List.length todo)%nat /\ (todo <> [] -> 1 <= n)%nat /\
    sent s' = sent s ++ replicate n (job_page_request job_id).
Proof.
  induction todo as [|attempt rest IH]; intros s.
  - exists [], 0%nat, (emit WARNING (snd (exhausted_warning job_id retries)) env s).2.
    split; [|split; [cbn; lia|split; [done|split; [done|split; [done|]]]]].
    + intros acc. rewrite app_nil_r. by destruct s.
    + destruct s. cbn. by rewrite app_nil_r.
  - destruct (scrape_job_page_run job_id env s) as (Hres & Hsent & _).
    destruct (scrape_job_page job_id env s) as [o s1] eqn:Hpage.
    cbn in Hres, Hsent. subst o.
    destruct (fetched job_id _) as [d|] eqn:Hf.
    + destruct (fetched_record_of _ _ _ Hf) as [Hrec Hne].
      exists [d], 1%nat, (emit INFO ("Successfully scraped job " +:+ job_id) env s1).2.
      split; [|split; [cbn; lia|split; [by apply Forall_singleton|
               split; [cbn; lia|split; [done|]]]]].
      * intros acc. cbn [retry_loop]. rewrite run_bind, Hpage.
        rewrite bool_decide_false by done. by destruct s1.
      * destruct s1. cbn in *. by rewrite Hsent.
    + destruct (sleep_uniform_run env s1) as (s2 & Hsleep & Hs2 & _).
      destruct (IH s2) as (new & n & s' & Hrun & Hlen & Hall & Hn & _ & Hsent').
      exists new, (S n), s'.
      split; [|split; [done|split; [done|split; [cbn; lia|split; [lia|]]]]].
      * intros acc. cbn [retry_loop]. rewrite run_bind, Hpage, run_bind, Hsleep.
        apply Hrun.
      * rewrite Hsent', Hs2, Hsent, <-app_assoc. done.
Qed.

(** The requests of the resolving phase: [n] requests for each identifier,
    identifier after identifier. *)
Definition attempts_for (job_ids : list string) (ns : list nat) : list Request :=
  List.concat (zip_with (fun job_id n => replicate n (job_page_request job_id)) job_ids ns).

Lemma resolve_loop_trace env :
  forall job_ids s,
  exists per_id ns s',
    (forall acc, resolve_loop max_retries job_ids acc env s
                 = (Ok (acc ++ List.concat per_id), s')) /\
    Forall2 (fun job_id ds => (List.length ds <= 1)%nat /\ Forall (record_of job_id) ds)
            job_ids per_id /\
    List.length ns = List.length job_ids /\
    Forall (fun n => 1 <= n <= max_retries)%nat ns /\
    sent s' = sent s ++ attempts_for job_ids ns.
Proof.
  induction job_ids as [|job_id job_ids IH]; intros s.
  - exists [], [], s. split; [|split; [constructor|split; [done|split; [constructor|]]]].
    + intros acc. by rewrite app_nil_r.
    + unfold attempts_for. cbn. by rewrite app_nil_r.
  - destruct (retry_loop_trace env job_id max_retries (seq 0 max_retries) s)
      as (new & n & s1 & Hrun1 & Hlen1 & Hall1 & Hn & Hn1 & Hsent1).
    destruct (IH s1) as (per_id & ns & s2 & Hrun2 & Hper & Hlen & Hns & Hsent2).
    exists (new :: per_id), (n :: ns), s2.
    split; [|split; [by constructor|split; [cbn; lia|split]]].
    + intros acc. cbn [resolve_loop List.concat]. rewrite run_bind, Hrun1, Hrun2.
      by rewrite app_assoc.
    + constructor; [|done]. rewrite length_seq in Hn. split; [|done].
      apply Hn1. unfold max_retries. discriminate.
    + unfold attempts_for in *. cbn [zip_with List.concat].
      by rewrite Hsent2, Hsent1, <-app_assoc.
Qed.

(** X10. A LinkedIn run that returns has resolved the discovered identifiers
    in discovery order: its records are, identifier after identifier, at most
    one record built for that identifier. The detail requests follow the same
    order, at least one and at most [max_retries] for each identifier, and no
    other request is made after pagination. *)
Theorem resolved_in_discovery_order_within_budget lp env s lresp ls :
  scrape_linkedin_jobs lp env s = (Ok lresp, ls) ->
  exists job_ids s0 per_id ns,
    listing_loop lp (range (pages lp)) [] env s = (Ok job_ids, s0) /\
    data lresp = map (with_platform "LinkedIn") (List.concat per_id) /\
    Forall2 (fun job_id ds => (List.length ds <= 1)%nat /\ Forall (record_of job_id) ds)
            job_ids per_id /\
    List.length ns = List.length job_ids /\
    Forall (fun n => 1 <= n <= 3)%nat ns /\
    sent ls = sent s0 ++ attempts_for job_ids ns.
Proof.
  intros Hrun.
  destruct (listing_loop lp (range (pages lp)) [] env s) as [[job_ids|e] s0] eqn:Hlist.
  - destruct (resolve_loop_trace env job_ids s0)
      as (per_id & ns & s' & Hres & Hper & Hlen & Hns & Hsent).
    destruct (scrape_linkedin_jobs_resolved _ _ _ _ _ Hlist) as (records & s'' & Hres' & Heq).
    specialize (Hres []). specialize (Hres' []). rewrite Hres in Hres'.
    injection Hres' as <- <-. rewrite Heq in Hrun. injection Hrun as <- <-.
    by exists job_ids, s0, per_id, ns.
  - apply scrape_linkedin_jobs_aborted in Hlist. rewrite Hrun in Hlist. discriminate.
Qed.

(** X11. Whatever goes wrong, the LinkedIn endpoint raises nothing but an
    HTTP 500 error whose detail starts with ["LinkedIn scraping failed: "],
    and the last entry of the log is that error. *)
Theorem linkedin_endpoint_failures_are_500 lp env s e :
  (scrape_linkedin_jobs lp env s).1 = Raised e ->
  exists cause,
    e = HTTPException 500 ("LinkedIn scraping failed: " +:+ cause) /\
    last (log (scrape_linkedin_jobs lp env s).2)
      = Some (ERROR, "LinkedIn scraping failed: " +:+ cause).
Proof.
  unfold scrape_linkedin_jobs, try_except. rewrite run_bind.
  destruct (scrape_jobs_linkedin lp env s) as [[records|e0] s1].
  - done.
  - destruct s1. cbn. intros [= <-]. exists (str_exn e0). split; [done|].
    apply last_snoc.
Qed.

End Budget.

(* --------------------------------------------------------------------- *)
(** ** scrape_indeed: one record per card *)
(* --------------------------------------------------------------------- *)

Section Cards.
Import Indeed.

(** X12. When the browser starts, the listing page loads and the first
    pointer movement passes, the Indeed endpoint returns exactly one record
    for each job card of the listing page, in document order: the record of a
    card is what its own detail navigation gives, and the count is the number
    of cards. *)
Theorem indeed_returns_one_record_per_card ip env s soup :
  chrome env = None ->
  browse env (List.length (visited s)) (page_url (filters_of ip) 0) = Ok soup ->
  gesture env (List.length (gestures s)) (MoveByOffset 10 10) = None ->
  exists response,
    (scrape_indeed_jobs ip env s).1 = Ok response /\
    success response = true /\
    count response = List.length (cards_of soup) /\
    data response = map (with_platform "Indeed")
                      (card_records env (S (List.length (visited s))) (cards_of soup)).
Proof.
  intros Hchrome Hbrowse Hgesture.
  eexists. split; [by apply indeed_run_exact|].
  cbn. by rewrite card_records_length.
Qed.

(** X13. When the first pointer movement of the interaction simulation is
    rejected, the failure is caught by [scrape_indeed]: the listing page
    had loaded, and the endpoint still answers with an empty successful
    response, the interruption only printed. *)
Theorem rejected_pointer_empties_indeed_run ip env s soup e :
  chrome env = None ->
  browse env (List.length (visited s)) (page_url (filters_of ip) 0) = Ok soup ->
  gesture env (List.length (gestures s)) (MoveByOffset 10 10) = Some e ->
  let r := scrape_indeed_jobs ip env s in
  r.1 = Ok {| success := true; message := Some "Found 0 Indeed jobs";
              count := 0; data := [] |} /\
  (PRINT, "Scraping interrupted: " +:+ str_exn e) ∈ log r.2.
Proof.
  intros Hchrome Hbrowse Hgesture.
  destruct s as [snt vis pg ges drw lg q det jl].
  unfold scrape_indeed_jobs, scrape_indeed, scrape_pages, get_driver, start_chrome,
    execute_script, PAGES_TO_SCRAPE.
  change (range 1) with [0%nat]. run. rewrite Hchrome. cbn [for_each]. run.
  match goal with
  | |- context [scrape_page (filters_of ip) 0 env ?s1] =>
      pose proof (scrape_page_exact (filters_of ip) 0 env s1 soup Hbrowse) as Hpage;
      destruct (scrape_page (filters_of ip) 0 env s1) as [o s2]
  end.
  cbn in Hpage, Hgesture. rewrite Hgesture in Hpage. destruct Hpage as [-> Hjl].
  destruct s2. cbn in Hjl |- *. subst. split; [done|].
  rewrite !elem_of_app, !list_elem_of_singleton. auto.
Qed.

(** X14. The Indeed endpoint fails exactly when [get_driver] raises, that
    is when [uc.Chrome] does not start or when the [execute_script] call
    that follows it raises: the error is then HTTP 500 with the cause in its
    detail, and no page has been visited. Once [get_driver] has returned the
    endpoint always answers with a successful response. *)
Theorem indeed_endpoint_fails_only_in_get_driver ip env s :
  let r := scrape_indeed_jobs ip env s in
  match chrome env with
  | Some failure =>
      r.1 = Raised (HTTPException 500
                      ("Indeed scraping failed: " +:+ str_exn (start_error failure))) /\
      visited r.2 = visited s
  | None => exists response, r.1 = Ok response /\ success response = true
  end.
Proof.
  cbn zeta. destruct (chrome env) as [failure|] eqn:Hchrome.
  - by destruct (scrape_indeed_jobs_no_browser ip env s failure Hchrome) as (-> & -> & _).
  - destruct (scrape_indeed_jobs_run ip env s Hchrome) as (cards & records & -> & _).
    by eexists.
Qed.

(** X15. [driver.quit()] is called exactly when [get_driver] has returned:
    it has then been called when the endpoint returns, whether or not the
    page loop was interrupted. [get_driver] is called before the [try]
    block, so when it raises [driver.quit()] is never called: when Chrome
    did not start there is nothing to quit, but when Chrome started and the
    [execute_script] call raised, the endpoint fails with HTTP 500 and the
    browser that was started is left running. *)
Theorem driver_quit_only_after_get_driver ip env s :
  let r := scrape_indeed_jobs ip env s in
  match chrome env with
  | None => driver_quit r.2 = true
  | Some (NotStarted _) => driver_quit r.2 = driver_quit s
  | Some (ScriptFailed e) =>
      r.1 = Raised (HTTPException 500 ("Indeed scraping failed: " +:+ str_exn e)) /\
      driver_quit r.2 = driver_quit s
  end.
Proof.
  cbn zeta. destruct (chrome env) as [failure|] eqn:Hchrome.
  - destruct (scrape_indeed_jobs_no_browser ip env s failure Hchrome) as (Hres & _ & Hquit).
    by destruct failure.
  - destruct s as [snt vis pg ges drw lg q det jl].
    unfold scrape_indeed_jobs, scrape_indeed, scrape_pages, get_driver, start_chrome,
      execute_script, PAGES_TO_SCRAPE.
    change (range 1) with [0%nat]. run. rewrite Hchrome. cbn [for_each]. run.
    match goal with
    | |- context [scrape_page (filters_of ip) 0 env ?s1] =>
        destruct (scrape_page (filters_of ip) 0 env s1) as [[[]|e] s2]
    end; by destruct s2.
Qed.

End Cards.

(* --------------------------------------------------------------------- *)
(** ** human_like_interaction: what it does to the browser *)
(* --------------------------------------------------------------------- *)

Section Gestures.
Import Indeed.

(** A cursor movement of the first loop: both offsets within [-50, 50]. *)
Definition small_move (g : Gesture) : Prop :=
  exists x y, g = MoveByOffset x y /\ -50 <= x <= 50 /\ -50 <= y <= 50.

(** Each guarded step ends normally and adds one gesture of the given kind. *)
Definition adds_one (P : Gesture -> Prop) (step : M unit) : Prop :=
  forall env s,
    (step env s).1 = Ok tt /\
    exists g, P g /\ gestures (step env s).2 = gestures s ++ [g].

Lemma mouse_move_adds_small_move : adds_one small_move mouse_move.
Proof.
  intros env []. unfold mouse_move. run.
  match goal with
  | |- context [MoveByOffset ?x ?y] =>
      assert (Hx : -50 <= x <= 50)
        by (match goal with
            | |- context [?a `mod` ?b] => pose proof (Z.mod_pos_bound a b); lia
            end);
      assert (Hy : -50 <= y <= 50)
        by (match goal with
            | |- _ <= _ + ?a `mod` ?b <= _ => pose proof (Z.mod_pos_bound a b); lia
            end)
  end.
  destruct (gesture env _ _); cbn; (split; [done|]);
    match goal with
    | |- context [_ ++ [MoveByOffset ?x ?y]] =>
        exists (MoveByOffset x y); split; [|done];
        exists x, y; split; [reflexivity|split; assumption]
    end.
Qed.

Lemma scroll_adds_find_body : adds_one (fun g => g = FindBody) scroll.
Proof.
  intros env []. unfold scroll. run.
  destruct (Nat.even _); destruct (gesture env _ _); cbn; (split; [done|]);
    by eexists.
Qed.

Lemma for_each_adds {A} (P : Gesture -> Prop) (xs : list A) (step : M unit) env :
  adds_one P step ->
  forall s,
    (for_each xs (fun _ => step) env s).1 = Ok tt /\
    exists gs,
      List.length gs = List.length xs /\ Forall P gs /\
      gestures (for_each xs (fun _ => step) env s).2 = gestures s ++ gs.
Proof.
  intros Hstep. induction xs as [|x xs IH]; intros s.
  - cbn. split; [done|]. exists []. by rewrite app_nil_r.
  - rewrite run_for_each_cons.
    destruct (Hstep env s) as (Hok & g & Hg & Hges).
    destruct (step env s) as [o s1]. cbn in Hok, Hges. subst o.
    destruct (IH s1) as (Hok' & gs & Hlen & Hall & Hges').
    split; [done|]. exists (g :: gs).
    split; [cbn; lia|]. split; [by constructor|].
    by rewrite Hges', Hges, <-app_assoc.
Qed.

(** X16. Once its first movement has passed, the interaction simulation
    never raises, and what it asks of the browser is exactly: the movement
    by (10, 10), then between 2 and 4 cursor movements with both offsets in
    [-50, 50], then between 3 and 5 look-ups of the page body. *)
Theorem interaction_gestures env s :
  gesture env (List.length (gestures s)) (MoveByOffset 10 10) = None ->
  let r := human_like_interaction env s in
  r.1 = Ok tt /\
  exists moves scrolls,
    (2 <= List.length moves <= 4)%nat /\ Forall small_move moves /\
    (3 <= List.length scrolls <= 5)%nat /\ Forall (fun g => g = FindBody) scrolls /\
    gestures r.2 = gestures s ++ MoveByOffset 10 10 :: moves ++ scrolls.
Proof.
  intros Hg. destruct s as [snt vis pg ges drw lg q det jl].
  unfold human_like_interaction. run. cbn in Hg. rewrite Hg.
  match goal with
  | |- context [for_each (range ?n) (fun _ => mouse_move) env ?s1] =>
      destruct (for_each_adds small_move (range n) mouse_move env
                  mouse_move_adds_small_move s1) as (Hok1 & moves & Hlen1 & Hall1 & Hges1);
      assert (Hn : 2 <= n <= 4)
        by (match goal with
            | |- context [?a `mod` ?b] => pose proof (Z.mod_pos_bound a b); lia
            end);
      rewrite range_length in Hlen1;
      destruct (for_each (range n) (fun _ => mouse_move) env s1) as [o1 s2]
  end.
  cbn in Hok1, Hges1. subst o1. destruct s2 as [snt2 vis2 pg2 ges2 drw2 lg2 q2 det2 jl2].
  cbn in Hges1. subst ges2. run.
  match goal with
  | |- context [for_each (range ?n) (fun _ => scroll) env ?s1] =>
      destruct (for_each_adds (fun g => g = FindBody) (range n) scroll env
                  scroll_adds_find_body s1) as (Hok2 & scrolls & Hlen2 & Hall2 & Hges2);
      assert (Hm : 3 <= n <= 5)
        by (match goal with
            | |- context [?a `mod` ?b] => pose proof (Z.mod_pos_bound a b); lia
            end);
      rewrite range_length in Hlen2;
      destruct (for_each (range n) (fun _ => scroll) env s1) as [o2 s3]
  end.
  cbn in Hok2, Hges2. subst o2. destruct s3. cbn in Hges2 |- *. subst.
  split; [done|]. exists moves, scrolls.
  split; [lia|]. split; [done|]. split; [lia|]. split; [done|].
  by rewrite <-!app_assoc.
Qed.

End Gestures.

(* --------------------------------------------------------------------- *)
(** ** get_job_details: the location and the card without a link *)
(* --------------------------------------------------------------------- *)

Section Location.
Import Indeed.



(** X18. A card without a title link still costs a navigation, to the empty
    URL; when the browser rejects that URL the record returned for the card
    is the untouched template. *)
Theorem card_without_link_yields_template job_card env s e :
  title_link job_card = None ->
  browse env (List.length (visited s)) "" = Raised e ->
  let r := get_job_details job_card env s in
  r.1 = Ok template /\ visited r.2 = visited s ++ [""].
Proof.
  intros Hlink Hbrowse.
  destruct (get_job_details_run job_card env s) as (Hres & Hvis & _).
  revert Hres Hvis. unfold card_url, expected_details, card_fields.
  rewrite Hlink, Hbrowse. by intros -> ->.
Qed.

End Location.

(* --------------------------------------------------------------------- *)
(** ** The paging offset and the shape of the records *)
(* --------------------------------------------------------------------- *)

Section Shape.
Import Indeed LinkedIn.

Lemma assoc_set_fresh k v d :
  k ∉ map fst d -> assoc_set k v d = d ++ [(k, v)].
Proof.
  induction d as [|[k0 v0] d IH]; cbn; [done|].
  intros [Hne Hk]%not_elem_of_cons.
  destruct (String.eqb_spec k0 k) as [->|_]; [done|]. by rewrite IH.
Qed.

Lemma filter_keys {A} (p : string * A -> bool) l k :
  k ∈ map fst (List.filter p l) -> k ∈ map fst l.
Proof.
  intros ((k0 & v) & -> & Hin)%list_elem_of_fmap.
  apply list_elem_of_In, filter_In in Hin as [Hin _].
  apply list_elem_of_fmap. exists (k0, v). split; [done|]. by apply list_elem_of_In.
Qed.

(** X19. The paging offset is added as the last parameter of the query and
    never replaces a filter of the caller, on both boards; the Indeed query
    always begins with the title as [q]. *)
Theorem start_is_appended ip lp page :
  page_params (filters_of ip) page
    = filters_of ip ++ [("start", VInt (Z.of_nat page * 10))] /\
  (exists rest, filters_of ip = ("q", VStr (job_title ip)) :: rest) /\
  req_params (listing_request lp page)
    = params_dict lp ++ [("start", VInt (Z.of_nat page * 25))].
Proof.
  split; [|split].
  - unfold page_params. apply assoc_set_fresh.
    intros Hin. unfold filters_of in Hin. apply filter_keys in Hin.
    cbn in Hin. set_solver.
  - unfold filters_of. cbn. by eexists.
  - reflexivity.
Qed.

(** X20. All the records of an Indeed response have the same nineteen keys:
    the eighteen of the template and [platform]. *)
Theorem indeed_records_share_keys ip env s iresp s' d :
  scrape_indeed_jobs ip env s = (Ok iresp, s') ->
  d ∈ data iresp ->
  dom d = list_to_set ("platform" :: keys).
Proof.
  intros Hrun Hd.
  destruct (indeed_run_ok _ _ _ _ _ Hrun) as (cards & records & -> & _ & Hrec).
  cbn [data] in Hd. apply list_elem_of_fmap in Hd as (rec & -> & Hin).
  rewrite Forall_forall in Hrec. destruct (Hrec rec Hin) as (card & page & ->).
  unfold with_platform. rewrite dom_union_L, dom_singleton_L, expected_details_dom.
  cbn. set_solver.
Qed.

End Shape.

(* --------------------------------------------------------------------- *)
(** ** An empty listing page *)
(* --------------------------------------------------------------------- *)

Section EmptyPage.
Import LinkedIn.


End EmptyPage.

(* --------------------------------------------------------------------- *)
(** ** LinkedIn: a run in which every detail page is served *)
(* --------------------------------------------------------------------- *)

Section Served.
Import LinkedIn.

Lemma resolve_loop_served env (record : string -> Dict) :
  forall job_ids s,
    (forall job_id n, job_id ∈ job_ids ->
       fetched job_id (http env n (job_page_request job_id)) = Some (record job_id)) ->
    exists s',
      (forall acc, resolve_loop max_retries job_ids acc env s
                   = (Ok (acc ++ map record job_ids), s')) /\
      sent s' = sent s ++ map job_page_request job_ids.
Proof.
  induction job_ids as [|job_id job_ids IH]; intros s Hserved.
  - exists s. split; [|by rewrite app_nil_r]. intros acc. by rewrite app_nil_r.
  - destruct (scrape_job_page_run job_id env s) as (Hres & Hsent & _).
    destruct (scrape_job_page job_id env s) as [o s1] eqn:Hpage.
    cbn in Hres, Hsent. subst o.
    rewrite (Hserved job_id _ (list_elem_of_here _ _)) in Hpage.
    destruct (fetched_record_of _ _ _ (Hserved job_id (List.length (sent s))
                                         (list_elem_of_here _ _))) as [_ Hne].
    destruct (IH (emit INFO ("Successfully scraped job " +:+ job_id) env s1).2)
      as (s' & Hrun & Hsent').
    { intros id n Hin. apply Hserved. by apply elem_of_cons; right. }
    exists s'. split.
    + intros acc. cbn [resolve_loop]. rewrite run_bind.
      change (seq 0 max_retries) with (0 :: seq 1 2)%nat. cbn [retry_loop].
      rewrite run_bind, Hpage. rewrite bool_decide_false by done.
      specialize (Hrun (acc ++ [record job_id])). destruct s1.
      cbn -[max_retries resolve_loop] in Hrun. run. rewrite Hrun, <-app_assoc. done.
    + rewrite Hsent'. destruct s1. cbn in Hsent |- *. rewrite Hsent, <-app_assoc. done.
Qed.

(** X22. When the detail page of every discovered identifier is served
    whenever it is requested, nothing is dropped and nothing is merged: the
    response has one record for each discovered identifier, in discovery
    order and with repetitions kept, and exactly one detail request was made
    for each. *)
Theorem served_identifiers_resolved_once lp env s job_ids s0 (record : string -> Dict) :
  listing_loop lp (range (pages lp)) [] env s = (Ok job_ids, s0) ->
  (forall job_id n, job_id ∈ job_ids ->
     fetched job_id (http env n (job_page_request job_id)) = Some (record job_id)) ->
  let r := scrape_linkedin_jobs lp env s in
  (exists response,
     r.1 = Ok response /\
     count response = List.length job_ids /\
     data response = map (fun job_id => with_platform "LinkedIn" (record job_id)) job_ids) /\
  sent r.2 = sent s0 ++ map job_page_request job_ids.
Proof.
  intros Hlist Hserved.
  destruct (resolve_loop_served env record job_ids s0 Hserved) as (s' & Hrun & Hsent).
  destruct (scrape_linkedin_jobs_resolved _ _ _ _ _ Hlist) as (records & s'' & Hrun' & ->).
  specialize (Hrun []). specialize (Hrun' []). rewrite Hrun in Hrun'.
  injection Hrun' as <- <-. cbn. split; [|done].
  eexists. split; [done|]. cbn. by rewrite length_map, map_map.
Qed.

(** X23. The criteria are laid over the fixed fields: a heading of the
    criteria list whose normalised form is the name of a field replaces that
    field in the record [scrape_job_page] returns, the identifier included. *)
Theorem criteria_override_fixed_fields job_id env s response d c k v :
  http env (List.length (sent s)) (job_page_request job_id) = Ok response ->
  (scrape_job_page job_id env s).1 = Ok (Some d) ->
  get_job_criteria (body response) = Ok c ->
  c !! k = Some v ->
  d !! k = Some v.
Proof.
  intros Hhttp Hpage Hc Hk.
  destruct (scrape_job_page_run job_id env s) as [Hres _]. cbn zeta in Hres.
  rewrite Hres, Hhttp in Hpage. unfold fetched in Hpage.
  case_bool_decide; [done|].
  destruct (job_record job_id (body response)) as [d'|] eqn:Hrec; [|done].
  injection Hpage as ->.
  destruct (job_record_ok _ _ _ Hrec) as (c' & fields & Hc' & -> & _).
  rewrite Hc in Hc'. injection Hc' as <-.
  by apply lookup_union_Some_l.
Qed.

End Served.

(* --------------------------------------------------------------------- *)
(** ** The further properties on the fixtures *)
(* --------------------------------------------------------------------- *)

Module ExtraCases.
Import Indeed LinkedIn IndeedScenario.

Definition criteria_item (heading value : string) : Node :=
  Elem "li" ["description__job-criteria-item"] []
    [Elem "h3" [] [] [Text heading]; Elem "span" [] [] [Text value]].

Definition item_without_span : Node :=
  Elem "li" ["description__job-criteria-item"] [] [Elem "h3" [] [] [Text "Industries"]].

Definition promoted_item : Node := Elem "li" [] [] [Text "Promoted"].

(** A listing page with an [li] that has no base card. *)
Definition net_bare_item : Env :=
  {| http := fun _ _ =>
       Ok {| status_code := 200;
             body := [Elem "ul" [] [] [Scenario.listing_item "1001"; promoted_item]] |};
     chrome := None; browse := Scenario.no_browser; gesture := fun _ _ => None;
     entropy := fun n => n |}.


Definition no_pages : LinkedInSearchParams :=
  {| keywords := "Data Scientist"; LinkedIn.location := None; LinkedIn.remote := None;
     LinkedIn.experience_level := None; LinkedIn.job_type := None;
     time_posted := None; pages := 0 |}.

Definition move_rejected : Exn :=
  PyExc "MoveTargetOutOfBoundsException" "move target out of bounds".

(** The browser of [ContractCases.two_boards], with a first pointer movement
    that is rejected. *)
Definition pointer_rejected : Env :=
  {| http := http ContractCases.two_boards;
     chrome := None;
     browse := browse ContractCases.two_boards;
     gesture := fun n _ => match n with O => Some move_rejected | _ => None end;
     entropy := fun n => n |}.

Lemma malformed_criteria_item_is_skipped_witness :
  criteria_loop ([criteria_item "Seniority level" "Entry level"] ++
                 item_without_span :: [criteria_item "Job function" "Engineering"]) ∅
  = criteria_loop ([criteria_item "Seniority level" "Entry level"] ++
                   [criteria_item "Job function" "Engineering"]) ∅.
Proof. apply malformed_criteria_item_is_skipped. right. reflexivity. Defined.

Lemma criteria_last_heading_wins_witness :
  exists c,
    criteria_loop ([criteria_item "Seniority level" "Entry level"] ++
                   criteria_item "Seniority level" "Director" ::
                   [criteria_item "Job function" "Engineering"]) ∅ = Ok c /\
    c !! "seniority_level" = Some (VStr "Director").
Proof.
  apply criteria_last_heading_wins.
  - reflexivity.
  - intros later k v Hin Hentry. apply list_elem_of_singleton in Hin. subst later.
    cbv in Hentry. injection Hentry as <- _. discriminate.
Defined.

Lemma criteria_keys_normalised_witness :
  exists c,
    get_job_criteria Scenario.detail_page = Ok c /\
    (forall k, is_Some (c !! k) -> normalised k).
Proof.
  destruct (get_job_criteria_total Scenario.detail_page) as [c Hc].
  exists c. split; [exact Hc|].
  intros k. exact (criteria_keys_normalised Scenario.detail_page c k Hc).
Defined.

Lemma scraped_record_has_fixed_keys_witness :
  is_Some (Scenario.record_1001 !! "location").
Proof.
  apply (scraped_record_has_fixed_keys "1001" IsolationCases.both_boards initial).
  - destruct (scrape_job_page_run "1001" IsolationCases.both_boards initial) as [-> _].
    exact (f_equal Ok Scenario.served_1001).
  - unfold fixed_keys. rewrite !elem_of_cons. tauto.
Defined.

Lemma entity_urn_identifier_witness :
  card_id (Scenario.listing_item "1001") = Ok "1001".
Proof.
  eapply (entity_urn_identifier _ _ "urn:li:jobPosting" "1001");
    [reflexivity|reflexivity|reflexivity].
Defined.

Lemma collected_ids_in_document_order_witness :
  collect_ids [Scenario.listing_item "1001"; Scenario.listing_item "1002"] ["1000"]
  = Ok (["1000"] ++ List.filter PyStr.truthy
          (map item_id [Scenario.listing_item "1001"; Scenario.listing_item "1002"])).
Proof.
  apply collected_ids_in_document_order.
  intros job Hin. apply elem_of_cons in Hin as [->|Hin]; [eexists; reflexivity|].
  apply list_elem_of_singleton in Hin as ->. eexists; reflexivity.
Defined.

Lemma item_without_card_aborts_run_witness :
  exists detail,
    (scrape_linkedin_jobs linkedin_data_scientist net_bare_item initial).1
      = Raised (HTTPException 500 detail).
Proof.
  eapply (item_without_card_aborts_run _ _ _ _ promoted_item).
  - cbn. lia.
  - reflexivity.
  - reflexivity.
  - apply elem_of_cons. right. apply elem_of_cons. left. reflexivity.
  - reflexivity.
Defined.

Lemma no_pages_no_requests_witness :
  scrape_linkedin_jobs no_pages ContractCases.all_blocked initial =
    (Ok {| success := true; message := Some "Found 0 LinkedIn jobs";
           count := 0; data := [] |}, initial).
Proof. apply no_pages_no_requests. cbn. lia. Defined.

Lemma resolved_in_discovery_order_within_budget_witness :
  let l := scrape_linkedin_jobs linkedin_data_scientist ContractCases.two_boards initial in
  exists job_ids ns,
    List.length ns = List.length job_ids /\
    Forall (fun n => 1 <= n <= 3)%nat ns /\
    exists s0, sent l.2 = sent s0 ++ attempts_for job_ids ns.
Proof.
  intros l.
  destruct (resolved_in_discovery_order_within_budget linkedin_data_scientist
              ContractCases.two_boards initial _ _ ContractCases.two_boards_linkedin)
    as (job_ids & s0 & per_id & ns & _ & _ & _ & Hlen & Hns & Hsent).
  exists job_ids, ns. split; [exact Hlen|]. split; [exact Hns|].
  exists s0. exact Hsent.
Defined.

Lemma linkedin_endpoint_failures_are_500_witness :
  exists cause,
    HTTPException 500 "LinkedIn scraping failed: 500: 429: Failed to fetch jobs"
      = HTTPException 500 ("LinkedIn scraping failed: " +:+ cause) /\
    last (log (scrape_linkedin_jobs linkedin_data_scientist
                 ContractCases.all_blocked initial).2)
      = Some (ERROR, "LinkedIn scraping failed: " +:+ cause).
Proof. apply linkedin_endpoint_failures_are_500. vm_compute. reflexivity. Defined.

Lemma indeed_returns_one_record_per_card_witness :
  exists response,
    (scrape_indeed_jobs (title_only "Data Scientist") ContractCases.two_boards initial).1
      = Ok response /\
    success response = true /\
    count response = List.length (cards_of [card_abc; card_bare]) /\
    data response = map (with_platform "Indeed")
                      (card_records ContractCases.two_boards
                         (S (List.length (visited initial)))
                         (cards_of [card_abc; card_bare])).
Proof. apply indeed_returns_one_record_per_card; reflexivity. Defined.

Lemma rejected_pointer_empties_indeed_run_witness :
  let r := scrape_indeed_jobs (title_only "Data Scientist") pointer_rejected initial in
  r.1 = Ok {| success := true; message := Some "Found 0 Indeed jobs";
              count := 0; data := [] |} /\
  (PRINT, "Scraping interrupted: " +:+ str_exn move_rejected) ∈ log r.2.
Proof.
  apply (rejected_pointer_empties_indeed_run _ _ _ [card_abc; card_bare]); reflexivity.
Defined.

Lemma interaction_gestures_witness :
  let r := human_like_interaction (browser_serving [] page_full) initial in
  r.1 = Ok tt /\
  exists moves scrolls,
    (2 <= List.length moves <= 4)%nat /\ Forall small_move moves /\
    (3 <= List.length scrolls <= 5)%nat /\ Forall (fun g => g = FindBody) scrolls /\
    gestures r.2 = gestures initial ++ MoveByOffset 10 10 :: moves ++ scrolls.
Proof. apply interaction_gestures. reflexivity. Defined.


Lemma card_without_link_yields_template_witness :
  let r := get_job_details card_bare (browser_serving [] page_full) initial in
  r.1 = Ok template /\ visited r.2 = visited initial ++ [""].
Proof.
  apply (card_without_link_yields_template _ _ _ invalid_url); reflexivity.
Defined.

Lemma indeed_records_share_keys_witness :
  dom (with_platform "Indeed" (expected_details card_abc (Ok page_full)))
    = list_to_set ("platform" :: keys).
Proof.
  pose proof ContractCases.two_boards_indeed as Hrun. cbv zeta in Hrun.
  apply (indeed_records_share_keys _ _ _ _ _ _ Hrun).
  unfold ContractCases.returned.
  rewrite (indeed_run_exact _ _ _ [card_abc; card_bare]) by reflexivity.
  cbn [data]. change (cards_of [card_abc; card_bare]) with [card_abc; card_bare].
  cbn [card_records map]. apply list_elem_of_here.
Defined.


(** A detail page whose criteria list has an item headed [Job id]. *)
Definition page_overriding : Soup :=
  [ Elem "h2" ["top-card-layout__title"] [] [Text " Data Scientist "];
    Elem "ul" [] [] [criteria_item "Job id" "9999"] ].

Definition net_overriding : Env :=
  {| http := fun _ _ => Ok {| status_code := 200; body := page_overriding |};
     chrome := None; browse := Scenario.no_browser; gesture := fun _ _ => None;
     entropy := fun n => n |}.

Lemma page_overriding_record :
  exists d, (scrape_job_page "1001" net_overriding initial).1 = Ok (Some d).
Proof.
  destruct (scrape_job_page_run "1001" net_overriding initial) as [-> _].
  destruct (fetched_served "1001" {| status_code := 200; body := page_overriding |})
    as [d Hd]; [reflexivity|eexists; vm_compute; reflexivity|].
  exists d. exact (f_equal Ok Hd).
Qed.

Lemma page_overriding_criteria :
  exists c, get_job_criteria page_overriding = Ok c /\ c !! "job_id" = Some (VStr "9999").
Proof. eexists. split; vm_compute; reflexivity. Qed.

Lemma net_1001_only_listing :
  (listing_loop linkedin_data_scientist (range (pages linkedin_data_scientist)) []
     Scenario.net_1001_only initial).1 = Ok ["1001"].
Proof. vm_compute. reflexivity. Qed.

Lemma served_identifiers_resolved_once_witness :
  let s0 := (listing_loop linkedin_data_scientist (range (pages linkedin_data_scientist)) []
               Scenario.net_1001_only initial).2 in
  let r := scrape_linkedin_jobs linkedin_data_scientist Scenario.net_1001_only initial in
  (exists response,
     r.1 = Ok response /\
     count response = List.length ["1001"] /\
     data response = map (fun job_id => with_platform "LinkedIn"
                                          ((fun _ => Scenario.record_1001) job_id))
                       ["1001"]) /\
  sent r.2 = sent s0 ++ map job_page_request ["1001"].
Proof.
  intros s0.
  apply (served_identifiers_resolved_once linkedin_data_scientist Scenario.net_1001_only
           initial ["1001"] s0 (fun _ => Scenario.record_1001)).
  - subst s0. rewrite <-net_1001_only_listing. apply surjective_pairing.
  - intros job_id n Hin. apply list_elem_of_singleton in Hin. subst job_id.
    exact Scenario.served_1001.
Defined.

Lemma criteria_override_fixed_fields_witness :
  exists d,
    (scrape_job_page "1001" net_overriding initial).1 = Ok (Some d) /\
    d !! "job_id" = Some (VStr "9999").
Proof.
  destruct page_overriding_record as [d Hd].
  destruct page_overriding_criteria as (c & Hc & Hk).
  exists d. split; [exact Hd|].
  exact (criteria_override_fixed_fields "1001" net_overriding initial
           {| status_code := 200; body := page_overriding |} d c "job_id" (VStr "9999")
           eq_refl Hd Hc Hk).
Defined.

End ExtraCases.
